(* ===== verification/_CoqProject ===== *)
-Q . S2P
Prelude.v
JsString.v
JsValue.v
Validator.v
Multipart.v
KeyDeriver.v
Storage.v
Upload.v
Uri.v
Lookup.v
Server.v
Refinement.v
Config.v
Client.v
