(* ===== verification/Prelude.v ===== *)
(** * Profile-picture API: a verification development

    The program ([src/server.js], the earlier revision of the same server
    that [src/README.md] carries from its line 92 on, and the client check
    [src/test-api.js]) is an Express HTTP server that stores uploaded
    profile pictures in an S3 bucket.  Its parts, and how they interact:

    - start-up: [PORT], the loop over the four required variables, the
      bucket and [PROFILE_PREFIX] (server.js 11-31);
    - the upload route [POST /api/upload/profile-pic]: multer's
      [upload.single('file')] parses the multipart body (text fields into
      [req.body], one file into [req.file]) and runs the source's
      [fileFilter] and the 5 MiB limit; the handler derives the key from
      the id ([query.userId || query.user_id || body.userId ||
      body.user_id], or a [randomUUID()]) and the file's extension, puts
      the bytes with a content type and a cache policy, and answers the
      URL ([S3_PUBLIC_BASE_URL/key] or a URL presigned for six days);
    - the list route [GET /api/profile-pics] (at most 100 keys under
      [prefix/]) and the lookup route [GET /api/profile-pic/:key] (a URL
      presigned for one hour, after [decodeURIComponent]);
    - [GET /health] and the error middleware that turns multer's and the
      routes' errors into 400 or 500;
    - S3, reached through three SDK calls: an external collaborator;
    - [test-api.js]: [GET /health], then one upload, then a verdict.

    Files, in dependency order ([_CoqProject]):

    - [Prelude.v] (this file): [result] and its bind [<-?], the
      state-and-exception monad [stm] ([stm_bind], [stm_catch]: a JS
      [try]/[catch] that keeps the state at the throw) with its notation
      in [api_scope], shared string lemmas, the [strs] rewrite database.
    - [JsString.v]: [toLowerCase], [replace(/\//g,'-')],
      [replace(/\/$/,'')], [includes], and Node's [path.extname]
      translated from its loop (record [extname_state]).
    - [JsValue.v]: request values ([jsval]: undefined, string, array of
      strings, object given by its own keys), truthiness, [||], and
      [toString()], which throws on [undefined] and on an object whose
      own [toString] key shadows the method.
    - [Validator.v]: [fileFilter], the size limit, multer's order (filter
      first, then size) in [multer_accept_file].
    - [Multipart.v]: busboy's base name and [Content-Type] parsing
      ([busboy_mime]: lower-cased [type/subtype], [text/plain] when
      malformed), and multer's [upload.single('file')] over the parts of
      a body ([multer_single]): nameless files dropped, the
      unexpected-field check, the gate, [append-field] for text fields.
    - [KeyDeriver.v]: [rawUserId], the content type [resolve_mime], and
      [derive] in [Module ServerJs] and [Module ReadmeJs] (the revisions
      differ: extension in the key or not, optional or required id).
    - [Storage.v]: the class [ObjectStore] (put, get, list, presign) the
      handlers are written against, the class [ObjectStoreLaws] of what S3
      promises, and the in-memory bucket [mem_bucket] (a [gmap], a logical
      clock, an outage switch, an abstract signer) that satisfies them.
    - [Upload.v]: the upload handler of both revisions, as [stm]
      computations over any [ObjectStore].
    - [Uri.v]: ECMAScript's [decodeURIComponent] and
      [encodeURIComponent] over UTF-8 bytes.
    - [Lookup.v]: the list handler and the signed-URL handler.
    - [Server.v]: [GET /health], the error middleware, Express's
      parameter decoding, the router [app] of both revisions, and the
      step relations [server_step] and [readme_step] (one request, any
      request) with their closure [reachable].
    - [Refinement.v]: the specification's bucket (a map from keys to
      objects) with its per-request contract [spec_step], and the proof
      that each revision refines it over any sequence of requests.
    - [Config.v]: the start-up check and the defaults ([startup_of]).
    - [Client.v]: [test-api.js] ([client_main]) run against [server_app],
      [JSON.stringify], and the specification's scenarios.

    Theorems, by group (claims C1-C40; the handlers' theorems are proved
    from [ObjectStoreLaws] alone, so they hold for any store with S3's
    contract, and each is applied to [mem_bucket] by its witness):

    - the upload is all-or-nothing (201 after exactly one put, or no
      change), what a 201 leaves in the bucket, and its errors;
    - every request is answered and only the upload writes; over any
      sequence of requests every key stays directly under [prefix/], and
      each revision refines the specification's bucket (one key per
      request, image bytes of at most 5 MiB, the revision's cache policy),
      so objects outside [prefix/] are never touched; uploads at
      different keys commute;
    - the gate accepts the listed MIME types and extensions in any case,
      refuses the rest before looking at the size, and the size bound is
      exactly 5 MiB;
    - key shape and segment (and the one way deriving them fails: an id
      object with its own [toString], answered 500), collisions ([a/b]
      and [a-b]), the key's dependence on the extension, fresh keys,
      content types;
    - multipart: single-file rejections, a file under another field,
      nameless files dropped, a repeated [userId];
    - the listing (sorted, distinct, under the prefix, at most 100; the
      spec's two-upload scenario), the lookup (signs any key for an hour,
      decodes twice), the start-up check, the client script and the
      spec's end-to-end scenarios;
    - what modelling found: upper-case extensions, one-year caching of
      overwritable keys, ids whose [toString()] throws, repeated ids, a
      base URL of [/], keys with [%], a file under another field name.

    Bounds and fuel: sizes are [N] ([fileSize] is 5 * 1024 * 1024
    bytes); expiries are [Z] seconds, checked against SigV4's 604800;
    [decode_loop] runs with fuel [1 + length] of its input, which
    [decode_loop_total] shows is enough (each round consumes at least one
    character) and independent of the fuel beyond that.

    Strings: a Rocq [string] is a list of bytes; a JS string is
    represented by its UTF-8 encoding.  The operations modelled compare or
    rewrite ASCII characters only ([/], [.], [-], [%], [A-Z]); the bytes
    of a multi-byte UTF-8 sequence are all at least 0x80, so they never
    match those and the byte-level operation agrees with the JS one.
    [toLowerCase] is modelled on ASCII: the only non-ASCII letter whose
    lower case is ASCII (U+212A KELVIN SIGN, to [k]) cannot make a string
    equal to one of the literals the code compares with.

    Not modelled: the Express router's internals beyond route order and
    parameter decoding, CORS, [express.json()] (no route reads a JSON
    body), [dotenv], logging, the HTTP transport and the JSON text between
    [res.json] and the client's [res.json()], the SigV4 signature itself
    (an abstract function), [append-field]'s bracket syntax, the values
    under an object's keys and arrays holding objects (no handler reads
    them; [qs] builds them from [a[0][b]=c]), and
    interleaving inside one request (each handler makes at most one call
    that reads or writes objects, a put or a list, so a request is taken
    as one step). *)

From stdpp Require Import base strings list.
From Stdlib Require Import String Ascii ZArith Lia.

Declare Scope api_scope.
Delimit Scope api_scope with api.

(** Bytes compare with [decide], as the other data of the development. *)
#[export] Instance byte_eq_decision : EqDecision Byte.byte := Byte.byte_eq_dec.

(** ** Results of fallible code *)

(** A computation that returns a value or raises an error, as a
    [try]/[catch] or an early [return res.status(...)] of the source. *)
Inductive result (A E : Type) : Type :=
| Ok (a : A)
| Err (e : E).
Arguments Ok {A E} a.
Arguments Err {A E} e.

Definition bind_result {A B E} (r : result A E) (f : A -> result B E) : result B E :=
  match r with
  | Ok a => f a
  | Err e => Err e
  end.

Notation "x <-? c ;; k" := (bind_result c (fun x => k))
  (at level 100, c at next level, right associativity) : api_scope.

Definition is_ok {A E} (r : result A E) : bool :=
  match r with Ok _ => true | Err _ => false end.

(** ** Stateful code that can throw

    [stm S A] threads a state [S] through code that returns an [A] or
    throws an error message.  The state reached when an error is thrown is
    kept, as in JavaScript, where the effects of the calls that ran before
    a [throw] are not undone: a [try]/[catch] ([stm_catch]) sees the state
    at the throw. *)
Definition stm (S A : Type) : Type := S -> result A string * S.

Definition stm_ret {S A} (a : A) : stm S A := fun s => (Ok a, s).

Definition stm_bind {S A B} (m : stm S A) (f : A -> stm S B) : stm S B :=
  fun s => match m s with
           | (Ok a, s') => f a s'
           | (Err e, s') => (Err e, s')
           end.

Definition stm_throw {S A} (e : string) : stm S A := fun s => (Err e, s).

Definition stm_lift {S A} (r : result A string) : stm S A := fun s => (r, s).

Definition stm_catch {S A} (m : stm S A) (h : string -> stm S A) : stm S A :=
  fun s => match m s with
           | (Ok a, s') => (Ok a, s')
           | (Err e, s') => h e s'
           end.

Notation "x <- c ;; k" := (stm_bind c (fun x => k))
  (at level 100, c at next level, right associativity) : api_scope.

(** [has_char c s]: the character [c] occurs in [s]. *)
Fixpoint has_char (c : ascii) (s : string) : bool :=
  match s with
  | EmptyString => false
  | String x s' => if Ascii.eqb x c then true else has_char c s'
  end.

(** ** Lemmas on results and on [stm] *)

Lemma bind_result_Ok {A B E} (a : A) (f : A -> result B E) :
  bind_result (Ok a) f = f a.
Proof. reflexivity. Qed.

Lemma bind_result_Err {A B E} (e : E) (f : A -> result B E) :
  bind_result (Err e) f = Err e.
Proof. reflexivity. Qed.

Lemma bind_result_inv_Ok {A B E} (r : result A E) (f : A -> result B E) b :
  bind_result r f = Ok b -> exists a, r = Ok a /\ f a = Ok b.
Proof. destruct r; simpl; [eauto | discriminate]. Qed.

Lemma stm_bind_ret_l {S A B} (a : A) (f : A -> stm S B) s : stm_bind (stm_ret a) f s = f a s.
Proof. reflexivity. Qed.

Lemma stm_bind_Ok {S A B} (m : stm S A) (f : A -> stm S B) s a s' :
  m s = (Ok a, s') -> stm_bind m f s = f a s'.
Proof. unfold stm_bind. now intros ->. Qed.

Lemma stm_bind_Err {S A B} (m : stm S A) (f : A -> stm S B) s e s' :
  m s = (Err e, s') -> stm_bind m f s = (Err e, s').
Proof. unfold stm_bind. now intros ->. Qed.

Lemma stm_catch_Ok {S A} (m : stm S A) (h : string -> stm S A) s a s' :
  m s = (Ok a, s') -> stm_catch m h s = (Ok a, s').
Proof. unfold stm_catch. now intros ->. Qed.

Lemma stm_catch_Err {S A} (m : stm S A) (h : string -> stm S A) s e s' :
  m s = (Err e, s') -> stm_catch m h s = h e s'.
Proof. unfold stm_catch. now intros ->. Qed.

(** A [try] whose [catch] only answers never throws. *)
Lemma stm_catch_answers {S A} (m : stm S A) (h : string -> A) s :
  exists a s', stm_catch m (fun e => stm_ret (h e)) s = (Ok a, s').
Proof. unfold stm_catch. destruct (m s) as [[a|e] s']; eauto. Qed.

(** ** Strings *)

(** Strings follow stdpp's convention: literals in [stdpp_scope], append
    written [+:+], and [String.append] never unfolded by [simpl]; the
    lemma [str_app_cons] is the step that replaces it. *)

Lemma str_app_cons (c : ascii) (a b : string) : String c a +:+ b = String c (a +:+ b).
Proof. reflexivity. Qed.

Lemma str_app_nil_l (a : string) : "" +:+ a = a.
Proof. reflexivity. Qed.

Lemma str_app_assoc (a b c : string) : (a +:+ b) +:+ c = a +:+ (b +:+ c).
Proof. induction a as [|x a IH]; [reflexivity|]. rewrite !str_app_cons, IH. reflexivity. Qed.

Lemma str_app_nil_r (a : string) : a +:+ "" = a.
Proof. induction a as [|x a IH]; [reflexivity|]. rewrite str_app_cons, IH. reflexivity. Qed.

Lemma str_length_app (a b : string) :
  String.length (a +:+ b) = String.length a + String.length b.
Proof. induction a as [|x a IH]; [reflexivity|]. rewrite str_app_cons. cbn [String.length]. now rewrite IH. Qed.

Create Rewrite HintDb strs.
#[export] Hint Rewrite str_app_cons str_app_nil_l str_app_assoc str_app_nil_r str_length_app : strs.

Lemma str_app_inv_l (p a b : string) : p +:+ a = p +:+ b -> a = b.
Proof. apply (inj (String.append p)). Qed.

Lemma str_app_inv_r (p a b : string) : a +:+ p = b +:+ p -> a = b.
Proof.
  revert b. induction a as [|x a IH]; intros [|y b] H.
  - reflexivity.
  - apply (f_equal String.length) in H. rewrite !str_length_app in H. simpl in H. lia.
  - apply (f_equal String.length) in H. rewrite !str_length_app in H. simpl in H. lia.
  - rewrite !str_app_cons in H. injection H as -> H. now rewrite (IH b H).
Qed.

Lemma has_char_app c a b : has_char c (a +:+ b) = has_char c a || has_char c b.
Proof.
  induction a as [|x a IH]; [reflexivity|]. rewrite str_app_cons. simpl.
  destruct (Ascii.eqb x c); simpl; auto.
Qed.

Lemma has_char_cons c x s :
  has_char c (String x s) = true <-> x = c \/ has_char c s = true.
Proof.
  simpl. destruct (Ascii.eqb_spec x c); split; intros H; auto.
  destruct H; [contradiction | assumption].
Qed.

#[export] Hint Rewrite has_char_app : strs.

Lemma prefix_app (p s : string) : String.prefix p (p +:+ s) = true.
Proof.
  induction p as [|x p IH]; [destruct s; reflexivity|]. rewrite str_app_cons. simpl.
  destruct (ascii_dec x x); [exact IH | contradiction].
Qed.

Lemma prefix_app_inv (p s : string) :
  String.prefix p s = true -> exists t, s = p +:+ t.
Proof.
  revert s. induction p as [|x p IH]; intros [|y s]; simpl; intros H.
  - now exists "".
  - now exists (String y s).
  - discriminate.
  - destruct (ascii_dec x y) as [->|]; [|discriminate].
    destruct (IH s H) as [t ->]. exists t. reflexivity.
Qed.

Lemma list_ascii_of_string_app (a b : string) :
  list_ascii_of_string (a +:+ b) = list_ascii_of_string a ++ list_ascii_of_string b.
Proof. induction a as [|x a IH]; [reflexivity|]. rewrite str_app_cons. simpl. now rewrite IH. Qed.

Lemma length_list_ascii_of_string (s : string) :
  List.length (list_ascii_of_string s) = String.length s.
Proof. induction s as [|x s IH]; simpl; auto. Qed.

Lemma substring_app_r (a s : string) n m :
  String.substring (String.length a + n) m (a +:+ s) = String.substring n m s.
Proof. induction a as [|x a IH]; [reflexivity|]. rewrite str_app_cons. exact IH. Qed.

Lemma substring_full (s : string) : String.substring 0 (String.length s) s = s.
Proof. induction s as [|x s IH]; simpl; [reflexivity|]. now rewrite IH. Qed.

Lemma has_char_substring c n m (s : string) :
  has_char c s = false -> has_char c (String.substring n m s) = false.
Proof.
  revert n m. induction s as [|x s IH]; intros [|n] [|m]; simpl; auto;
    destruct (Ascii.eqb x c); try discriminate; auto.
Qed.

Lemma has_char_false_Forall c (s : string) :
  has_char c s = false <-> Forall (fun x => x <> c) (list_ascii_of_string s).
Proof.
  induction s as [|x s IH]; simpl; [split; auto|].
  rewrite Forall_cons. destruct (Ascii.eqb_spec x c); [split; [discriminate|tauto]|].
  rewrite IH. tauto.
Qed.

(** ** Tactics *)


(** Case on the innermost [if] or [match] of a boolean in the goal,
    keeping the equation. *)
Ltac case_if :=
  match goal with
  | |- context [if ?b then _ else _] =>
      lazymatch b with
      | context [if _ then _ else _] => fail
      | _ => let E := fresh "E" in destruct b eqn:E
      end
  end.

Create HintDb api discriminated.
#[export] Hint Resolve prefix_app : api.
