(* ===== verification/JsString.v ===== *)
(** * JavaScript string operations used by the server

    The string built-ins [src/server.js] calls, on Rocq strings read as
    the UTF-8 bytes of the JS string (see the header of [Prelude.v]):
    [String.prototype.toLowerCase], [replace(/\//g, '-')] (line 71),
    [replace(/\/$/, '')] (line 96), [includes] (line 167), the decimal
    printing of a non-negative integer, and Node's [path.extname] (posix),
    whose loop is translated from Node's [lib/path.js] with its [-1]
    sentinels kept as [Z] values. *)

From stdpp Require Import base strings list.
From Stdlib Require Import String Ascii ZArith Lia.
From S2P Require Import Prelude.

(** ** [toLowerCase] on ASCII *)

Definition ascii_to_lower (c : ascii) : ascii :=
  let n := N_of_ascii c in
  if (65 <=? n)%N && (n <=? 90)%N then ascii_of_N (n + 32) else c.

Fixpoint toLowerCase (s : string) : string :=
  match s with
  | EmptyString => EmptyString
  | String c s' => String (ascii_to_lower c) (toLowerCase s')
  end.

(** ** [s.replace(/\//g, '-')] *)

Fixpoint replace_slashes (s : string) : string :=
  match s with
  | EmptyString => EmptyString
  | String c s' => String (if Ascii.eqb c "/" then "-"%char else c) (replace_slashes s')
  end.

(** ** [s.replace(/\/$/, '')]: one [/] at the very end is removed. *)

Fixpoint strip_trailing_slash (s : string) : string :=
  match s with
  | EmptyString => EmptyString
  | String c EmptyString => if Ascii.eqb c "/" then EmptyString else String c EmptyString
  | String c s' => String c (strip_trailing_slash s')
  end.

(** ** [haystack.includes(needle)] *)

Definition includes (haystack needle : string) : bool :=
  match String.index 0 needle haystack with Some _ => true | None => false end.

(** ** Node's [path.extname] (posix)

    The loop scans the path from its last character to its first.
    [extname_loop i cs st] receives in [cs] the characters
    [path[i], path[i-1], ..., path[0]]. *)

Record extname_state := mk_extname_state {
  startDot : Z;
  startPart : Z;
  end_ : Z;
  matchedSlash : bool;
  preDotState : Z
}.

Definition extname_init : extname_state := mk_extname_state (-1) 0 (-1) true 0.

Fixpoint extname_loop (i : Z) (cs : list ascii) (st : extname_state) : extname_state :=
  match cs with
  | [] => st
  | c :: cs' =>
      if Ascii.eqb c "/" then
        if negb (matchedSlash st)
        then mk_extname_state (startDot st) (i + 1) (end_ st) (matchedSlash st) (preDotState st)
        else extname_loop (i - 1) cs' st
      else
        let st1 :=
          if Z.eqb (end_ st) (-1)
          then mk_extname_state (startDot st) (startPart st) (i + 1) false (preDotState st)
          else st in
        let st2 :=
          if Ascii.eqb c "." then
            if Z.eqb (startDot st1) (-1)
            then mk_extname_state i (startPart st1) (end_ st1) (matchedSlash st1) (preDotState st1)
            else if negb (Z.eqb (preDotState st1) 1)
            then mk_extname_state (startDot st1) (startPart st1) (end_ st1) (matchedSlash st1) 1
            else st1
          else if negb (Z.eqb (startDot st1) (-1))
          then mk_extname_state (startDot st1) (startPart st1) (end_ st1) (matchedSlash st1) (-1)
          else st1 in
        extname_loop (i - 1) cs' st2
  end.

Definition extname (path : string) : string :=
  let st := extname_loop (Z.of_nat (String.length path) - 1)
                         (rev (list_ascii_of_string path)) extname_init in
  if Z.eqb (startDot st) (-1) || Z.eqb (end_ st) (-1) || Z.eqb (preDotState st) 0
     || (Z.eqb (preDotState st) 1 && Z.eqb (startDot st) (end_ st - 1)
         && Z.eqb (startDot st) (startPart st + 1))
  then EmptyString
  else String.substring (Z.to_nat (startDot st)) (Z.to_nat (end_ st - startDot st)) path.

(** ** Lemmas *)

Lemma toLowerCase_app (a b : string) : toLowerCase (a +:+ b) = toLowerCase a +:+ toLowerCase b.
Proof. induction a as [|c a IH]; [reflexivity|]. rewrite str_app_cons. simpl. now rewrite IH. Qed.

Lemma toLowerCase_length (s : string) : String.length (toLowerCase s) = String.length s.
Proof. induction s as [|c s IH]; simpl; auto. Qed.

Lemma ascii_to_lower_idem (c : ascii) : ascii_to_lower (ascii_to_lower c) = ascii_to_lower c.
Proof.
  unfold ascii_to_lower. pose proof (N_ascii_bounded c).
  destruct ((65 <=? N_of_ascii c)%N && (N_of_ascii c <=? 90)%N) eqn:E.
  - apply andb_true_iff in E as [E1 E2]. apply N.leb_le in E1, E2.
    rewrite N_ascii_embedding by lia.
    replace ((65 <=? N_of_ascii c + 32)%N && (N_of_ascii c + 32 <=? 90)%N) with false; [reflexivity|].
    symmetry. apply andb_false_iff. right. apply N.leb_gt. lia.
  - rewrite E. reflexivity.
Qed.

Lemma toLowerCase_idem (s : string) : toLowerCase (toLowerCase s) = toLowerCase s.
Proof. induction s as [|c s IH]; simpl; [reflexivity|]. now rewrite ascii_to_lower_idem, IH. Qed.

#[export] Hint Rewrite toLowerCase_app toLowerCase_idem : strs.

Lemma replace_slashes_app (a b : string) :
  replace_slashes (a +:+ b) = replace_slashes a +:+ replace_slashes b.
Proof. induction a as [|c a IH]; [reflexivity|]. rewrite str_app_cons. simpl. now rewrite IH. Qed.

Lemma replace_slashes_length (s : string) : String.length (replace_slashes s) = String.length s.
Proof. induction s as [|c s IH]; simpl; auto. Qed.

(** The sanitised identifier never contains a [/]. *)
Lemma replace_slashes_no_slash (s : string) : has_char "/" (replace_slashes s) = false.
Proof.
  induction s as [|c s IH]; [reflexivity|]. simpl.
  destruct (Ascii.eqb_spec c "/") as [->|Hc]; [exact IH|].
  destruct (Ascii.eqb_spec c "/"); [contradiction | exact IH].
Qed.

Lemma replace_slashes_id (s : string) : has_char "/" s = false -> replace_slashes s = s.
Proof.
  induction s as [|c s IH]; [reflexivity|]. simpl.
  destruct (Ascii.eqb_spec c "/"); [discriminate|]. intros H. now rewrite IH.
Qed.

#[export] Hint Rewrite replace_slashes_app : strs.
#[export] Hint Resolve replace_slashes_no_slash : api.

(** A [/] and a [-] at the same place give the same sanitised string. *)
Lemma replace_slashes_slash_dash (a b : string) :
  replace_slashes (a +:+ "/" +:+ b) = replace_slashes (a +:+ "-" +:+ b).
Proof. rewrite !replace_slashes_app. reflexivity. Qed.

Lemma strip_trailing_slash_snoc (s : string) : strip_trailing_slash (s +:+ "/") = s.
Proof.
  induction s as [|c s IH]; [reflexivity|]. rewrite str_app_cons.
  destruct s as [|c' s']; [reflexivity|].
  change (strip_trailing_slash (String c (String c' s' +:+ "/")))
    with (String c (strip_trailing_slash (String c' s' +:+ "/"))).
  now rewrite IH.
Qed.

Lemma strip_trailing_slash_no_slash_end (s c : string) :
  c <> "/" -> String.length c = 1 -> strip_trailing_slash (s +:+ c) = s +:+ c.
Proof.
  intros Hc Hl. destruct c as [|x [|y c]]; try discriminate.
  induction s as [|z s IH].
  - simpl. destruct (Ascii.eqb_spec x "/") as [->|]; [contradiction|reflexivity].
  - rewrite !str_app_cons. destruct s as [|z' s']; [|].
    + simpl. destruct (Ascii.eqb_spec x "/") as [->|]; [contradiction|reflexivity].
    + change (strip_trailing_slash (String z (String z' s' +:+ String x "")))
        with (String z (strip_trailing_slash (String z' s' +:+ String x ""))).
      now rewrite IH.
Qed.

(** *** The [path.extname] loop *)

Local Open Scope Z_scope.

(** Over a stretch without [/] the loop never breaks, so a scan of
    [l1 ++ l2] is the scan of [l1] followed by the scan of [l2]. *)
Lemma extname_loop_app i l1 l2 st :
  Forall (fun x => x <> "/"%char) l1 ->
  extname_loop i (l1 ++ l2) st =
  extname_loop (i - Z.of_nat (List.length l1)) l2 (extname_loop i l1 st).
Proof.
  revert i st. induction l1 as [|c l1 IH]; intros i st Hl; simpl.
  - now rewrite Z.sub_0_r.
  - apply Forall_cons in Hl as [Hc Hl].
    destruct (Ascii.eqb_spec c "/"); [contradiction|].
    rewrite IH by exact Hl. f_equal. lia.
Qed.

(** Characters other than [/] and [.] before any dot change nothing once
    the end of the last component is known. *)
Lemma extname_loop_plain i l st :
  Forall (fun x => x <> "/"%char /\ x <> "."%char) l ->
  startDot st = -1 -> end_ st <> -1 -> extname_loop i l st = st.
Proof.
  revert i. induction l as [|c l IH]; intros i Hl Hs He; [reflexivity|].
  apply Forall_cons in Hl as [[Hc1 Hc2] Hl]. simpl.
  destruct (Ascii.eqb_spec c "/"); [contradiction|].
  destruct (Z.eqb_spec (end_ st) (-1)); [contradiction|].
  destruct (Ascii.eqb_spec c "."); [contradiction|].
  rewrite Hs. simpl. now apply IH.
Qed.

(** After the last dot is found, [startDot] and [end] are fixed and
    [preDotState] never returns to [0]. *)
Lemma extname_loop_after_dot i l st :
  startDot st <> -1 -> end_ st <> -1 -> preDotState st <> 0 ->
  startDot (extname_loop i l st) = startDot st /\
  end_ (extname_loop i l st) = end_ st /\
  preDotState (extname_loop i l st) <> 0.
Proof.
  revert i st. induction l as [|c l IH]; intros i st Hs He Hp; [auto|]. simpl.
  destruct (Ascii.eqb c "/").
  { destruct (negb (matchedSlash st)); [simpl; auto | now apply IH]. }
  destruct (Z.eqb_spec (end_ st) (-1)); [contradiction|].
  destruct (Ascii.eqb c ".").
  - destruct (Z.eqb_spec (startDot st) (-1)); [contradiction|].
    destruct (negb (Z.eqb (preDotState st) 1)); [|now apply IH].
    edestruct IH as (H1 & H2 & H3); [| | |split; [exact H1|split; [exact H2|exact H3]]];
      simpl; auto; lia.
  - destruct (Z.eqb_spec (startDot st) (-1)); [contradiction|]. simpl.
    edestruct IH as (H1 & H2 & H3); [| | |split; [exact H1|split; [exact H2|exact H3]]];
      simpl; auto; lia.
Qed.

(** Without a dot the loop leaves [startDot] at [-1]. *)
Lemma extname_loop_no_dot i l st :
  Forall (fun x => x <> "."%char) l -> startDot (extname_loop i l st) = startDot st.
Proof.
  revert i st. induction l as [|c l IH]; intros i st Hl; [reflexivity|].
  apply Forall_cons in Hl as [Hc Hl]. simpl.
  destruct (Ascii.eqb c "/").
  { destruct (negb (matchedSlash st)); [reflexivity | now apply IH]. }
  destruct (Ascii.eqb_spec c "."); [contradiction|].
  rewrite IH by exact Hl.
  destruct (Z.eqb (end_ st) (-1)); simpl;
    destruct (negb (Z.eqb (startDot st) (-1))); reflexivity.
Qed.

Lemma extname_loop_init_plain i y l :
  0 <= i -> Forall (fun x => x <> "/"%char /\ x <> "."%char) (y :: l) ->
  extname_loop i (y :: l) extname_init = mk_extname_state (-1) 0 (i + 1) false 0.
Proof.
  intros Hi Hl. pose proof Hl as Hl'. apply Forall_cons in Hl' as [[Hy1 Hy2] Hl']. simpl.
  destruct (Ascii.eqb_spec y "/"); [contradiction|].
  destruct (Ascii.eqb_spec y "."); [contradiction|]. simpl.
  apply extname_loop_plain; simpl; auto; lia.
Qed.

Lemma Forall_rev_string (P : ascii -> Prop) (s : string) :
  Forall P (list_ascii_of_string s) -> Forall P (rev (list_ascii_of_string s)).
Proof. intros H. now apply Forall_rev. Qed.

(** The dot of the extension followed by a character [c] that is not a
    [/]: [startDot] becomes the dot's index and [preDotState] leaves [0]. *)
Lemma extname_loop_dot_char_eq j c rest E :
  c <> "/"%char -> E <> -1 -> j <> -1 ->
  extname_loop j ("."%char :: c :: rest) (mk_extname_state (-1) 0 E false 0) =
  extname_loop (j - 1 - 1) rest
    (mk_extname_state j 0 E false (if Ascii.eqb c "." then 1 else -1)).
Proof.
  intros Hc HE Hj.
  assert (Ec : Ascii.eqb c "/" = false) by (apply Ascii.eqb_neq; exact Hc).
  assert (EE : Z.eqb E (-1) = false) by (apply Z.eqb_neq; exact HE).
  assert (Ej : Z.eqb j (-1) = false) by (apply Z.eqb_neq; exact Hj).
  simpl. rewrite EE. simpl. rewrite Ec, EE. simpl. rewrite Ej.
  destruct (Ascii.eqb c "."); reflexivity.
Qed.

Lemma extname_loop_dot_char j c rest E :
  c <> "/"%char -> E <> -1 -> j <> -1 ->
  startDot (extname_loop j ("."%char :: c :: rest) (mk_extname_state (-1) 0 E false 0)) = j /\
  end_ (extname_loop j ("."%char :: c :: rest) (mk_extname_state (-1) 0 E false 0)) = E /\
  preDotState (extname_loop j ("."%char :: c :: rest) (mk_extname_state (-1) 0 E false 0)) <> 0.
Proof.
  intros Hc HE Hj. rewrite extname_loop_dot_char_eq by assumption.
  apply extname_loop_after_dot; simpl; [exact Hj | exact HE | destruct (Ascii.eqb c "."); lia].
Qed.

(** A file name [b0 ++ c ++ "." ++ e], whose last component has at least
    one character [c] before the dot and whose extension [e] is non-empty
    without [.] or [/], has the extension ["." ++ e]. *)
Lemma extname_dot_ext (b0 : string) (c : ascii) (e : string) :
  c <> "/"%char -> e <> "" -> has_char "/" e = false -> has_char "." e = false ->
  extname (b0 +:+ String c (String "." e)) = String "." e.
Proof.
  intros Hc He Hs Hd. unfold extname.
  rewrite list_ascii_of_string_app. cbn [list_ascii_of_string].
  rewrite rev_app_distr. cbn [rev]. rewrite <- !app_assoc. cbn [app].
  assert (HF : Forall (fun x => x <> "/"%char /\ x <> "."%char) (rev (list_ascii_of_string e))).
  { apply Forall_rev_string. apply has_char_false_Forall in Hs, Hd.
    apply Forall_and; split; assumption. }
  rewrite extname_loop_app by (eapply Forall_impl; [exact HF | simpl; tauto]).
  assert (Hlen : (1 <= String.length e)%nat) by (destruct e; [contradiction|simpl; lia]).
  rewrite length_rev, length_list_ascii_of_string, str_length_app. cbn [String.length].
  destruct (rev (list_ascii_of_string e)) as [|y l] eqn:Er.
  { exfalso. apply (f_equal List.length) in Er.
    rewrite length_rev, length_list_ascii_of_string in Er. simpl in Er. lia. }
  rewrite extname_loop_init_plain by (lia || exact HF).
  set (N := Z.of_nat (String.length b0 + S (S (String.length e)))).
  destruct (extname_loop_dot_char (N - 1 - Z.of_nat (String.length e)) c
              (rev (list_ascii_of_string b0)) (N - 1 + 1)) as (H1 & H2 & H3);
    [exact Hc | unfold N; lia | unfold N; lia |].
  rewrite H1, H2, (proj2 (Z.eqb_neq _ 0) H3).
  rewrite (proj2 (Z.eqb_neq (N - 1 - Z.of_nat (String.length e)) (-1))) by (unfold N; lia).
  rewrite (proj2 (Z.eqb_neq (N - 1 + 1) (-1))) by (unfold N; lia).
  rewrite (proj2 (Z.eqb_neq (N - 1 - Z.of_nat (String.length e)) (N - 1 + 1 - 1))) by lia.
  rewrite andb_false_r. cbn [orb andb].
  replace (Z.to_nat (N - 1 - Z.of_nat (String.length e)))
    with (String.length (b0 +:+ String c "") + 0)%nat
    by (rewrite str_length_app; simpl; unfold N; lia).
  replace (b0 +:+ String c (String "." e)) with ((b0 +:+ String c "") +:+ String "." e)
    by (rewrite str_app_assoc; reflexivity).
  rewrite substring_app_r.
  replace (Z.to_nat (N - 1 + 1 - (N - 1 - Z.of_nat (String.length e))))
    with (String.length (String "." e)) by (simpl; lia).
  apply substring_full.
Qed.

(** A name without a dot has no extension. *)
Lemma extname_no_dot (p : string) : has_char "." p = false -> extname p = "".
Proof.
  intros H. unfold extname.
  rewrite extname_loop_no_dot by (apply Forall_rev_string, has_char_false_Forall, H).
  reflexivity.
Qed.

(** The extension is empty or a piece of the name. *)
Lemma extname_substring (p : string) :
  extname p = "" \/ exists n m, extname p = String.substring n m p.
Proof. unfold extname. destruct (_ || _); [left; reflexivity | right; eauto]. Qed.

Lemma extname_no_slash (p : string) : has_char "/" p = false -> has_char "/" (extname p) = false.
Proof.
  intros H. destruct (extname_substring p) as [-> | (n & m & ->)];
    [reflexivity | now apply has_char_substring].
Qed.

#[export] Hint Resolve extname_no_slash : api.

(** Lower-casing neither creates nor removes a character below ['A'],
    such as [/] or [.]. *)
Lemma ascii_to_lower_below_A (x c : ascii) :
  (N_of_ascii c < 65)%N -> ascii_to_lower x = c <-> x = c.
Proof.
  intros Hc. unfold ascii_to_lower.
  destruct ((65 <=? N_of_ascii x)%N && (N_of_ascii x <=? 90)%N) eqn:E; [|tauto].
  apply andb_true_iff in E as [E1 E2]. apply N.leb_le in E1, E2.
  split; intros H.
  - subst c. rewrite N_ascii_embedding in Hc by lia. lia.
  - subst x. lia.
Qed.

Lemma has_char_toLowerCase (c : ascii) (s : string) :
  (N_of_ascii c < 65)%N -> has_char c (toLowerCase s) = has_char c s.
Proof.
  intros Hc. induction s as [|x s IH]; [reflexivity|]. simpl.
  destruct (Ascii.eqb_spec (ascii_to_lower x) c) as [E|E];
    destruct (Ascii.eqb_spec x c) as [E'|E']; auto.
  - apply (ascii_to_lower_below_A x c Hc) in E. contradiction.
  - apply (ascii_to_lower_below_A x c Hc) in E'. contradiction.
Qed.

(** A string whose lower case is a non-empty string without [/] or [.]
    is itself non-empty and without [/] or [.]. *)
Lemma toLowerCase_shape (E e : string) :
  toLowerCase E = e -> e <> "" -> has_char "/" e = false -> has_char "." e = false ->
  E <> "" /\ has_char "/" E = false /\ has_char "." E = false.
Proof.
  intros <- Hne Hs Hd. repeat split.
  - intros ->. contradiction.
  - rewrite <- (has_char_toLowerCase "/" E) by (vm_compute; reflexivity). exact Hs.
  - rewrite <- (has_char_toLowerCase "." E) by (vm_compute; reflexivity). exact Hd.
Qed.

Lemma str_app_String_neq_empty (a b : string) (c : ascii) : a +:+ String c b <> "".
Proof. destruct a; discriminate. Qed.
