(* ===== verification/JsValue.v ===== *)
(** * JavaScript values that reach the handlers

    [req.query.userId] and the other request fields are not always
    strings: Express 4's query parser ([qs] with [allowPrototypes: true])
    and multer's field parser ([append-field]) produce [undefined] for a
    missing field, a string, an array of strings for a repeated or
    [name[]] field, and an object for a [name[key]] field.  [jsval] has
    those four shapes.  An object is given by its own keys: the handlers
    test its truthiness (always true) and call its [toString()], which
    depends on whether an own [toString] key shadows
    [Object.prototype.toString] ([?userId[toString]=x] makes one).  The
    values under the keys, and arrays of arrays or of objects, are not
    modelled: no handler reads them.

    Definitions: [truthy] (ECMAScript ToBoolean), [js_or] ([a || b]),
    [str_or] ([||] on two strings), [js_toString] (the [toString()] method
    call, which throws a [TypeError] on [undefined] and on an object whose
    own [toString] is a string, not a function). *)

From stdpp Require Import base strings list.
From Stdlib Require Import String Ascii ZArith Lia.
From S2P Require Import Prelude JsString.

Inductive jsval : Type :=
| JUndefined
| JStr (s : string)
| JArr (xs : list string)
| JObj (keys : list string).

#[export] Instance jsval_eq_dec : EqDecision jsval.
Proof. solve_decision. Defined.

(** ToBoolean: only [undefined] and the empty string are falsy among
    these shapes; every array, even [[]], and every object is truthy. *)
Definition truthy (v : jsval) : bool :=
  match v with
  | JUndefined => false
  | JStr s => negb (String.eqb s "")
  | JArr _ => true
  | JObj _ => true
  end.

(** [a || b] evaluates to [a] when [a] is truthy, else to [b]. *)
Definition js_or (a b : jsval) : jsval := if truthy a then a else b.

(** [a || b] on two strings. *)
Definition str_or (a b : string) : string := if String.eqb a "" then b else a.

(** An object has the own key [k]. *)
Definition has_own (keys : list string) (k : string) : bool := existsb (String.eqb k) keys.

(** The value is an object whose own [toString] shadows the method. *)
Definition shadows_toString (v : jsval) : bool :=
  match v with JObj keys => has_own keys "toString" | _ => false end.

(** [callee.toString()], where [callee] is the source text of the
    receiver, which V8 names in its [TypeError]: arrays are joined with
    [,] ([Array.prototype.join]), a plain object prints as
    [[object Object]]; [undefined] has no method, and an own [toString]
    key holds a string, which is not callable: both calls throw. *)
Definition js_toString (callee : string) (v : jsval) : result string string :=
  match v with
  | JUndefined => Err "Cannot read properties of undefined (reading 'toString')"
  | JStr s => Ok s
  | JArr xs => Ok (String.concat "," xs)
  | JObj keys =>
      if has_own keys "toString" then Err (callee +:+ ".toString is not a function")
      else Ok "[object Object]"
  end.

(** ** Lemmas *)

Lemma js_or_truthy_l a b : truthy a = true -> js_or a b = a.
Proof. unfold js_or. now intros ->. Qed.

Lemma js_or_falsy_l a b : truthy a = false -> js_or a b = b.
Proof. unfold js_or. now intros ->. Qed.

Lemma truthy_js_or a b : truthy (js_or a b) = truthy a || truthy b.
Proof. unfold js_or. destruct (truthy a) eqn:E; [now rewrite E | reflexivity]. Qed.

(** [toString] succeeds on every value but [undefined] and an object
    with its own [toString]. *)
Lemma js_toString_defined callee v :
  v <> JUndefined -> shadows_toString v = false -> exists s, js_toString callee v = Ok s.
Proof. destruct v as [| | |ks]; intros H Hs; simpl in *; [congruence | eauto | eauto | now rewrite Hs; eauto]. Qed.

(** On an object with its own [toString], the call throws. *)
Lemma js_toString_shadowed callee v :
  shadows_toString v = true -> js_toString callee v = Err (callee +:+ ".toString is not a function").
Proof. destruct v as [| | |ks]; simpl; try discriminate. now intros ->. Qed.

Lemma truthy_not_undefined v : truthy v = true -> v <> JUndefined.
Proof. now destruct v. Qed.

Lemma str_or_empty b : str_or "" b = b.
Proof. reflexivity. Qed.

Lemma str_or_nonempty a b : a <> "" -> str_or a b = a.
Proof. unfold str_or. intros H. destruct (String.eqb_spec a ""); [contradiction|reflexivity]. Qed.

Lemma str_or_cases a b : (a = "" /\ str_or a b = b) \/ (a <> "" /\ str_or a b = a).
Proof. unfold str_or. destruct (String.eqb_spec a ""); auto. Qed.

#[export] Hint Resolve js_or_truthy_l js_or_falsy_l str_or_nonempty truthy_not_undefined : api.

(** [s || ''] is [s] for a string. *)
Lemma str_or_empty_r a : str_or a "" = a.
Proof. unfold str_or. destruct (String.eqb_spec a ""); congruence. Qed.
