(* ===== verification/Validator.v ===== *)
(** * The upload gate: [fileFilter] and the size limit

    [src/server.js] lines 34-51 (and [src/README.md] lines 124-141, the
    same code): multer is configured with [limits.fileSize = 5 MiB] and a
    [fileFilter] that accepts a file whose [mimetype] matches
    [/^image\/(jpeg|jpg|pjpeg|png|gif|webp)$/i], or else whose lower-cased
    [path.extname(originalname)] is one of five extensions, and otherwise
    calls back with [new Error('Only images ...')].

    Multer calls the filter before it reads the file's bytes, and only a
    file the filter accepted is measured against the limit; a file of
    more than [fileSize] bytes ends the request with the [MulterError]
    [LIMIT_FILE_SIZE].  [multer_accept_file] models that order (multer's
    code is not part of the repository: it is modelled from its
    documented behaviour). *)

From stdpp Require Import base strings list.
From Stdlib Require Import String Ascii ZArith Lia.
From S2P Require Import Prelude JsString JsValue.

(** A file part as multer hands it to [fileFilter], and as [req.file]
    once accepted. *)
Record upfile := mk_upfile {
  fieldname : string;
  originalname : string;
  mimetype : string;
  buffer : list Byte.byte
}.

#[export] Instance upfile_eq_dec : EqDecision upfile.
Proof. solve_decision. Defined.

Definition file_size (f : upfile) : N := N.of_nat (List.length (buffer f)).

(** [limits: { fileSize: 5 * 1024 * 1024 }] *)
Definition fileSize_limit : N := 5 * 1024 * 1024.

(** [/^image\/(jpeg|jpg|pjpeg|png|gif|webp)$/i]: anchored at both ends,
    a literal [image/] and one of the alternatives, case-insensitively. *)
Definition allowedMime_alternatives : list string :=
  ["jpeg"; "jpg"; "pjpeg"; "png"; "gif"; "webp"].

Definition allowedMime_test (m : string) : bool :=
  existsb (fun alt => String.eqb (toLowerCase m) ("image/" +:+ alt)) allowedMime_alternatives.

(** [const allowedExt = ['.jpg', '.jpeg', '.png', '.gif', '.webp']] *)
Definition allowedExt : list string := [".jpg"; ".jpeg"; ".png"; ".gif"; ".webp"].

Definition only_images_msg : string :=
  "Only images (.jpeg, .jpg, .png, .gif, .webp) are allowed.".

(** The filter's callback: [cb(null, true)] is [Ok true], [cb(err, false)]
    is [Err] with the error's message. *)
Definition fileFilter (f : upfile) : result bool string :=
  if allowedMime_test (mimetype f) then Ok true
  else
    let ext := toLowerCase (str_or (extname (str_or (originalname f) "")) "") in
    if existsb (String.eqb ext) allowedExt then Ok true
    else Err only_images_msg.

(** The errors that reach Express's error middleware from the upload
    route: a [MulterError] with its [code] and [message], or a plain
    [Error] with its [message]. *)
Inductive app_error : Type :=
| MulterError (code : string) (message : string)
| PlainError (message : string).

#[export] Instance app_error_eq_dec : EqDecision app_error.
Proof. solve_decision. Defined.

Definition limit_file_size_error : app_error := MulterError "LIMIT_FILE_SIZE" "File too large".

(** Multer on one file part: the filter first, then the size limit; a
    file the filter declines ([cb(null, false)]) is skipped. *)
Definition multer_accept_file (f : upfile) : result (option upfile) app_error :=
  match fileFilter f with
  | Err msg => Err (PlainError msg)
  | Ok false => Ok None
  | Ok true =>
      if (file_size f <=? fileSize_limit)%N then Ok (Some f) else Err limit_file_size_error
  end.

(** The extensions of [allowedExt] without their dot. *)
Definition allowedExt_names : list string := ["jpg"; "jpeg"; "png"; "gif"; "webp"].

(** ** Lemmas *)

Lemma allowedMime_test_spec (m : string) :
  allowedMime_test m = true <-> exists alt, In alt allowedMime_alternatives /\ toLowerCase m = "image/" +:+ alt.
Proof.
  unfold allowedMime_test. rewrite existsb_exists.
  split; intros (alt & Hin & H); exists alt; split; auto.
  - now apply String.eqb_eq.
  - now apply String.eqb_eq.
Qed.

Lemma fileFilter_ext (f : upfile) :
  allowedMime_test (mimetype f) = false ->
  fileFilter f = if existsb (String.eqb (toLowerCase (extname (originalname f)))) allowedExt
                 then Ok true else Err only_images_msg.
Proof. intros H. unfold fileFilter. now rewrite H, !str_or_empty_r. Qed.

Lemma multer_accept_file_accepted (f : upfile) :
  fileFilter f = Ok true ->
  multer_accept_file f =
    if (file_size f <=? fileSize_limit)%N then Ok (Some f) else Err limit_file_size_error.
Proof. intros H. unfold multer_accept_file. now rewrite H. Qed.

Lemma allowedExt_names_shape (e : string) :
  In e allowedExt_names ->
  e <> "" /\ has_char "/" e = false /\ has_char "." e = false /\
  existsb (String.eqb (String "." e)) allowedExt = true.
Proof. intros He. repeat (destruct He as [<- | He]; [vm_compute; repeat split; discriminate|]). destruct He. Qed.

(** ** Properties *)

(** C4: a file whose declared type is one of the six image types, in any
    letter case, passes the gate whatever its name, up to 5 MiB. *)
Theorem upload_gate_accepts_image_mime (f : upfile) (alt : string) :
  In alt allowedMime_alternatives -> toLowerCase (mimetype f) = "image/" +:+ alt ->
  (file_size f <= fileSize_limit)%N ->
  multer_accept_file f = Ok (Some f).
Proof.
  intros Halt Hm Hs.
  assert (Hf : fileFilter f = Ok true).
  { unfold fileFilter. replace (allowedMime_test (mimetype f)) with true; [reflexivity|].
    symmetry. apply allowedMime_test_spec. eauto. }
  rewrite multer_accept_file_accepted by exact Hf.
  now rewrite (proj2 (N.leb_le _ _) Hs).
Qed.

(** C5: a file named [... c.E], with at least one character [c] other
    than [/] before the dot and [E] one of the five extensions in any
    letter case, passes the gate whatever its declared type, up to 5 MiB. *)
Theorem upload_gate_accepts_image_ext (f : upfile) (b0 : string) (c : ascii) (E e : string) :
  In e allowedExt_names -> toLowerCase E = e ->
  originalname f = b0 +:+ String c (String "." E) -> c <> "/"%char ->
  (file_size f <= fileSize_limit)%N ->
  multer_accept_file f = Ok (Some f).
Proof.
  intros He HE Hn Hc Hs.
  destruct (allowedExt_names_shape e He) as (Hne & Hsl & Hdot & Hin).
  assert (Hf : fileFilter f = Ok true).
  { destruct (allowedMime_test (mimetype f)) eqn:Hm; [unfold fileFilter; now rewrite Hm|].
    rewrite fileFilter_ext by exact Hm. rewrite Hn, extname_dot_ext.
    - replace (toLowerCase (String "." E)) with (String "." e) by (simpl; now rewrite HE).
      now rewrite Hin.
    - exact Hc.
    - apply (toLowerCase_shape E e HE Hne Hsl Hdot).
    - apply (toLowerCase_shape E e HE Hne Hsl Hdot).
    - apply (toLowerCase_shape E e HE Hne Hsl Hdot). }
  rewrite multer_accept_file_accepted by exact Hf.
  now rewrite (proj2 (N.leb_le _ _) Hs).
Qed.

(** C6: a file whose declared type and extension are both outside the
    lists is refused with the "Only images" error, whatever its size: the
    type check runs before the size is known. *)
Theorem upload_gate_rejects_non_image (f : upfile) :
  allowedMime_test (mimetype f) = false ->
  ~ In (toLowerCase (extname (originalname f))) allowedExt ->
  multer_accept_file f = Err (PlainError only_images_msg).
Proof.
  intros Hm Hx. unfold multer_accept_file. rewrite fileFilter_ext by exact Hm.
  destruct (existsb _ allowedExt) eqn:E; [|reflexivity].
  apply existsb_exists in E as (x & Hin & Hx'). apply String.eqb_eq in Hx'. subst x. contradiction.
Qed.

(** C7: a file the filter accepts passes the gate exactly when it has at
    most 5 MiB (5 * 1024 * 1024 bytes); beyond that multer reports
    [LIMIT_FILE_SIZE]. *)
Theorem upload_gate_size_limit (f : upfile) :
  fileFilter f = Ok true ->
  ((file_size f <= 5242880)%N -> multer_accept_file f = Ok (Some f)) /\
  ((5242880 < file_size f)%N -> multer_accept_file f = Err limit_file_size_error).
Proof.
  intros Hf. rewrite multer_accept_file_accepted by exact Hf. change fileSize_limit with 5242880%N.
  split; intros H.
  - now rewrite (proj2 (N.leb_le _ _) H).
  - now rewrite (proj2 (N.leb_gt _ _) H).
Qed.

(** ** Witnesses *)

Lemma upload_gate_accepts_image_mime_witness :
  multer_accept_file (mk_upfile "file" "avatar" "Image/PNG" [])
  = Ok (Some (mk_upfile "file" "avatar" "Image/PNG" [])).
Proof.
  apply (upload_gate_accepts_image_mime _ "png");
    [simpl; auto 10 | reflexivity | vm_compute; congruence].
Defined.

Lemma upload_gate_accepts_image_ext_witness :
  multer_accept_file (mk_upfile "file" "photo.PNG" "application/octet-stream" [])
  = Ok (Some (mk_upfile "file" "photo.PNG" "application/octet-stream" [])).
Proof.
  apply (upload_gate_accepts_image_ext _ "phot" "o" "PNG" "png");
    [simpl; auto 10 | reflexivity | reflexivity | discriminate | vm_compute; congruence].
Defined.

Lemma upload_gate_rejects_non_image_witness :
  multer_accept_file (mk_upfile "file" "notes.txt" "text/plain" [Byte.x41])
  = Err (PlainError only_images_msg).
Proof.
  apply upload_gate_rejects_non_image; [reflexivity | vm_compute; intuition discriminate].
Defined.

Lemma upload_gate_size_limit_witness :
  multer_accept_file (mk_upfile "file" "a.png" "image/png" (repeat Byte.x00 (N.to_nat 5242880)))
  = Ok (Some (mk_upfile "file" "a.png" "image/png" (repeat Byte.x00 (N.to_nat 5242880)))) /\
  multer_accept_file (mk_upfile "file" "a.png" "image/png" (repeat Byte.x00 (N.to_nat 5242881)))
  = Err limit_file_size_error.
Proof.
  split.
  - refine (proj1 (upload_gate_size_limit _ _) _); [reflexivity|].
    unfold file_size. cbn [buffer]. rewrite repeat_length, N2Nat.id. lia.
  - refine (proj2 (upload_gate_size_limit _ _) _); [reflexivity|].
    unfold file_size. cbn [buffer]. rewrite repeat_length, N2Nat.id. lia.
Defined.
