(* ===== verification/Multipart.v ===== *)
(** * Multipart parsing: busboy and [upload.single('file')]

    The upload route of [src/server.js] (line 64) runs multer's
    [upload.single('file')], configured at lines 34-51, before the
    handler.  multer and busboy are not in the repository: this file
    models them from their code as published (multer 1.4.5-lts, busboy
    1.6), on the parts of a [multipart/form-data] body in stream order.

    - busboy gives each file part the base name of its [filename]
      ([busboy_basename]: what follows the last [/] or backslash, and
      nothing for [.] and [..]) and a [mimeType] ([busboy_mime]: the
      lower-cased [type/subtype] of its [Content-Type], parameters
      dropped, [text/plain] when the header is missing or malformed).
    - multer drops a file part whose base name is empty; a file under a
      field other than the one allowed ['file'] fails with
      [LIMIT_UNEXPECTED_FILE]; the others meet [fileFilter] and the size
      limit ([Validator.multer_accept_file]).  Text fields go into
      [req.body] through [append-field] (a repeated name becomes an
      array; bracketed names such as [a[b]] are not modelled).
    - [multer_single] runs the parts from [multer_init]; the first error
      ends the request and goes to the error middleware.

    [file_accepted] is what the handler may rely on: the file it gets
    passed the gate and its name has no [/]. *)

From stdpp Require Import base strings list gmap.
From Stdlib Require Import String Ascii ZArith Lia.
From S2P Require Import Prelude JsString JsValue Validator.

Local Open Scope api_scope.

(** ** Parts *)

(** A part of a [multipart/form-data] body: a text field, or a file with
    its field name, the [filename] of its [Content-Disposition], the
    value of its [Content-Type] header as sent (empty when the part has
    none: busboy treats a missing and an empty header alike) and its
    bytes. *)
Inductive part : Type :=
| TextField (name value : string)
| FilePart (name filename content_type : string) (data : list Byte.byte).

#[export] Instance part_eq_dec : EqDecision part.
Proof. solve_decision. Defined.

(** The backslash character. *)
Definition backslash : ascii := Ascii.ascii_of_nat 92.

(** busboy's [getBasename]: what follows the last [/] or backslash, and
    the empty string for [.] and [..]. *)
Fixpoint after_last_sep (s : string) : string :=
  match s with
  | EmptyString => EmptyString
  | String c s' =>
      if has_char "/" s' || has_char backslash s' then after_last_sep s'
      else if Ascii.eqb c "/" || Ascii.eqb c backslash then s'
      else s
  end.

Definition busboy_basename (s : string) : string :=
  let b := after_last_sep s in
  if String.eqb b ".." || String.eqb b "." then "" else b.

(** ** busboy's [parseContentType] *)

(** busboy's [TOKEN] table: the [tchar]s of RFC 7230. *)
Definition is_token_char (c : ascii) : bool :=
  let n := N_of_ascii c in
  ((48 <=? n) && (n <=? 57) || (65 <=? n) && (n <=? 90) || (97 <=? n) && (n <=? 122))%N ||
  existsb (Ascii.eqb c) ["!"; "#"; "$"; "%"; "&"; "'"; "*"; "+"; "-"; "."; "^"; "_"; "`"; "|"; "~"]%char.

(** busboy's [QDTEXT] table: tab, space, [!], [#]-[[], []]-[~] and the
    bytes from 128 (header values are read as latin1). *)
Definition is_qdtext (c : ascii) : bool :=
  let n := N_of_ascii c in
  ((n =? 9) || (n =? 32) || (n =? 33) || (35 <=? n) && (n <=? 91) || (93 <=? n) && (n <=? 126) ||
   (128 <=? n))%N.

Definition is_ows (c : ascii) : bool := Ascii.eqb c " " || (N_of_ascii c =? 9)%N.

Definition dquote_char : ascii := Ascii.ascii_of_nat 34.

(** Where [parseContentTypeParams] is in its loop: before a [;], after
    it, in a parameter name, after its [=], in an unquoted value, in a
    quoted value, and just after a backslash in one. *)
Inductive ct_param_state : Type :=
| PWs | PSemiWs | PName | PValStart | PUnquoted | PQuoted | PEscape.

(** [parseContentTypeParams] as a recogniser, one character at a time:
    [true] when it returns the parameters, [false] when it returns
    [undefined] (a malformed list). *)
Fixpoint ct_params_ok (st : ct_param_state) (s : string) : bool :=
  match s with
  | EmptyString => match st with PWs | PUnquoted => true | _ => false end
  | String c s' =>
      match st with
      | PWs | PUnquoted =>
          if (match st with PUnquoted => is_token_char c | _ => false end) then ct_params_ok PUnquoted s'
          else if is_ows c then ct_params_ok PWs s'
          else if Ascii.eqb c ";" then ct_params_ok PSemiWs s'
          else false
      | PSemiWs =>
          if is_ows c then ct_params_ok PSemiWs s'
          else if is_token_char c then ct_params_ok PName s'
          else if Ascii.eqb c "=" then ct_params_ok PValStart s'
          else false
      | PName =>
          if is_token_char c then ct_params_ok PName s'
          else if Ascii.eqb c "=" then ct_params_ok PValStart s'
          else false
      | PValStart =>
          if Ascii.eqb c dquote_char then ct_params_ok PQuoted s'
          else if is_token_char c then ct_params_ok PUnquoted s'
          else false
      | PQuoted =>
          if Ascii.eqb c backslash then ct_params_ok PEscape s'
          else if Ascii.eqb c dquote_char then ct_params_ok PWs s'
          else if is_qdtext c then ct_params_ok PQuoted s'
          else false
      | PEscape =>
          if Ascii.eqb c backslash || Ascii.eqb c dquote_char || is_qdtext c then ct_params_ok PQuoted s'
          else false
      end
  end.

(** The longest prefix of token characters, and what follows it. *)
Fixpoint span_token (s : string) : string * string :=
  match s with
  | EmptyString => (EmptyString, EmptyString)
  | String c s' =>
      if is_token_char c then let '(t, r) := span_token s' in (String c t, r)
      else (EmptyString, s)
  end.

(** [parseContentType]: a non-empty type token, [/], a non-empty subtype
    token, then a well-formed parameter list; type and subtype are
    lower-cased. *)
Definition parse_content_type (s : string) : option (string * string) :=
  let '(ty, r1) := span_token s in
  match r1 with
  | String c r2 =>
      if Ascii.eqb c "/" && negb (String.eqb ty "") then
        let '(sub, r3) := span_token r2 in
        if String.eqb sub "" then None
        else if ct_params_ok PWs r3 then Some (toLowerCase ty, toLowerCase sub) else None
      else None
  | EmptyString => None
  end.

(** The [mimeType] busboy reports for a part: [type/subtype] of its
    header, or [text/plain] when the header is missing, empty or does
    not parse. *)
Definition busboy_mime (ct : string) : string :=
  match parse_content_type ct with
  | Some (ty, sub) => ty +:+ "/" +:+ sub
  | None => "text/plain"
  end.

(** ** [upload.single('file')] *)

(** [append-field] for a plain field name: a first value is stored, a
    second turns it into an array, later ones are pushed. *)
Definition append_field (fields : gmap string jsval) (k v : string) : gmap string jsval :=
  match fields !! k with
  | Some (JArr xs) => <[k := JArr (xs ++ [v])]> fields
  | Some (JStr x) => <[k := JArr [x; v]]> fields
  | _ => <[k := JStr v]> fields
  end.

(** What multer has built so far: [req.body], [req.file] and how many
    more files the field ['file'] may take. *)
Record multer_state := mk_multer_state {
  ms_body : gmap string jsval;
  ms_file : option upfile;
  ms_files_left : nat
}.

Definition multer_init : multer_state := mk_multer_state ∅ None 1.

Definition unexpected_field_error : app_error := MulterError "LIMIT_UNEXPECTED_FILE" "Unexpected field".

(** One part.  A file part whose base name is empty is dropped
    ([if (!filename) return fileStream.resume()]) before anything else;
    otherwise it is checked against the remaining count of its field
    before [fileFilter] is called, with busboy's base name and
    [mimeType]. *)
Definition multer_part (st : multer_state) (p : part) : result multer_state app_error :=
  match p with
  | TextField k v => Ok (mk_multer_state (append_field (ms_body st) k v) (ms_file st) (ms_files_left st))
  | FilePart name filename ct data =>
      if String.eqb (busboy_basename filename) "" then Ok st
      else if String.eqb name "file" && Nat.ltb 0 (ms_files_left st) then
        let f := mk_upfile name (busboy_basename filename) (busboy_mime ct) data in
        r <-? multer_accept_file f ;;
        Ok (mk_multer_state (ms_body st) (match r with Some f' => Some f' | None => ms_file st end)
                            (ms_files_left st - 1))
      else Err unexpected_field_error
  end.

(** The parts in stream order; the first error ends the request. *)
Fixpoint multer_parts (st : multer_state) (ps : list part) : result multer_state app_error :=
  match ps with
  | [] => Ok st
  | p :: ps' => st' <-? multer_part st p ;; multer_parts st' ps'
  end.

Definition multer_single (ps : list part) : result multer_state app_error :=
  multer_parts multer_init ps.

(** [req.body?.k] *)
Definition body_field (st : multer_state) (k : string) : jsval :=
  match ms_body st !! k with Some v => v | None => JUndefined end.

(** The file multer hands over passed the gate and has a base name:
    no [/]. *)
Definition file_accepted (st : multer_state) : Prop :=
  forall f, ms_file st = Some f ->
    has_char "/" (originalname f) = false /\ fileFilter f = Ok true /\ (file_size f <= fileSize_limit)%N.

(** ** Lemmas *)

Lemma after_last_sep_no_slash (s : string) : has_char "/" (after_last_sep s) = false.
Proof.
  induction s as [|c s IH]; [reflexivity|]. simpl.
  destruct (has_char "/" s) eqn:Hs; [exact IH|]. destruct (has_char backslash s); [exact IH|].
  destruct (Ascii.eqb c "/") eqn:Hc; [exact Hs|]. destruct (Ascii.eqb c backslash); [exact Hs|].
  simpl. now rewrite Hc.
Qed.

Lemma busboy_basename_no_slash (s : string) : has_char "/" (busboy_basename s) = false.
Proof. unfold busboy_basename. destruct (_ || _); [reflexivity|apply after_last_sep_no_slash]. Qed.

Lemma multer_accept_file_some f f' :
  multer_accept_file f = Ok (Some f') -> f' = f /\ fileFilter f = Ok true /\ (file_size f <= fileSize_limit)%N.
Proof.
  unfold multer_accept_file. destruct (fileFilter f) as [[]|]; try discriminate.
  destruct (N.leb_spec (file_size f) fileSize_limit); intros Hr; [injection Hr as ->; auto | discriminate].
Qed.

Lemma multer_part_accepted st p st' :
  multer_part st p = Ok st' -> file_accepted st -> file_accepted st'.
Proof.
  intros Hp Hst f Hf. destruct p as [k v | name filename ct data]; simpl in Hp.
  - injection Hp as <-. exact (Hst f Hf).
  - destruct (String.eqb _ ""); [injection Hp as <-; exact (Hst f Hf)|].
    destruct (_ && _); [|discriminate].
    destruct (multer_accept_file _) as [[f'|]|e] eqn:Ha; simpl in Hp; [| |discriminate];
      injection Hp as <-; simpl in Hf; [|exact (Hst f Hf)].
    injection Hf as <-. apply multer_accept_file_some in Ha as (-> & Hff & Hs).
    split; [apply busboy_basename_no_slash|]. auto.
Qed.

Lemma multer_single_accepted ps st : multer_single ps = Ok st -> file_accepted st.
Proof.
  unfold multer_single. assert (Hi : file_accepted multer_init) by (intros f Hf; discriminate).
  revert Hi. generalize multer_init. induction ps as [|p ps IH]; intros st0 H0 Hps; simpl in Hps.
  - now injection Hps as <-.
  - destruct (multer_part st0 p) as [st1|e] eqn:Hp; simpl in Hps; [|discriminate].
    exact (IH st1 (multer_part_accepted _ _ _ Hp H0) Hps).
Qed.

Lemma multer_part_body st p st' :
  multer_part st p = Ok st' ->
  ms_body st' = match p with TextField k v => append_field (ms_body st) k v | FilePart _ _ _ _ => ms_body st end.
Proof.
  destruct p as [k v | name filename ct data]; simpl; [now injection 1 as <-|].
  destruct (String.eqb _ ""); [now injection 1 as <-|].
  destruct (_ && _); [|discriminate].
  destruct (multer_accept_file _) as [r|e]; simpl; [now injection 1 as <-|discriminate].
Qed.

(** [req.body] is the text fields appended in order. *)
Lemma multer_parts_body st ps st' :
  multer_parts st ps = Ok st' ->
  ms_body st' = fold_left (fun body p => match p with TextField k v => append_field body k v | _ => body end)
                          ps (ms_body st).
Proof.
  revert st. induction ps as [|p ps IH]; intros st H; simpl in H; [now injection H as <-|].
  destruct (multer_part st p) as [st1|e] eqn:Hp; simpl in H; [|discriminate].
  simpl. rewrite <- (multer_part_body _ _ _ Hp). exact (IH st1 H).
Qed.

(** busboy's [mimeType] on typical headers: case folded, parameters
    dropped, [text/plain] for a missing or malformed header. *)
Example busboy_mime_examples :
  busboy_mime "IMAGE/PNG; charset=utf-8" = "image/png" /\ busboy_mime "" = "text/plain" /\
  busboy_mime "image/png;" = "text/plain" /\ busboy_mime "application/octet-stream" = "application/octet-stream".
Proof. vm_compute. repeat split. Qed.

(** Text fields and dropped file parts leave [req.file] as it was. *)
Lemma multer_parts_keep_file st ps :
  Forall (fun p => match p with FilePart _ filename _ _ => busboy_basename filename = "" | TextField _ _ => True end) ps ->
  exists st', multer_parts st ps = Ok st' /\ ms_file st' = ms_file st.
Proof.
  revert st. induction ps as [|p ps IH]; intros st Hps; simpl; [eauto|].
  apply Forall_cons in Hps as [Hp Hps]. destruct p as [k v | name filename ct data]; simpl.
  - destruct (IH (mk_multer_state (append_field (ms_body st) k v) (ms_file st) (ms_files_left st)) Hps)
      as (st' & H1 & H2). eauto.
  - rewrite Hp. simpl. exact (IH st Hps).
Qed.
