(* ===== verification/KeyDeriver.v ===== *)
(** * Key derivation and content type of the upload handler

    The upload handler derives the object key and the content type from
    the request before it calls the store.  The two revisions differ:

    - [ServerJs] ([src/server.js] lines 70-80): the id is optional, a
      [randomUUID()] replaces a missing one, and the key keeps the file's
      extension as written ([path.extname(...) || '.jpg'], not
      lower-cased);
    - [ReadmeJs] ([src/README.md] lines 160-174): a missing id is
      refused by the handler, the key is [PROFILE_PREFIX/userId] with no
      extension, and the extension, lower-cased, only picks the content
      type.

    In both, [rawUserId] is the first truthy of four request fields and
    every [/] of its [toString()] becomes [-].  That call throws when the
    id is an object with its own [toString] key; the error reaches the
    handler's [catch] (see [Upload.v]). *)

From stdpp Require Import base strings list.
From Stdlib Require Import String Ascii ZArith Lia.
From S2P Require Import Prelude JsString JsValue.

Local Open Scope api_scope.

(** The four places the id is read from, in the order of the source:
    [req.query?.userId], [req.query?.user_id], [req.body?.userId],
    [req.body?.user_id]. *)
Record id_fields := mk_id_fields {
  query_userId : jsval;
  query_user_id : jsval;
  body_userId : jsval;
  body_user_id : jsval
}.

(** [const rawUserId = req.query?.userId || req.query?.user_id
                    || req.body?.userId || req.body?.user_id;] *)
Definition rawUserId (r : id_fields) : jsval :=
  js_or (js_or (js_or (query_userId r) (query_user_id r)) (body_userId r)) (body_user_id r).

(** The content type: [req.file.mimetype] when it is truthy and starts
    with [image/], else the type of the extension ([.png], [.gif],
    [.webp], and [image/jpeg] for anything else). *)
Definition resolve_mime (mimetype ext : string) : string :=
  if truthy (JStr mimetype) && String.prefix "image/" mimetype then mimetype
  else if String.eqb ext ".png" then "image/png"
  else if String.eqb ext ".gif" then "image/gif"
  else if String.eqb ext ".webp" then "image/webp"
  else "image/jpeg".

Module ServerJs.

(** The receiver of the [toString()] call of line 71, as V8 prints it. *)
Definition toString_callee : string := "(rawUserId || randomUUID(...))".

(** [const userId = (rawUserId || randomUUID()).toString().replace(/\//g, '-');]
    [uuid] is the value [randomUUID()] returns when it is called.  Line
    72, [(rawUserId || '').toString()], calls the same method on the same
    id after it and only feeds the log, so it never changes the outcome. *)
Definition userId_of (raw : jsval) (uuid : string) : result string string :=
  s <-? js_toString toString_callee (js_or raw (JStr uuid)) ;; Ok (replace_slashes s).

(** [const ext = path.extname(req.file.originalname) || '.jpg';] *)
Definition ext_of (originalname : string) : string := str_or (extname originalname) ".jpg".

(** [const key = `${PROFILE_PREFIX}/${userId}${ext}`;] *)
Definition key_of (prefix userId ext : string) : string := prefix +:+ "/" +:+ userId +:+ ext.

(** Lines 70-80 together: the key and the content type. *)
Definition derive (prefix : string) (r : id_fields) (uuid originalname mimetype : string)
  : result (string * string) string :=
  userId <-? userId_of (rawUserId r) uuid ;;
  let ext := ext_of originalname in
  Ok (key_of prefix userId ext, resolve_mime mimetype ext).

End ServerJs.

Module ReadmeJs.

(** The receiver of the [toString()] call of line 166. *)
Definition toString_callee : string := "rawUserId".

(** [const userId = rawUserId.toString().replace(/\//g, '-');], reached
    only when [rawUserId] is truthy. *)
Definition userId_of (raw : jsval) : result string string :=
  s <-? js_toString toString_callee raw ;; Ok (replace_slashes s).

(** [const key = `${PROFILE_PREFIX}/${userId}`;] *)
Definition key_of (prefix userId : string) : string := prefix +:+ "/" +:+ userId.

(** [const ext = (path.extname(req.file.originalname) || '').toLowerCase();] *)
Definition ext_of (originalname : string) : string := toLowerCase (str_or (extname originalname) "").

(** Lines 160-174 after the [!rawUserId] check: key and content type. *)
Definition derive (prefix : string) (r : id_fields) (originalname mimetype : string)
  : result (string * string) string :=
  userId <-? userId_of (rawUserId r) ;;
  Ok (key_of prefix userId, resolve_mime mimetype (ext_of originalname)).

End ReadmeJs.

(** ** Lemmas *)

Lemma truthy_toString callee (v : jsval) :
  truthy v = true -> shadows_toString v = false -> exists s, js_toString callee v = Ok s.
Proof. intros H Hs. apply js_toString_defined; [apply truthy_not_undefined, H | exact Hs]. Qed.

Lemma js_or_uuid_toString callee (raw : jsval) (uuid : string) :
  shadows_toString raw = false ->
  exists s, js_toString callee (js_or raw (JStr uuid)) = Ok s /\
            (truthy raw = true -> js_toString callee raw = Ok s) /\ (truthy raw = false -> s = uuid).
Proof.
  intros Hsh. unfold js_or. destruct (truthy raw) eqn:E.
  - destruct (truthy_toString callee raw E Hsh) as [s Hs]. exists s. split; [exact Hs|]. split; [auto|discriminate].
  - exists uuid. split; [reflexivity|]. split; [discriminate|auto].
Qed.

Lemma shadows_toString_truthy v : shadows_toString v = true -> truthy v = true.
Proof. now destruct v. Qed.

(** The key and type of server.js, when the id's [toString()] returns. *)
Lemma server_derive_ok (prefix : string) (r : id_fields) (uuid name mimetype : string) :
  shadows_toString (rawUserId r) = false ->
  exists s,
    ServerJs.derive prefix r uuid name mimetype
      = Ok (ServerJs.key_of prefix (replace_slashes s) (ServerJs.ext_of name),
            resolve_mime mimetype (ServerJs.ext_of name)) /\
    (truthy (rawUserId r) = true -> js_toString ServerJs.toString_callee (rawUserId r) = Ok s) /\
    (truthy (rawUserId r) = false -> s = uuid).
Proof.
  intros Hsh. destruct (js_or_uuid_toString ServerJs.toString_callee (rawUserId r) uuid Hsh) as (s & Hs & H1 & H2).
  exists s. split; [|auto]. unfold ServerJs.derive, ServerJs.userId_of. now rewrite Hs.
Qed.

(** What a successful server.js derivation computed. *)
Lemma server_derive_inv (prefix : string) (r : id_fields) (uuid name mimetype k t : string) :
  ServerJs.derive prefix r uuid name mimetype = Ok (k, t) ->
  exists s, k = ServerJs.key_of prefix (replace_slashes s) (ServerJs.ext_of name) /\
    t = resolve_mime mimetype (ServerJs.ext_of name) /\
    (truthy (rawUserId r) = true -> js_toString ServerJs.toString_callee (rawUserId r) = Ok s) /\
    (truthy (rawUserId r) = false -> s = uuid).
Proof.
  unfold ServerJs.derive, ServerJs.userId_of.
  destruct (js_toString _ (js_or (rawUserId r) (JStr uuid))) as [s|e] eqn:E; simpl; [|discriminate].
  intros Hd. injection Hd as <- <-. exists s. do 2 (split; [reflexivity|]). split.
  - intros Ht. now rewrite js_or_truthy_l in E.
  - intros Ht. rewrite js_or_falsy_l in E by exact Ht. now injection E as <-.
Qed.

(** An id with its own [toString] makes line 71 throw. *)
Lemma server_derive_shadowed (prefix : string) (r : id_fields) (uuid name mimetype : string) :
  shadows_toString (rawUserId r) = true ->
  ServerJs.derive prefix r uuid name mimetype = Err (ServerJs.toString_callee +:+ ".toString is not a function").
Proof.
  intros Hsh. unfold ServerJs.derive, ServerJs.userId_of.
  rewrite js_or_truthy_l by now apply shadows_toString_truthy. now rewrite js_toString_shadowed.
Qed.

Lemma readme_derive_shadowed (prefix : string) (r : id_fields) (name mimetype : string) :
  shadows_toString (rawUserId r) = true ->
  ReadmeJs.derive prefix r name mimetype = Err (ReadmeJs.toString_callee +:+ ".toString is not a function").
Proof. intros Hsh. unfold ReadmeJs.derive, ReadmeJs.userId_of. now rewrite js_toString_shadowed. Qed.

Lemma readme_derive_ok (prefix : string) (r : id_fields) (name mimetype : string) s :
  js_toString ReadmeJs.toString_callee (rawUserId r) = Ok s ->
  ReadmeJs.derive prefix r name mimetype
    = Ok (ReadmeJs.key_of prefix (replace_slashes s), resolve_mime mimetype (ReadmeJs.ext_of name)).
Proof. intros Hs. unfold ReadmeJs.derive, ReadmeJs.userId_of. now rewrite Hs. Qed.

Lemma readme_derive_inv (prefix : string) (r : id_fields) (name mimetype k t : string) :
  ReadmeJs.derive prefix r name mimetype = Ok (k, t) ->
  exists s, js_toString ReadmeJs.toString_callee (rawUserId r) = Ok s /\ k = ReadmeJs.key_of prefix (replace_slashes s) /\
            t = resolve_mime mimetype (ReadmeJs.ext_of name).
Proof.
  unfold ReadmeJs.derive, ReadmeJs.userId_of.
  destruct (js_toString _ (rawUserId r)) as [s|e]; simpl; [|discriminate].
  intros H. injection H as <- <-. eauto.
Qed.

Lemma server_key_of_inj_ext prefix u e1 e2 :
  ServerJs.key_of prefix u e1 = ServerJs.key_of prefix u e2 -> e1 = e2.
Proof. unfold ServerJs.key_of. intros H. now apply str_app_inv_l, str_app_inv_l, str_app_inv_l in H. Qed.

Lemma server_key_of_inj_user prefix u1 u2 e :
  ServerJs.key_of prefix u1 e = ServerJs.key_of prefix u2 e -> u1 = u2.
Proof.
  unfold ServerJs.key_of. intros H. apply str_app_inv_l, str_app_inv_l in H.
  now apply str_app_inv_r in H.
Qed.

Lemma rawUserId_first (r : id_fields) :
  truthy (query_userId r) = true -> rawUserId r = query_userId r.
Proof. intros H. unfold rawUserId. now rewrite !(js_or_truthy_l (query_userId r)) by exact H. Qed.

Lemma server_ext_of_dot_ext (b0 : string) (c : ascii) (E : string) :
  c <> "/"%char -> E <> "" -> has_char "/" E = false -> has_char "." E = false ->
  ServerJs.ext_of (b0 +:+ String c (String "." E)) = String "." E.
Proof. intros. unfold ServerJs.ext_of. rewrite extname_dot_ext by assumption. reflexivity. Qed.

Lemma readme_ext_of_dot_ext (b0 : string) (c : ascii) (E : string) :
  c <> "/"%char -> E <> "" -> has_char "/" E = false -> has_char "." E = false ->
  ReadmeJs.ext_of (b0 +:+ String c (String "." E)) = String "." (toLowerCase E).
Proof. intros. unfold ReadmeJs.ext_of. rewrite extname_dot_ext by assumption. reflexivity. Qed.

Lemma resolve_mime_not_image (m e : string) :
  String.prefix "image/" m = false ->
  resolve_mime m e = if String.eqb e ".png" then "image/png"
                     else if String.eqb e ".gif" then "image/gif"
                     else if String.eqb e ".webp" then "image/webp" else "image/jpeg".
Proof. intros H. unfold resolve_mime. now rewrite H, andb_false_r. Qed.

Lemma resolve_mime_is_image (m e : string) : String.prefix "image/" (resolve_mime m e) = true.
Proof.
  unfold resolve_mime. destruct (truthy (JStr m) && String.prefix "image/" m) eqn:E.
  - apply andb_true_iff in E. tauto.
  - repeat case_if; reflexivity.
Qed.

Lemma server_derive_image prefix r uuid name mimetype key mime :
  ServerJs.derive prefix r uuid name mimetype = Ok (key, mime) -> String.prefix "image/" mime = true.
Proof.
  intros Hd. apply server_derive_inv in Hd as (s & _ & -> & _). apply resolve_mime_is_image.
Qed.

Lemma readme_derive_image prefix r name mimetype key mime :
  ReadmeJs.derive prefix r name mimetype = Ok (key, mime) -> String.prefix "image/" mime = true.
Proof. intros Hd. apply readme_derive_inv in Hd as (s & _ & _ & ->). apply resolve_mime_is_image. Qed.

(** ** Properties *)


(** C9: the segment is the sanitised [toString()] of the id when one was
    sent, and the sanitised [randomUUID()] otherwise. *)
Theorem server_key_segment (prefix : string) (r : id_fields) (uuid name mimetype k t : string) :
  ServerJs.derive prefix r uuid name mimetype = Ok (k, t) ->
  (forall s, truthy (rawUserId r) = true -> js_toString ServerJs.toString_callee (rawUserId r) = Ok s ->
     k = prefix +:+ "/" +:+ replace_slashes s +:+ ServerJs.ext_of name) /\
  (truthy (rawUserId r) = false -> k = prefix +:+ "/" +:+ replace_slashes uuid +:+ ServerJs.ext_of name).
Proof.
  intros Hk. apply server_derive_inv in Hk as (s & -> & _ & H1 & H2). split.
  - intros s' Ht Hs'. rewrite H1 in Hs' by exact Ht. now injection Hs' as ->.
  - intros Ht. now rewrite (H2 Ht).
Qed.

(** C31: sanitising is not injective: an id with a [/] and the same id
    with [-] in its place are different ids with the same key, in both
    revisions, so either client overwrites the other's picture. *)
Theorem slash_dash_collision (prefix a b : string) (q2 b1 b2 : jsval) (uuid name mimetype : string) :
  a +:+ "/" +:+ b <> a +:+ "-" +:+ b /\
  ServerJs.derive prefix (mk_id_fields (JStr (a +:+ "/" +:+ b)) q2 b1 b2) uuid name mimetype =
  ServerJs.derive prefix (mk_id_fields (JStr (a +:+ "-" +:+ b)) q2 b1 b2) uuid name mimetype /\
  ReadmeJs.derive prefix (mk_id_fields (JStr (a +:+ "/" +:+ b)) q2 b1 b2) name mimetype =
  ReadmeJs.derive prefix (mk_id_fields (JStr (a +:+ "-" +:+ b)) q2 b1 b2) name mimetype.
Proof.
  assert (T : forall c, truthy (JStr (a +:+ String c b)) = true).
  { intros c. simpl. destruct (String.eqb_spec (a +:+ String c b) "") as [E|_];
      [now apply str_app_String_neq_empty in E | reflexivity]. }
  split; [intros H; apply str_app_inv_l in H; discriminate|].
  unfold ServerJs.derive, ReadmeJs.derive, ServerJs.userId_of, ReadmeJs.userId_of.
  rewrite !rawUserId_first by apply T. cbn [query_userId].
  rewrite !(js_or_truthy_l (JStr _)) by apply T. simpl.
  now rewrite replace_slashes_slash_dash.
Qed.

(** C37: in [src/README.md] the key is a function of the id alone: two
    uploads with the same id, whatever their file names and types, write
    the same key, so the second replaces the first. *)
Theorem readme_key_depends_only_on_id (prefix : string) (r1 r2 : id_fields) (n1 n2 m1 m2 k1 k2 t1 t2 : string) :
  rawUserId r1 = rawUserId r2 ->
  ReadmeJs.derive prefix r1 n1 m1 = Ok (k1, t1) -> ReadmeJs.derive prefix r2 n2 m2 = Ok (k2, t2) ->
  k1 = k2.
Proof.
  intros Hr H1 H2.
  apply readme_derive_inv in H1 as (s1 & Hs1 & -> & _).
  apply readme_derive_inv in H2 as (s2 & Hs2 & -> & _).
  rewrite Hr, Hs2 in Hs1. now injection Hs1 as ->.
Qed.

(** C26: in [src/server.js] the key also depends on the file: the same id
    with two different extensions gives two different keys, so a new
    picture in another format does not replace the old one. *)
Theorem server_key_depends_on_extension (prefix : string) (r : id_fields) (uuid n1 n2 m1 m2 k1 k2 t1 t2 : string) :
  ServerJs.ext_of n1 <> ServerJs.ext_of n2 ->
  ServerJs.derive prefix r uuid n1 m1 = Ok (k1, t1) -> ServerJs.derive prefix r uuid n2 m2 = Ok (k2, t2) ->
  k1 <> k2.
Proof.
  intros Hne H1 H2 ->.
  unfold ServerJs.derive, ServerJs.userId_of in H1, H2.
  destruct (js_toString _ (js_or (rawUserId r) (JStr uuid))) as [x|e]; [|discriminate].
  simpl in *. injection H1 as <- _. injection H2 as H2 _.
  apply server_key_of_inj_ext in H2. auto.
Qed.

(** C32: without an id, two different [randomUUID()] values (which never
    contain a [/]) give two different keys. *)
Theorem server_fresh_keys_distinct (prefix : string) (r : id_fields) (u1 u2 name mimetype k1 k2 t1 t2 : string) :
  truthy (rawUserId r) = false -> has_char "/" u1 = false -> has_char "/" u2 = false -> u1 <> u2 ->
  ServerJs.derive prefix r u1 name mimetype = Ok (k1, t1) ->
  ServerJs.derive prefix r u2 name mimetype = Ok (k2, t2) -> k1 <> k2.
Proof.
  intros Ht Hs1 Hs2 Hne H1 H2 ->.
  apply server_key_segment in H1 as [_ H1]. apply server_key_segment in H2 as [_ H2].
  rewrite (H1 Ht) in H2; clear H1. specialize (H2 Ht).
  rewrite !replace_slashes_id in H2 by assumption.
  apply (server_key_of_inj_user prefix u1 u2 (ServerJs.ext_of name)) in H2. auto.
Qed.

(** C23: the stored content type is always an [image/] type, and it is
    the declared type whenever that one starts with [image/]. *)
Theorem resolve_mime_image (m e : string) :
  String.prefix "image/" (resolve_mime m e) = true /\
  (String.prefix "image/" m = true -> resolve_mime m e = m).
Proof.
  split; [apply resolve_mime_is_image|].
  intros H. unfold resolve_mime. rewrite H. destruct m; [discriminate | reflexivity].
Qed.

(** C25: in [src/server.js] a file named [....PNG] (any letter case other
    than [png]) sent without an image type is stored under a key ending
    in [.PNG] with the type [image/jpeg]: the extension is compared with
    ['.png'] without lower-casing it. *)
Theorem server_uppercase_extension (prefix : string) (r : id_fields) (uuid b0 : string) (c : ascii) (E m k t : string) :
  c <> "/"%char -> E <> "png" -> toLowerCase E = "png" -> String.prefix "image/" m = false ->
  ServerJs.derive prefix r uuid (b0 +:+ String c (String "." E)) m = Ok (k, t) ->
  t = "image/jpeg" /\ exists u, k = prefix +:+ "/" +:+ u +:+ String "." E.
Proof.
  intros Hc HE Hl Hm Hd.
  destruct (toLowerCase_shape E "png" Hl) as (Hne & Hs & Hdot); [discriminate | reflexivity | reflexivity |].
  apply server_derive_inv in Hd as (s & -> & -> & _).
  rewrite server_ext_of_dot_ext by assumption. split; [|eauto].
  rewrite resolve_mime_not_image by exact Hm.
  destruct (String.eqb_spec (String "." E) ".png") as [H|_]; [injection H as H; contradiction|].
  destruct (String.eqb_spec (String "." E) ".gif") as [H|_];
    [injection H as ->; vm_compute in Hl; discriminate|].
  destruct (String.eqb_spec (String "." E) ".webp") as [H|_];
    [injection H as ->; vm_compute in Hl; discriminate|].
  reflexivity.
Qed.

(** C38: in [src/README.md] the lower-cased extension picks the type: a
    [.png], [.gif] or [.webp] file in any letter case, sent without an
    image type, is stored as [image/png], [image/gif] or [image/webp]. *)
Theorem readme_mime_from_extension (prefix : string) (r : id_fields) (b0 : string) (c : ascii) (E e m k t : string) :
  In e ["png"; "gif"; "webp"] -> toLowerCase E = e -> c <> "/"%char ->
  String.prefix "image/" m = false ->
  ReadmeJs.derive prefix r (b0 +:+ String c (String "." E)) m = Ok (k, t) -> t = "image/" +:+ e.
Proof.
  intros He Hl Hc Hm Hd. apply readme_derive_inv in Hd as (s & _ & _ & ->).
  assert (Hsh : E <> "" /\ has_char "/" E = false /\ has_char "." E = false).
  { apply (toLowerCase_shape E e Hl);
      repeat (destruct He as [<- | He]; [vm_compute; congruence|]); destruct He. }
  destruct Hsh as (Hne & Hs & Hdot).
  rewrite readme_ext_of_dot_ext, Hl, resolve_mime_not_image by assumption.
  repeat (destruct He as [<- | He]; [reflexivity|]). destruct He.
Qed.

(** ** Witnesses *)


Lemma server_key_segment_witness :
  (forall s, truthy (JStr "gid://shopify/Customer/123") = true ->
     js_toString ServerJs.toString_callee (JStr "gid://shopify/Customer/123") = Ok s ->
     "profile-pics/gid:--shopify-Customer-123.png"
       = "profile-pics" +:+ "/" +:+ replace_slashes s +:+ ServerJs.ext_of "me.png") /\
  (truthy (JStr "gid://shopify/Customer/123") = false ->
     "profile-pics/gid:--shopify-Customer-123.png"
       = "profile-pics" +:+ "/" +:+ replace_slashes "u" +:+ ServerJs.ext_of "me.png").
Proof.
  apply (server_key_segment "profile-pics"
           (mk_id_fields JUndefined JUndefined (JStr "gid://shopify/Customer/123") JUndefined)
           "u" "me.png" "image/png" "profile-pics/gid:--shopify-Customer-123.png" "image/png").
  reflexivity.
Defined.

Lemma readme_key_depends_only_on_id_witness :
  "profile-pics/customer-123" = "profile-pics/customer-123".
Proof.
  apply (readme_key_depends_only_on_id "profile-pics"
           (mk_id_fields (JStr "customer-123") JUndefined JUndefined JUndefined)
           (mk_id_fields JUndefined (JStr "") (JStr "customer-123") (JStr "other"))
           "a.png" "b.GIF" "image/png" "" _ _ "image/png" "image/gif"); reflexivity.
Defined.

Lemma server_key_depends_on_extension_witness :
  "profile-pics/u1.png" <> "profile-pics/u1.jpg".
Proof.
  apply (server_key_depends_on_extension "profile-pics"
           (mk_id_fields (JStr "u1") JUndefined JUndefined JUndefined) "uuid"
           "a.png" "a.jpg" "image/png" "image/jpeg" _ _ "image/png" "image/jpeg");
    [vm_compute; congruence | reflexivity | reflexivity].
Defined.

Lemma server_fresh_keys_distinct_witness :
  "profile-pics/1b4e28ba-2fa1-41d2-883f-0016d3cca427.jpg"
  <> "profile-pics/6ec0bd7f-11c0-43da-975e-2a8ad9ebae0b.jpg".
Proof.
  apply (server_fresh_keys_distinct "profile-pics"
           (mk_id_fields JUndefined (JStr "") JUndefined JUndefined)
           "1b4e28ba-2fa1-41d2-883f-0016d3cca427" "6ec0bd7f-11c0-43da-975e-2a8ad9ebae0b"
           "photo" "image/jpeg" _ _ "image/jpeg" "image/jpeg");
    [reflexivity | reflexivity | reflexivity | vm_compute; congruence | reflexivity | reflexivity].
Defined.

Lemma resolve_mime_image_witness :
  resolve_mime "image/png" ".gif" = "image/png".
Proof. apply (proj2 (resolve_mime_image "image/png" ".gif")). reflexivity. Defined.

Lemma server_uppercase_extension_witness :
  "image/jpeg" = "image/jpeg" /\
  exists u, "profile-pics/u.PNG" = "profile-pics" +:+ "/" +:+ u +:+ String "." "PNG".
Proof.
  apply (server_uppercase_extension "profile-pics"
           (mk_id_fields (JStr "u") JUndefined JUndefined JUndefined) "uuid" "phot" "o" "PNG"
           "application/octet-stream");
    [discriminate | discriminate | reflexivity | reflexivity | reflexivity].
Defined.

Lemma readme_mime_from_extension_witness : "image/gif" = "image/" +:+ "gif".
Proof.
  apply (readme_mime_from_extension "profile-pics"
           (mk_id_fields (JStr "u") JUndefined JUndefined JUndefined) "anim" "l" "GIF" "gif"
           "application/octet-stream" "profile-pics/u");
    [simpl; auto | reflexivity | discriminate | reflexivity | reflexivity].
Defined.
