(* ===== verification/Storage.v ===== *)
(** * The object store: interface, laws and an in-memory bucket

    The handlers reach S3 through three AWS SDK calls:
    [s3Client.send(new PutObjectCommand(...))] ([src/server.js] lines
    82-90), [s3Client.send(new ListObjectsV2Command(...))] (lines 124-130)
    and [getSignedUrl(s3Client, new GetObjectCommand(...), {expiresIn})]
    (lines 98-102 and 149-153).  The SDK is not part of the repository:

    - [ObjectStore] is the interface the handlers are written against
      (the spec's "Object-Storage Client" with [put], [list], [signedUrl]),
      with [os_get] to observe the bucket;
    - [ObjectStoreLaws] is what S3 promises of these calls: a successful
      put is read back, other keys are untouched, a listing returns keys
      under the prefix in ascending order, at most [MaxKeys] of them and
      all of them when fewer, and a presigned URL, never empty, is
      produced for an expiry of at most one week (604800 s) and refused
      beyond;
    - [mem_bucket] is a bucket kept in a [gmap], with a logical clock for
      [LastModified], an outage switch that makes every request to S3
      fail, and an abstract SigV4 signer (the HMAC is not modelled); its
      instance discharges the laws.

    The handlers' theorems (in [Upload.v] and [Lookup.v]) are proved from
    the laws only, so they hold for any store that satisfies them. *)

From stdpp Require Import base strings list gmap sorting.
From Stdlib Require Import String Ascii ZArith Lia Sorted DecimalString.
From S2P Require Import Prelude JsString.

(** An object as S3 keeps it. *)
Record s3object := mk_s3object {
  obj_body : list Byte.byte;
  obj_content_type : string;
  obj_cache_control : string;
  obj_last_modified : N
}.

(** An entry of a [ListObjectsV2] answer: [Key], [Size], [LastModified]. *)
Record s3item := mk_s3item {
  item_key : string;
  item_size : N;
  item_last_modified : N
}.

#[export] Instance s3object_eq_dec : EqDecision s3object.
Proof. solve_decision. Defined.

#[export] Instance s3item_eq_dec : EqDecision s3item.
Proof. solve_decision. Defined.

Class ObjectStore (S : Type) := {
  (** [PutObjectCommand({Key, Body, ContentType, CacheControl})] *)
  os_put : S -> string -> list Byte.byte -> string -> string -> result S string;
  (** the object stored under a key, if any *)
  os_get : S -> string -> option s3object;
  (** [ListObjectsV2Command({Prefix, MaxKeys})]: the [Contents] *)
  os_list : S -> string -> nat -> result (list s3item) string;
  (** [getSignedUrl(..., GetObjectCommand({Key}), {expiresIn})] *)
  os_presign : S -> string -> Z -> result string string
}.

(** The longest validity of a SigV4 presigned URL, in seconds. *)
Definition max_presign_expiry : Z := 604800.

Definition item_matches {S} `{ObjectStore S} (s : S) (it : s3item) : Prop :=
  exists o, os_get s (item_key it) = Some o /\
            item_size it = N.of_nat (List.length (obj_body o)) /\
            item_last_modified it = obj_last_modified o.

Class ObjectStoreLaws (S : Type) `{ObjectStore S} := {
  os_put_get : forall s k b ct cc s',
    os_put s k b ct cc = Ok s' -> exists t, os_get s' k = Some (mk_s3object b ct cc t);
  os_put_other : forall s k b ct cc s' k',
    os_put s k b ct cc = Ok s' -> k' <> k -> os_get s' k' = os_get s k';
  os_list_sound : forall s p n items,
    os_list s p n = Ok items ->
    List.length items <= n /\ NoDup (map item_key items) /\
    Sorted String.le (map item_key items) /\
    Forall (fun it => String.prefix p (item_key it) = true /\ item_matches s it) items;
  os_list_complete : forall s p n items,
    os_list s p n = Ok items -> List.length items < n ->
    forall k o, os_get s k = Some o -> String.prefix p k = true -> In k (map item_key items);
  os_presign_valid : forall s k e,
    (e <= max_presign_expiry)%Z -> exists url, os_presign s k e = Ok url;
  os_presign_expiry : forall s k e url,
    os_presign s k e = Ok url -> (e <= max_presign_expiry)%Z;
  os_presign_nonempty : forall s k e url,
    os_presign s k e = Ok url -> url <> ""
}.

(** ** An in-memory bucket *)

Record mem_bucket := mk_mem_bucket {
  mb_objects : gmap string s3object;
  (** [LastModified] of the next write *)
  mb_clock : N;
  (** [Some msg]: S3 cannot be reached and every request fails with [msg] *)
  mb_outage : option string;
  (** [https://<bucket>.s3.<region>.amazonaws.com] *)
  mb_endpoint : string;
  (** the SigV4 signature of a key and an expiry *)
  mb_signer : string -> Z -> string
}.

Definition mb_put (s : mem_bucket) (k : string) (b : list Byte.byte) (ct cc : string)
  : result mem_bucket string :=
  match mb_outage s with
  | Some msg => Err msg
  | None =>
      Ok (mk_mem_bucket (<[k := mk_s3object b ct cc (mb_clock s)]> (mb_objects s))
                        (N.succ (mb_clock s)) (mb_outage s) (mb_endpoint s) (mb_signer s))
  end.

Definition key_le (a b : string * s3object) : Prop := String.le a.1 b.1.

#[export] Instance key_le_dec : RelDecision key_le.
Proof. intros a b. unfold key_le. apply _. Defined.

Definition item_of (kv : string * s3object) : s3item :=
  mk_s3item kv.1 (N.of_nat (List.length (obj_body kv.2))) (obj_last_modified kv.2).

(** The keys under the prefix in ascending order, the first [n] of them. *)
Definition mb_list (s : mem_bucket) (p : string) (n : nat) : result (list s3item) string :=
  match mb_outage s with
  | Some msg => Err msg
  | None =>
      Ok (map item_of
              (take n (merge_sort key_le
                         (filter (fun kv => String.prefix p kv.1 = true) (map_to_list (mb_objects s))))))
  end.

Definition presign_too_long_msg : string :=
  "Signature version 4 presigned URLs must have an expiration date less than one week in the future".

Definition mb_presign (s : mem_bucket) (k : string) (e : Z) : result string string :=
  if Z.leb e max_presign_expiry
  then Ok (mb_endpoint s +:+ "/" +:+ k
           +:+ "?X-Amz-Algorithm=AWS4-HMAC-SHA256&X-Amz-Expires="
           +:+ NilEmpty.string_of_int (Z.to_int e)
           +:+ "&X-Amz-Signature=" +:+ mb_signer s k e)
  else Err presign_too_long_msg.

#[export] Instance mem_bucket_store : ObjectStore mem_bucket := {
  os_put := mb_put;
  os_get s k := mb_objects s !! k;
  os_list := mb_list;
  os_presign := mb_presign
}.

(** The objects under the prefix, in ascending key order. *)
Definition under_prefix (p : string) (kv : string * s3object) : Prop := String.prefix p kv.1 = true.

#[export] Instance under_prefix_dec (p : string) (kv : string * s3object) : Decision (under_prefix p kv).
Proof. unfold under_prefix. apply _. Defined.

Definition mb_sorted (s : mem_bucket) (p : string) : list (string * s3object) :=
  merge_sort key_le (filter (under_prefix p) (map_to_list (mb_objects s))).

(** ** The in-memory bucket satisfies the laws *)

Lemma Sorted_take {A} (R : relation A) (n : nat) (l : list A) :
  Sorted R l -> Sorted R (take n l).
Proof.
  revert n. induction l as [|x l IH]; intros [|n] H; simpl; auto.
  inversion H as [|? ? Hl Hhd]; subst. constructor; [now apply IH|].
  destruct l as [|y l], n as [|n]; simpl; constructor. now inversion Hhd.
Qed.

Lemma NoDup_take {A} (n : nat) (l : list A) : NoDup l -> NoDup (take n l).
Proof.
  intros H. rewrite <- (take_drop n l) in H. apply NoDup_app in H. tauto.
Qed.

Lemma Sorted_key_le_fst (l : list (string * s3object)) :
  Sorted key_le l -> Sorted String.le (l.*1).
Proof.
  induction l as [|x l IH]; intros H; simpl; constructor; inversion H as [|? ? Hl Hhd]; subst; auto.
  destruct l as [|y l]; simpl; constructor. now inversion Hhd.
Qed.

#[export] Instance key_le_total : Total key_le.
Proof. intros a b. unfold key_le. apply String.le_total. Qed.

Lemma item_key_of (l : list (string * s3object)) : map item_key (map item_of l) = l.*1.
Proof. induction l as [|x l IH]; simpl; [reflexivity|]. now rewrite IH. Qed.

Section MemBucketList.
Context (s : mem_bucket) (p : string).

Lemma mb_sorted_elem kv : kv ∈ mb_sorted s p <-> under_prefix p kv /\ mb_objects s !! kv.1 = Some kv.2.
Proof.
  unfold mb_sorted. rewrite (merge_sort_Permutation key_le _), list_elem_of_filter.
  destruct kv as [k o]. simpl. now rewrite elem_of_map_to_list.
Qed.

Lemma mb_sorted_NoDup : NoDup ((mb_sorted s p).*1).
Proof.
  unfold mb_sorted. rewrite (merge_sort_Permutation key_le _).
  apply (sublist_NoDup _ ((map_to_list (mb_objects s)).*1)); [apply NoDup_fst_map_to_list|].
  apply fmap_sublist, sublist_filter.
Qed.

Lemma mb_list_eq n : mb_outage s = None -> mb_list s p n = Ok (map item_of (take n (mb_sorted s p))).
Proof. unfold mb_list. now intros ->. Qed.
End MemBucketList.

#[export] Instance mem_bucket_laws : ObjectStoreLaws mem_bucket.
Proof.
  split.
  - intros s k b ct cc s'. simpl. unfold mb_put. destruct (mb_outage s); [discriminate|].
    intros H. injection H as <-. simpl. rewrite lookup_insert_eq. eauto.
  - intros s k b ct cc s' k'. simpl. unfold mb_put. destruct (mb_outage s); [discriminate|].
    intros H Hne. injection H as <-. simpl. now rewrite lookup_insert_ne by congruence.
  - intros s p' n items. simpl. destruct (mb_outage s) eqn:Ho; [unfold mb_list; now rewrite Ho|].
    rewrite mb_list_eq by exact Ho. intros H. injection H as <-.
    rewrite item_key_of. split; [|split; [|split]].
    + rewrite length_map, length_take. lia.
    + rewrite fmap_take. apply NoDup_take, mb_sorted_NoDup.
    + rewrite fmap_take. apply Sorted_take, Sorted_key_le_fst, Sorted_merge_sort, key_le_total.
    + apply Forall_forall. intros it Hit. apply list_elem_of_In, in_map_iff in Hit as (kv & <- & Hin).
      apply list_elem_of_In, elem_of_take in Hin as (i & Hi & _).
      assert (Hkv : kv ∈ mb_sorted s p') by (eapply list_elem_of_lookup_2; eauto).
      apply mb_sorted_elem in Hkv as [Hp Hl]. split; [exact Hp|].
      exists kv.2. simpl. auto.
  - intros s p' n items. simpl. destruct (mb_outage s) eqn:Ho; [unfold mb_list; now rewrite Ho|].
    rewrite mb_list_eq by exact Ho. intros H Hlen k o Hk Hp. injection H as <-.
    rewrite length_map, length_take in Hlen.
    rewrite take_ge by lia. rewrite item_key_of.
    apply list_elem_of_In, list_elem_of_fmap. exists (k, o). split; [reflexivity|].
    apply mb_sorted_elem. auto.
  - intros s k e He. simpl. unfold mb_presign. rewrite (proj2 (Z.leb_le _ _) He). eauto.
  - intros s k e url. simpl. unfold mb_presign. destruct (Z.leb_spec e max_presign_expiry); [auto|discriminate].
  - intros s k e url. simpl. unfold mb_presign. destruct (Z.leb e max_presign_expiry); [|discriminate].
    intros Hu. injection Hu as <-. destruct (mb_endpoint s); [rewrite str_app_nil_l|rewrite str_app_cons]; discriminate.
Qed.
