(* ===== verification/Upload.v ===== *)
(** * The upload handler, [POST /api/upload/profile-pic]

    [src/server.js] lines 64-118 and [src/README.md] lines 154-213.  The
    handler runs after multer (see [Validator.v] and [Multipart.v]) with
    [req.file] and the id fields, inside a [try]; its body, [*_try], is a
    computation of [stm S response] over any [ObjectStore] [S]:

    + no [req.file]: [400 {error: 'No file uploaded. Use field name "file".'}];
    + ([ReadmeJs] only) a falsy [rawUserId]: [400 {error: 'Missing userId ...'}];
    + the key and content type ([KeyDeriver.v]);
    + [PutObjectCommand] with the body, the content type and the
      revision's [CacheControl] ([public, max-age=31536000] in server.js,
      [no-store, max-age=0] in the README revision);
    + the URL: [S3_PUBLIC_BASE_URL] without one trailing [/], then [/key],
      when that variable is truthy, else a URL presigned for six days;
    + [201 {success: true, url, key}].

    The [catch] turns any error thrown on the way into
    [500 {error: err.message || 'Upload failed'}]; [stm_catch] keeps the
    state reached when the error was thrown. *)

From stdpp Require Import base strings list gmap.
From Stdlib Require Import String Ascii ZArith Lia.
From S2P Require Import Prelude JsString JsValue Validator KeyDeriver Storage.

Local Open Scope api_scope.

(** ** Responses *)

(** The JSON values the handlers send. *)
Inductive json : Type :=
| JsonNull
| JsonBool (b : bool)
| JsonNum (n : N)
| JsonStr (s : string)
| JsonArr (l : list json)
| JsonObj (fields : list (string * json)).

(** [res.status(code).json(body)]; [res.json(body)] is status 200. *)
Record response := mk_response {
  status : N;
  body : json
}.

Definition error_json (msg : string) : json := JsonObj [("error", JsonStr msg)].

(** The server's configuration: [PROFILE_PREFIX] and
    [process.env.S3_PUBLIC_BASE_URL] ([""] when unset; both are falsy). *)
Record config := mk_config {
  cfg_prefix : string;
  cfg_public_base_url : string
}.

(** The request as the handler sees it after multer. *)
Record upload_request := mk_upload_request {
  req_ids : id_fields;
  req_file : option upfile
}.

Definition dquote : string := String (Ascii.ascii_of_nat 34) EmptyString.

Definition no_file_msg : string :=
  "No file uploaded. Use field name " +:+ dquote +:+ "file" +:+ dquote +:+ ".".

Definition missing_user_msg : string := "Missing userId (Shopify customer ID).".

(** [{ expiresIn: 60 * 60 * 24 * 6 }] *)
Definition upload_expires_in : Z := 60 * 60 * 24 * 6.

Definition created_json (url key : string) : json :=
  JsonObj [("success", JsonBool true); ("url", JsonStr url); ("key", JsonStr key)].

(** ** Calls to the store *)

Section Calls.
Context {S : Type} `{ObjectStore S}.

(** [await s3Client.send(new PutObjectCommand({...}))]: a failed request
    throws and leaves the bucket as it was. *)
Definition s3_put (key : string) (b : list Byte.byte) (ct cc : string) : stm S unit :=
  fun s => match os_put s key b ct cc with
           | Ok s' => (Ok tt, s')
           | Err e => (Err e, s)
           end.

(** [await getSignedUrl(s3Client, new GetObjectCommand({Key}), {expiresIn})] *)
Definition s3_presign (key : string) (expires_in : Z) : stm S string :=
  fun s => (os_presign s key expires_in, s).

(** The URL of the uploaded object (lines 93-103). *)
Definition resolve_url (base key : string) : stm S string :=
  if truthy (JStr base) then stm_ret (strip_trailing_slash base +:+ "/" +:+ key)
  else s3_presign key upload_expires_in.

(** [catch (err) { res.status(500).json({ error: err.message || 'Upload failed' }) }] *)
Definition upload_catch (msg : string) : stm S response :=
  stm_ret (mk_response 500 (error_json (str_or msg "Upload failed"))).

End Calls.

Module ServerJs.

Definition cache_control : string := "public, max-age=31536000".

Section Handler.
Context {S : Type} `{ObjectStore S}.

(** The body of the [try], [src/server.js] lines 66-111. *)
Definition upload_try (cfg : config) (uuid : string) (req : upload_request) : stm S response :=
  match req_file req with
  | None => stm_ret (mk_response 400 (error_json no_file_msg))
  | Some f =>
      km <- stm_lift (KeyDeriver.ServerJs.derive (cfg_prefix cfg) (req_ids req) uuid
                                                  (originalname f) (mimetype f)) ;;
      _ <- s3_put km.1 (buffer f) km.2 cache_control ;;
      url <- resolve_url (cfg_public_base_url cfg) km.1 ;;
      stm_ret (mk_response 201 (created_json url km.1))
  end.

Definition upload_handler (cfg : config) (uuid : string) (req : upload_request) : stm S response :=
  stm_catch (upload_try cfg uuid req) upload_catch.

End Handler.

End ServerJs.

Module ReadmeJs.

Definition cache_control : string := "no-store, max-age=0".

Section Handler.
Context {S : Type} `{ObjectStore S}.

(** The body of the [try], [src/README.md] lines 156-206. *)
Definition upload_try (cfg : config) (req : upload_request) : stm S response :=
  match req_file req with
  | None => stm_ret (mk_response 400 (error_json no_file_msg))
  | Some f =>
      if negb (truthy (rawUserId (req_ids req)))
      then stm_ret (mk_response 400 (error_json missing_user_msg))
      else
        km <- stm_lift (KeyDeriver.ReadmeJs.derive (cfg_prefix cfg) (req_ids req)
                                                    (originalname f) (mimetype f)) ;;
        _ <- s3_put km.1 (buffer f) km.2 cache_control ;;
        url <- resolve_url (cfg_public_base_url cfg) km.1 ;;
        stm_ret (mk_response 201 (created_json url km.1))
  end.

Definition upload_handler (cfg : config) (req : upload_request) : stm S response :=
  stm_catch (upload_try cfg req) upload_catch.

End Handler.

End ReadmeJs.

(** ** Lemmas *)

Lemma upload_expires_in_valid : (upload_expires_in <= max_presign_expiry)%Z.
Proof. vm_compute. discriminate. Qed.

Section Laws.
Context {S : Type} `{ObjectStoreLaws S}.

Lemma s3_put_Ok (s s' : S) k b ct cc :
  os_put s k b ct cc = Ok s' -> s3_put k b ct cc s = (Ok tt, s').
Proof. unfold s3_put. now intros ->. Qed.

Lemma s3_put_Err (s : S) k b ct cc e :
  os_put s k b ct cc = Err e -> s3_put k b ct cc s = (Err e, s).
Proof. unfold s3_put. now intros ->. Qed.

(** The URL is always produced, without touching the bucket: the six days
    of the presigned URL are within the one-week limit of SigV4. *)
Lemma resolve_url_ok (base key : string) (s : S) :
  exists url, resolve_url base key s = (Ok url, s) /\
    (truthy (JStr base) = true -> url = strip_trailing_slash base +:+ "/" +:+ key) /\
    (truthy (JStr base) = false -> os_presign s key upload_expires_in = Ok url).
Proof.
  unfold resolve_url. destruct (truthy (JStr base)).
  - eexists. split; [reflexivity|]. split; [reflexivity|discriminate].
  - destruct (os_presign_valid s key upload_expires_in upload_expires_in_valid) as [url Hu].
    exists url. unfold s3_presign. rewrite Hu. split; [reflexivity|]. split; [discriminate|auto].
Qed.

(** The three steps after the key: put, URL, response. *)
Lemma put_then_url (key mime cc base : string) (b : list Byte.byte) (s : S) :
  (stm_catch
     (_ <- s3_put key b mime cc ;;
      url <- resolve_url base key ;;
      stm_ret (mk_response 201 (created_json url key))) upload_catch) s
  = match os_put s key b mime cc with
    | Ok s' => match resolve_url base key s' with
               | (Ok url, s'') => (Ok (mk_response 201 (created_json url key)), s'')
               | (Err e, s'') => upload_catch e s''
               end
    | Err e => upload_catch e s
    end.
Proof.
  unfold stm_catch, stm_bind, s3_put. destruct (os_put s key b mime cc) as [s'|e]; [|reflexivity].
  destruct (resolve_url base key s') as [[url|e] s'']; reflexivity.
Qed.

(** The server.js handler, step by step. *)
Lemma server_upload_eval (cfg : config) (uuid : string) (req : upload_request) (s : S) :
  ServerJs.upload_handler cfg uuid req s =
  match req_file req with
  | None => (Ok (mk_response 400 (error_json no_file_msg)), s)
  | Some f =>
      match KeyDeriver.ServerJs.derive (cfg_prefix cfg) (req_ids req) uuid (originalname f) (mimetype f) with
      | Err e => upload_catch e s
      | Ok (key, mime) =>
          match os_put s key (buffer f) mime ServerJs.cache_control with
          | Ok s' => match resolve_url (cfg_public_base_url cfg) key s' with
                     | (Ok url, s'') => (Ok (mk_response 201 (created_json url key)), s'')
                     | (Err e, s'') => upload_catch e s''
                     end
          | Err e => upload_catch e s
          end
      end
  end.
Proof.
  unfold ServerJs.upload_handler, ServerJs.upload_try.
  destruct (req_file req) as [f|]; [|reflexivity].
  destruct (KeyDeriver.ServerJs.derive _ _ _ _ _) as [[key mime]|e] eqn:Ed; [|reflexivity].
  unfold stm_catch at 1. unfold stm_bind at 1, stm_lift. rewrite <- put_then_url. reflexivity.
Qed.

(** The README handler, step by step. *)
Lemma readme_upload_eval (cfg : config) (req : upload_request) (s : S) :
  ReadmeJs.upload_handler cfg req s =
  match req_file req with
  | None => (Ok (mk_response 400 (error_json no_file_msg)), s)
  | Some f =>
      if negb (truthy (rawUserId (req_ids req)))
      then (Ok (mk_response 400 (error_json missing_user_msg)), s)
      else
      match KeyDeriver.ReadmeJs.derive (cfg_prefix cfg) (req_ids req) (originalname f) (mimetype f) with
      | Err e => upload_catch e s
      | Ok (key, mime) =>
          match os_put s key (buffer f) mime ReadmeJs.cache_control with
          | Ok s' => match resolve_url (cfg_public_base_url cfg) key s' with
                     | (Ok url, s'') => (Ok (mk_response 201 (created_json url key)), s'')
                     | (Err e, s'') => upload_catch e s''
                     end
          | Err e => upload_catch e s
          end
      end
  end.
Proof.
  unfold ReadmeJs.upload_handler, ReadmeJs.upload_try.
  destruct (req_file req) as [f|]; [|reflexivity].
  destruct (negb (truthy (rawUserId (req_ids req)))); [reflexivity|].
  destruct (KeyDeriver.ReadmeJs.derive _ _ _ _) as [[key mime]|e] eqn:Ed; [|reflexivity].
  unfold stm_catch at 1. unfold stm_bind at 1, stm_lift. rewrite <- put_then_url. reflexivity.
Qed.

(** A 201 answer of the README handler: the file is stored under the key
    its id derives, other keys untouched. *)
Lemma readme_upload_created (cfg : config) (req : upload_request) (s s' : S) resp :
  ReadmeJs.upload_handler cfg req s = (Ok resp, s') -> status resp = 201%N ->
  exists f key mime url t,
    req_file req = Some f /\
    KeyDeriver.ReadmeJs.derive (cfg_prefix cfg) (req_ids req) (originalname f) (mimetype f)
      = Ok (key, mime) /\
    body resp = created_json url key /\
    os_get s' key = Some (mk_s3object (buffer f) mime ReadmeJs.cache_control t) /\
    (forall k', k' <> key -> os_get s' k' = os_get s k').
Proof.
  intros Hh Hs. rewrite readme_upload_eval in Hh.
  destruct (req_file req) as [f|]; [|injection Hh as <- _; discriminate].
  destruct (negb (truthy (rawUserId (req_ids req)))); [injection Hh as <- _; discriminate|].
  destruct (KeyDeriver.ReadmeJs.derive _ _ _ _) as [[key mime]|e] eqn:Ed;
    [|injection Hh as <- _; discriminate].
  destruct (os_put s key (buffer f) mime ReadmeJs.cache_control) as [s1|e] eqn:Ep;
    [|injection Hh as <- _; discriminate].
  destruct (resolve_url_ok (cfg_public_base_url cfg) key s1) as (url & Hu & _).
  rewrite Hu in Hh. injection Hh as <- <-.
  destruct (os_put_get _ _ _ _ _ _ Ep) as [t Ht].
  exists f, key, mime, url, t. repeat split; auto.
  intros k' Hk'. exact (os_put_other _ _ _ _ _ _ k' Ep Hk').
Qed.

(** A non-201 answer of server.js leaves the bucket as it was. *)
Lemma server_upload_not_created (cfg : config) (uuid : string) (req : upload_request) (s s' : S) resp :
  ServerJs.upload_handler cfg uuid req s = (Ok resp, s') -> status resp <> 201%N -> s' = s.
Proof.
  intros Hh Hs. rewrite server_upload_eval in Hh.
  destruct (req_file req) as [f|]; [|now injection Hh as _ <-].
  destruct (KeyDeriver.ServerJs.derive _ _ _ _ _) as [[key mime]|e]; [|now injection Hh as _ <-].
  destruct (os_put s key (buffer f) mime ServerJs.cache_control) as [s1|e]; [|now injection Hh as _ <-].
  destruct (resolve_url_ok (cfg_public_base_url cfg) key s1) as (url & Hu & _).
  rewrite Hu in Hh. injection Hh as <- _. contradiction.
Qed.

End Laws.

(** ** Properties *)

Section Properties.
Context {S : Type} `{ObjectStoreLaws S}.

(** C1: an upload in [src/server.js] either answers 201 after exactly one
    successful [PutObjectCommand] of the file at its derived key, or
    answers another status and leaves the bucket as it was: the handler
    never throws out of its [catch], and the URL step after a successful
    put cannot fail (the six-day expiry is within SigV4's week). *)
Theorem server_upload_all_or_nothing (cfg : config) (uuid : string) (req : upload_request) (s : S) :
  exists resp s',
    ServerJs.upload_handler cfg uuid req s = (Ok resp, s') /\
    ((status resp = 201%N /\
      exists f key mime, req_file req = Some f /\
        KeyDeriver.ServerJs.derive (cfg_prefix cfg) (req_ids req) uuid (originalname f) (mimetype f)
          = Ok (key, mime) /\
        os_put s key (buffer f) mime ServerJs.cache_control = Ok s')
     \/ (status resp <> 201%N /\ s' = s)).
Proof.
  rewrite server_upload_eval.
  destruct (req_file req) as [f|]; [|do 2 eexists; split; [reflexivity|right; split; [discriminate|reflexivity]]].
  destruct (KeyDeriver.ServerJs.derive _ _ _ _ _) as [[key mime]|e] eqn:Ed;
    [|do 2 eexists; split; [reflexivity|right; split; [discriminate|reflexivity]]].
  destruct (os_put s key (buffer f) mime ServerJs.cache_control) as [s'|e] eqn:Ep;
    [|do 2 eexists; split; [reflexivity|right; split; [discriminate|reflexivity]]].
  destruct (resolve_url_ok (cfg_public_base_url cfg) key s') as (url & -> & _).
  do 2 eexists. split; [reflexivity|]. left. split; [reflexivity|]. eauto 7.
Qed.

(** C2: a 201 answer of [src/server.js] carries the key and a URL; the
    bucket then holds the file's bytes under that key with the resolved
    content type and [public, max-age=31536000], every other key is
    untouched, and the URL is [S3_PUBLIC_BASE_URL] (one trailing [/]
    removed) followed by [/key] when that variable is set, else the URL
    presigned for six days. *)
Theorem server_upload_created (cfg : config) (uuid : string) (req : upload_request) (s s' : S) resp :
  ServerJs.upload_handler cfg uuid req s = (Ok resp, s') -> status resp = 201%N ->
  exists f key mime url t,
    req_file req = Some f /\
    KeyDeriver.ServerJs.derive (cfg_prefix cfg) (req_ids req) uuid (originalname f) (mimetype f)
      = Ok (key, mime) /\
    body resp = created_json url key /\
    os_get s' key = Some (mk_s3object (buffer f) mime ServerJs.cache_control t) /\
    (forall k', k' <> key -> os_get s' k' = os_get s k') /\
    (truthy (JStr (cfg_public_base_url cfg)) = true ->
       url = strip_trailing_slash (cfg_public_base_url cfg) +:+ "/" +:+ key) /\
    (truthy (JStr (cfg_public_base_url cfg)) = false -> os_presign s' key upload_expires_in = Ok url).
Proof.
  intros Hh Hs. rewrite server_upload_eval in Hh.
  destruct (req_file req) as [f|]; [|injection Hh as <- _; discriminate].
  destruct (KeyDeriver.ServerJs.derive _ _ _ _ _) as [[key mime]|e] eqn:Ed;
    [|injection Hh as <- _; discriminate].
  destruct (os_put s key (buffer f) mime ServerJs.cache_control) as [s1|e] eqn:Ep;
    [|injection Hh as <- _; discriminate].
  destruct (resolve_url_ok (cfg_public_base_url cfg) key s1) as (url & Hu & Hpub & Hpre).
  rewrite Hu in Hh. injection Hh as <- <-.
  destruct (os_put_get _ _ _ _ _ _ Ep) as [t Ht].
  exists f, key, mime, url, t. repeat split; auto.
  intros k' Hk'. exact (os_put_other _ _ _ _ _ _ k' Ep Hk').
Qed.

(** C10: the error answers of [src/server.js]: without a file, 400 with
    the "No file uploaded" message; when S3 refuses the put with a
    message, 500 with that message ([Upload failed] if it is empty); in
    both cases the bucket is unchanged. *)
Theorem server_upload_errors (cfg : config) (uuid : string) (req : upload_request) (s : S) :
  (req_file req = None ->
     ServerJs.upload_handler cfg uuid req s = (Ok (mk_response 400 (error_json no_file_msg)), s)) /\
  (forall f key mime e,
     req_file req = Some f ->
     KeyDeriver.ServerJs.derive (cfg_prefix cfg) (req_ids req) uuid (originalname f) (mimetype f)
       = Ok (key, mime) ->
     os_put s key (buffer f) mime ServerJs.cache_control = Err e ->
     ServerJs.upload_handler cfg uuid req s
       = (Ok (mk_response 500 (error_json (str_or e "Upload failed"))), s)).
Proof.
  split.
  - intros Hf. rewrite server_upload_eval, Hf. reflexivity.
  - intros f key mime e Hf Hd Hp. rewrite server_upload_eval, Hf, Hd, Hp. reflexivity.
Qed.

(** C35: the README revision refuses an upload without a truthy id with
    400 and the "Missing userId" message, and leaves the bucket as it
    was. *)
Theorem readme_upload_missing_id (cfg : config) (req : upload_request) (s : S) f :
  req_file req = Some f -> truthy (rawUserId (req_ids req)) = false ->
  ReadmeJs.upload_handler cfg req s = (Ok (mk_response 400 (error_json missing_user_msg)), s).
Proof. intros Hf Ht. rewrite readme_upload_eval, Hf, Ht. reflexivity. Qed.

(** C24: an id sent as an object with its own [toString] key
    ([?userId[toString]=x], which Express 4's query parser builds, since
    it allows prototype keys) makes the [toString()] call throw inside
    the [try] of either revision: whatever the file, the upload is
    answered 500 with V8's [TypeError] message and the bucket is
    unchanged. *)
Theorem upload_toString_key_500 (cfg : config) (uuid : string) (req : upload_request) (s : S) f :
  req_file req = Some f -> shadows_toString (rawUserId (req_ids req)) = true ->
  ServerJs.upload_handler cfg uuid req s
    = (Ok (mk_response 500 (error_json "(rawUserId || randomUUID(...)).toString is not a function")), s) /\
  ReadmeJs.upload_handler cfg req s
    = (Ok (mk_response 500 (error_json "rawUserId.toString is not a function")), s).
Proof.
  intros Hf Hsh. split.
  - rewrite server_upload_eval, Hf, server_derive_shadowed by exact Hsh. reflexivity.
  - rewrite readme_upload_eval, Hf, (shadows_toString_truthy _ Hsh), readme_derive_shadowed by exact Hsh.
    reflexivity.
Qed.

(** C36: in the README revision, of two successful uploads with the same
    id the second replaces the first: both answers name the same key and
    the bucket then holds the second file under it. *)
Theorem readme_last_write_wins (cfg : config) (req1 req2 : upload_request) (s0 s1 s2 : S) r1 r2 :
  rawUserId (req_ids req1) = rawUserId (req_ids req2) ->
  ReadmeJs.upload_handler cfg req1 s0 = (Ok r1, s1) -> status r1 = 201%N ->
  ReadmeJs.upload_handler cfg req2 s1 = (Ok r2, s2) -> status r2 = 201%N ->
  exists f2 key url1 url2 mime t,
    req_file req2 = Some f2 /\ body r1 = created_json url1 key /\ body r2 = created_json url2 key /\
    os_get s2 key = Some (mk_s3object (buffer f2) mime ReadmeJs.cache_control t).
Proof.
  intros Hid H1 Hs1 H2 Hs2.
  destruct (readme_upload_created cfg req1 s0 s1 r1 H1 Hs1) as (f1 & k1 & m1 & u1 & t1 & _ & Hd1 & Hb1 & _).
  destruct (readme_upload_created cfg req2 s1 s2 r2 H2 Hs2) as (f2 & k2 & m2 & u2 & t2 & Hf2 & Hd2 & Hb2 & Hg2 & _).
  pose proof (readme_key_depends_only_on_id _ _ _ _ _ _ _ _ _ _ _ Hid Hd1 Hd2) as <-.
  exists f2, k1, u1, u2, m2, t2. auto.
Qed.

(** C27: in [src/server.js] a new picture with another extension does not
    replace the old one: after a 201 upload and any second upload with
    the same id and a different extension, the first file is still stored
    under the first key. *)
Theorem server_new_extension_keeps_old_picture (cfg : config) (uuid : string) (req1 req2 : upload_request)
    (s0 s1 s2 : S) r1 r2 f1 f2 :
  req_ids req1 = req_ids req2 -> req_file req1 = Some f1 -> req_file req2 = Some f2 ->
  KeyDeriver.ServerJs.ext_of (originalname f1) <> KeyDeriver.ServerJs.ext_of (originalname f2) ->
  ServerJs.upload_handler cfg uuid req1 s0 = (Ok r1, s1) -> status r1 = 201%N ->
  ServerJs.upload_handler cfg uuid req2 s1 = (Ok r2, s2) ->
  exists url key mime t,
    body r1 = created_json url key /\
    os_get s2 key = Some (mk_s3object (buffer f1) mime ServerJs.cache_control t).
Proof.
  intros Hid Hf1 Hf2 Hext H1 Hs1 H2.
  destruct (server_upload_created cfg uuid req1 s0 s1 r1 H1 Hs1)
    as (f1' & k1 & m1 & u1 & t1 & Hf1' & Hd1 & Hb1 & Hg1 & _).
  rewrite Hf1 in Hf1'. injection Hf1' as <-.
  exists u1, k1, m1, t1. split; [exact Hb1|].
  destruct (N.eq_dec (status r2) 201) as [Hs2|Hs2].
  - destruct (server_upload_created cfg uuid req2 s1 s2 r2 H2 Hs2)
      as (f2' & k2 & m2 & u2 & t2 & Hf2' & Hd2 & _ & _ & Hother & _ & _).
    rewrite Hf2 in Hf2'. injection Hf2' as <-. rewrite <- Hid in Hd2.
    rewrite Hother; [exact Hg1|].
    intros ->. exact (server_key_depends_on_extension _ _ _ _ _ _ _ _ _ _ _ Hext Hd1 Hd2 eq_refl).
  - rewrite (server_upload_not_created cfg uuid req2 s1 s2 r2 H2 Hs2). exact Hg1.
Qed.

(** C28: in [src/server.js] two successful uploads with the same id and
    extension write the same key, the second replacing the first, while
    both objects are sent with [public, max-age=31536000]: a cache may
    keep the replaced picture for a year, and with [S3_PUBLIC_BASE_URL]
    set both answers carry the same URL. *)
Theorem server_overwrite_long_cache (cfg : config) (uuid : string) (req1 req2 : upload_request)
    (s0 s1 s2 : S) r1 r2 f1 f2 :
  req_ids req1 = req_ids req2 -> req_file req1 = Some f1 -> req_file req2 = Some f2 ->
  KeyDeriver.ServerJs.ext_of (originalname f1) = KeyDeriver.ServerJs.ext_of (originalname f2) ->
  ServerJs.upload_handler cfg uuid req1 s0 = (Ok r1, s1) -> status r1 = 201%N ->
  ServerJs.upload_handler cfg uuid req2 s1 = (Ok r2, s2) -> status r2 = 201%N ->
  exists key url1 url2 mime t,
    body r1 = created_json url1 key /\ body r2 = created_json url2 key /\
    os_get s2 key = Some (mk_s3object (buffer f2) mime "public, max-age=31536000" t) /\
    (truthy (JStr (cfg_public_base_url cfg)) = true -> url1 = url2).
Proof.
  intros Hid Hf1 Hf2 Hext H1 Hs1 H2 Hs2.
  destruct (server_upload_created cfg uuid req1 s0 s1 r1 H1 Hs1)
    as (f1' & k1 & m1 & u1 & t1 & Hf1' & Hd1 & Hb1 & _ & _ & Hpub1 & _).
  destruct (server_upload_created cfg uuid req2 s1 s2 r2 H2 Hs2)
    as (f2' & k2 & m2 & u2 & t2 & Hf2' & Hd2 & Hb2 & Hg2 & _ & Hpub2 & _).
  rewrite Hf1 in Hf1'. injection Hf1' as <-. rewrite Hf2 in Hf2'. injection Hf2' as <-.
  assert (k1 = k2) as <-.
  { unfold KeyDeriver.ServerJs.derive, KeyDeriver.ServerJs.userId_of in Hd1, Hd2.
    rewrite Hid in Hd1. rewrite Hext in Hd1.
    destruct (js_toString _); [|discriminate]. simpl in Hd1, Hd2.
    injection Hd1 as <- _. injection Hd2 as <- _. reflexivity. }
  exists k1, u1, u2, m2, t2. repeat split; auto.
  intros Ht. rewrite (Hpub1 Ht), (Hpub2 Ht). reflexivity.
Qed.

End Properties.

(** ** Witnesses *)

Lemma server_upload_created_witness :
  exists f key mime url t,
    req_file (mk_upload_request (mk_id_fields (JStr "customer-123") JUndefined JUndefined JUndefined) (Some (mk_upfile "file" "a.jpg" "image/jpeg" [Byte.x41]))) = Some f /\
    KeyDeriver.ServerJs.derive "profile-pics" (req_ids (mk_upload_request (mk_id_fields (JStr "customer-123") JUndefined JUndefined JUndefined) (Some (mk_upfile "file" "a.jpg" "image/jpeg" [Byte.x41])))) "u" (originalname f) (mimetype f)
      = Ok (key, mime) /\
    body (mk_response 201 (created_json "https://cdn.example.com/profile-pics/customer-123.jpg" "profile-pics/customer-123.jpg")) = created_json url key /\
    os_get (mk_mem_bucket (<["profile-pics/customer-123.jpg" := mk_s3object [Byte.x41] "image/jpeg" "public, max-age=31536000" 0]> ∅) 1 None "https://pics.s3.amazonaws.com" (fun _ _ => "sig")) key = Some (mk_s3object (buffer f) mime ServerJs.cache_control t) /\
    (forall k', k' <> key -> os_get (mk_mem_bucket (<["profile-pics/customer-123.jpg" := mk_s3object [Byte.x41] "image/jpeg" "public, max-age=31536000" 0]> ∅) 1 None "https://pics.s3.amazonaws.com" (fun _ _ => "sig")) k' = os_get (mk_mem_bucket ∅ 0 None "https://pics.s3.amazonaws.com" (fun _ _ => "sig")) k') /\
    (truthy (JStr "https://cdn.example.com/") = true ->
       url = strip_trailing_slash "https://cdn.example.com/" +:+ "/" +:+ key) /\
    (truthy (JStr "https://cdn.example.com/") = false ->
       os_presign (mk_mem_bucket (<["profile-pics/customer-123.jpg" := mk_s3object [Byte.x41] "image/jpeg" "public, max-age=31536000" 0]> ∅) 1 None "https://pics.s3.amazonaws.com" (fun _ _ => "sig")) key upload_expires_in = Ok url).
Proof. apply (server_upload_created (mk_config "profile-pics" "https://cdn.example.com/") "u" (mk_upload_request (mk_id_fields (JStr "customer-123") JUndefined JUndefined JUndefined) (Some (mk_upfile "file" "a.jpg" "image/jpeg" [Byte.x41]))) (mk_mem_bucket ∅ 0 None "https://pics.s3.amazonaws.com" (fun _ _ => "sig")) (mk_mem_bucket (<["profile-pics/customer-123.jpg" := mk_s3object [Byte.x41] "image/jpeg" "public, max-age=31536000" 0]> ∅) 1 None "https://pics.s3.amazonaws.com" (fun _ _ => "sig")) (mk_response 201 (created_json "https://cdn.example.com/profile-pics/customer-123.jpg" "profile-pics/customer-123.jpg"))); reflexivity. Defined.

Lemma server_upload_errors_witness :
  ServerJs.upload_handler (mk_config "profile-pics" "https://cdn.example.com/") "u" (mk_upload_request (mk_id_fields (JStr "customer-123") JUndefined JUndefined JUndefined) None) (mk_mem_bucket ∅ 0 None "https://pics.s3.amazonaws.com" (fun _ _ => "sig"))
    = (Ok (mk_response 400 (error_json no_file_msg)), (mk_mem_bucket ∅ 0 None "https://pics.s3.amazonaws.com" (fun _ _ => "sig"))) /\
  ServerJs.upload_handler (mk_config "profile-pics" "https://cdn.example.com/") "u" (mk_upload_request (mk_id_fields (JStr "customer-123") JUndefined JUndefined JUndefined) (Some (mk_upfile "file" "a.jpg" "image/jpeg" [Byte.x41]))) (mk_mem_bucket ∅ 0 (Some "Access Denied") "https://pics.s3.amazonaws.com" (fun _ _ => "sig"))
    = (Ok (mk_response 500 (error_json (str_or "Access Denied" "Upload failed"))), (mk_mem_bucket ∅ 0 (Some "Access Denied") "https://pics.s3.amazonaws.com" (fun _ _ => "sig"))).
Proof.
  split.
  - apply (proj1 (server_upload_errors (mk_config "profile-pics" "https://cdn.example.com/") "u" (mk_upload_request (mk_id_fields (JStr "customer-123") JUndefined JUndefined JUndefined) None) (mk_mem_bucket ∅ 0 None "https://pics.s3.amazonaws.com" (fun _ _ => "sig")))). reflexivity.
  - apply (proj2 (server_upload_errors (mk_config "profile-pics" "https://cdn.example.com/") "u" (mk_upload_request (mk_id_fields (JStr "customer-123") JUndefined JUndefined JUndefined) (Some (mk_upfile "file" "a.jpg" "image/jpeg" [Byte.x41]))) (mk_mem_bucket ∅ 0 (Some "Access Denied") "https://pics.s3.amazonaws.com" (fun _ _ => "sig"))) (mk_upfile "file" "a.jpg" "image/jpeg" [Byte.x41]) "profile-pics/customer-123.jpg" "image/jpeg");
      reflexivity.
Defined.

Lemma readme_upload_missing_id_witness :
  ReadmeJs.upload_handler (mk_config "profile-pics" "https://cdn.example.com/") (mk_upload_request (mk_id_fields JUndefined (JStr "") JUndefined JUndefined) (Some (mk_upfile "file" "a.jpg" "image/jpeg" [Byte.x41]))) (mk_mem_bucket ∅ 0 None "https://pics.s3.amazonaws.com" (fun _ _ => "sig"))
    = (Ok (mk_response 400 (error_json missing_user_msg)), (mk_mem_bucket ∅ 0 None "https://pics.s3.amazonaws.com" (fun _ _ => "sig"))).
Proof. apply (readme_upload_missing_id _ _ _ (mk_upfile "file" "a.jpg" "image/jpeg" [Byte.x41])); reflexivity. Defined.

Lemma readme_last_write_wins_witness :
  exists f2 key url1 url2 mime t,
    req_file (mk_upload_request (mk_id_fields JUndefined JUndefined (JStr "customer-123") JUndefined) (Some (mk_upfile "file" "b.png" "image/png" [Byte.x42]))) = Some f2 /\ body (mk_response 201 (created_json "https://cdn.example.com/profile-pics/customer-123" "profile-pics/customer-123")) = created_json url1 key /\
    body (mk_response 201 (created_json "https://cdn.example.com/profile-pics/customer-123" "profile-pics/customer-123")) = created_json url2 key /\
    os_get (mk_mem_bucket (<["profile-pics/customer-123" := mk_s3object [Byte.x42] "image/png" "no-store, max-age=0" 1]> (<["profile-pics/customer-123" := mk_s3object [Byte.x41] "image/jpeg" "no-store, max-age=0" 0]> ∅)) 2 None "https://pics.s3.amazonaws.com" (fun _ _ => "sig")) key = Some (mk_s3object (buffer f2) mime ReadmeJs.cache_control t).
Proof. apply (readme_last_write_wins (mk_config "profile-pics" "https://cdn.example.com/") (mk_upload_request (mk_id_fields (JStr "customer-123") JUndefined JUndefined JUndefined) (Some (mk_upfile "file" "a.jpg" "image/jpeg" [Byte.x41]))) (mk_upload_request (mk_id_fields JUndefined JUndefined (JStr "customer-123") JUndefined) (Some (mk_upfile "file" "b.png" "image/png" [Byte.x42]))) (mk_mem_bucket ∅ 0 None "https://pics.s3.amazonaws.com" (fun _ _ => "sig")) (mk_mem_bucket (<["profile-pics/customer-123" := mk_s3object [Byte.x41] "image/jpeg" "no-store, max-age=0" 0]> ∅) 1 None "https://pics.s3.amazonaws.com" (fun _ _ => "sig")) (mk_mem_bucket (<["profile-pics/customer-123" := mk_s3object [Byte.x42] "image/png" "no-store, max-age=0" 1]> (<["profile-pics/customer-123" := mk_s3object [Byte.x41] "image/jpeg" "no-store, max-age=0" 0]> ∅)) 2 None "https://pics.s3.amazonaws.com" (fun _ _ => "sig")) (mk_response 201 (created_json "https://cdn.example.com/profile-pics/customer-123" "profile-pics/customer-123")) (mk_response 201 (created_json "https://cdn.example.com/profile-pics/customer-123" "profile-pics/customer-123"))); reflexivity. Defined.

Lemma server_new_extension_keeps_old_picture_witness :
  exists url key mime t,
    body (mk_response 201 (created_json "https://cdn.example.com/profile-pics/customer-123.jpg" "profile-pics/customer-123.jpg")) = created_json url key /\
    os_get (mk_mem_bucket (<["profile-pics/customer-123.png" := mk_s3object [Byte.x42] "image/png" "public, max-age=31536000" 1]> (<["profile-pics/customer-123.jpg" := mk_s3object [Byte.x41] "image/jpeg" "public, max-age=31536000" 0]> ∅)) 2 None "https://pics.s3.amazonaws.com" (fun _ _ => "sig")) key = Some (mk_s3object [Byte.x41] mime ServerJs.cache_control t).
Proof.
  apply (server_new_extension_keeps_old_picture (mk_config "profile-pics" "https://cdn.example.com/") "u" (mk_upload_request (mk_id_fields (JStr "customer-123") JUndefined JUndefined JUndefined) (Some (mk_upfile "file" "a.jpg" "image/jpeg" [Byte.x41]))) (mk_upload_request (mk_id_fields (JStr "customer-123") JUndefined JUndefined JUndefined) (Some (mk_upfile "file" "a.png" "image/png" [Byte.x42]))) (mk_mem_bucket ∅ 0 None "https://pics.s3.amazonaws.com" (fun _ _ => "sig")) (mk_mem_bucket (<["profile-pics/customer-123.jpg" := mk_s3object [Byte.x41] "image/jpeg" "public, max-age=31536000" 0]> ∅) 1 None "https://pics.s3.amazonaws.com" (fun _ _ => "sig")) (mk_mem_bucket (<["profile-pics/customer-123.png" := mk_s3object [Byte.x42] "image/png" "public, max-age=31536000" 1]> (<["profile-pics/customer-123.jpg" := mk_s3object [Byte.x41] "image/jpeg" "public, max-age=31536000" 0]> ∅)) 2 None "https://pics.s3.amazonaws.com" (fun _ _ => "sig")) (mk_response 201 (created_json "https://cdn.example.com/profile-pics/customer-123.jpg" "profile-pics/customer-123.jpg")) (mk_response 201 (created_json "https://cdn.example.com/profile-pics/customer-123.png" "profile-pics/customer-123.png"))
           (mk_upfile "file" "a.jpg" "image/jpeg" [Byte.x41]) (mk_upfile "file" "a.png" "image/png" [Byte.x42]));
    [reflexivity | reflexivity | reflexivity | vm_compute; congruence | reflexivity..].
Defined.

Lemma server_overwrite_long_cache_witness :
  exists key url1 url2 mime t,
    body (mk_response 201 (created_json "https://cdn.example.com/profile-pics/customer-123.jpg" "profile-pics/customer-123.jpg")) = created_json url1 key /\ body (mk_response 201 (created_json "https://cdn.example.com/profile-pics/customer-123.jpg" "profile-pics/customer-123.jpg")) = created_json url2 key /\
    os_get (mk_mem_bucket (<["profile-pics/customer-123.jpg" := mk_s3object [Byte.x42] "image/jpeg" "public, max-age=31536000" 1]> (<["profile-pics/customer-123.jpg" := mk_s3object [Byte.x41] "image/jpeg" "public, max-age=31536000" 0]> ∅)) 2 None "https://pics.s3.amazonaws.com" (fun _ _ => "sig")) key = Some (mk_s3object [Byte.x42] mime "public, max-age=31536000" t) /\
    (truthy (JStr "https://cdn.example.com/") = true -> url1 = url2).
Proof.
  apply (server_overwrite_long_cache (mk_config "profile-pics" "https://cdn.example.com/") "u" (mk_upload_request (mk_id_fields (JStr "customer-123") JUndefined JUndefined JUndefined) (Some (mk_upfile "file" "a.jpg" "image/jpeg" [Byte.x41]))) (mk_upload_request (mk_id_fields (JStr "customer-123") JUndefined JUndefined JUndefined) (Some (mk_upfile "file" "b.jpg" "image/jpeg" [Byte.x42]))) (mk_mem_bucket ∅ 0 None "https://pics.s3.amazonaws.com" (fun _ _ => "sig")) (mk_mem_bucket (<["profile-pics/customer-123.jpg" := mk_s3object [Byte.x41] "image/jpeg" "public, max-age=31536000" 0]> ∅) 1 None "https://pics.s3.amazonaws.com" (fun _ _ => "sig")) (mk_mem_bucket (<["profile-pics/customer-123.jpg" := mk_s3object [Byte.x42] "image/jpeg" "public, max-age=31536000" 1]> (<["profile-pics/customer-123.jpg" := mk_s3object [Byte.x41] "image/jpeg" "public, max-age=31536000" 0]> ∅)) 2 None "https://pics.s3.amazonaws.com" (fun _ _ => "sig")) (mk_response 201 (created_json "https://cdn.example.com/profile-pics/customer-123.jpg" "profile-pics/customer-123.jpg")) (mk_response 201 (created_json "https://cdn.example.com/profile-pics/customer-123.jpg" "profile-pics/customer-123.jpg"))
           (mk_upfile "file" "a.jpg" "image/jpeg" [Byte.x41]) (mk_upfile "file" "b.jpg" "image/jpeg" [Byte.x42]));
    reflexivity.
Defined.

Lemma server_upload_all_or_nothing_witness :
  exists resp s',
    ServerJs.upload_handler (mk_config "profile-pics" "") "u"
      (mk_upload_request (mk_id_fields JUndefined JUndefined JUndefined JUndefined)
         (Some (mk_upfile "file" "x.gif" "image/gif" [Byte.x47])))
      (mk_mem_bucket ∅ 0 None "https://pics.s3.amazonaws.com" (fun _ _ => "sig")) = (Ok resp, s') /\
    ((status resp = 201%N /\
      exists f key mime,
        req_file (mk_upload_request (mk_id_fields JUndefined JUndefined JUndefined JUndefined)
                    (Some (mk_upfile "file" "x.gif" "image/gif" [Byte.x47]))) = Some f /\
        KeyDeriver.ServerJs.derive "profile-pics" (mk_id_fields JUndefined JUndefined JUndefined JUndefined)
          "u" (originalname f) (mimetype f) = Ok (key, mime) /\
        os_put (mk_mem_bucket ∅ 0 None "https://pics.s3.amazonaws.com" (fun _ _ => "sig"))
          key (buffer f) mime ServerJs.cache_control = Ok s')
     \/ (status resp <> 201%N /\ s' = mk_mem_bucket ∅ 0 None "https://pics.s3.amazonaws.com" (fun _ _ => "sig"))).
Proof. apply server_upload_all_or_nothing. Defined.

Lemma upload_toString_key_500_witness :
  ServerJs.upload_handler (mk_config "profile-pics" "") "u"
    (mk_upload_request (mk_id_fields (JObj ["toString"]) JUndefined JUndefined JUndefined) (Some (mk_upfile "file" "a.jpg" "image/jpeg" [Byte.x41])))
    (mk_mem_bucket ∅ 0 None "https://pics.s3.amazonaws.com" (fun _ _ => "sig"))
    = (Ok (mk_response 500 (error_json "(rawUserId || randomUUID(...)).toString is not a function")),
       mk_mem_bucket ∅ 0 None "https://pics.s3.amazonaws.com" (fun _ _ => "sig")) /\
  ReadmeJs.upload_handler (mk_config "profile-pics" "")
    (mk_upload_request (mk_id_fields (JObj ["toString"]) JUndefined JUndefined JUndefined) (Some (mk_upfile "file" "a.jpg" "image/jpeg" [Byte.x41])))
    (mk_mem_bucket ∅ 0 None "https://pics.s3.amazonaws.com" (fun _ _ => "sig"))
    = (Ok (mk_response 500 (error_json "rawUserId.toString is not a function")),
       mk_mem_bucket ∅ 0 None "https://pics.s3.amazonaws.com" (fun _ _ => "sig")).
Proof. apply (upload_toString_key_500 _ _ _ _ (mk_upfile "file" "a.jpg" "image/jpeg" [Byte.x41])); reflexivity. Defined.
