(* ===== verification/Uri.v ===== *)
(** * Percent-decoding: [decodeURIComponent] and [encodeURIComponent]

    The lookup route [GET /api/profile-pic/:key], whose parameter may span
    slashes ([src/server.js] line 148, [src/README.md] line 243), calls [decodeURIComponent] on a
    parameter Express has already decoded once.  Neither function is
    repository code: both are translated from ECMAScript's [Decode] and
    [Encode] algorithms (ECMA-262, 19.2.6), over the UTF-8 bytes that
    stand for a JS string in this development (see [Prelude.v]).

    - [decode_loop] is the [Decode] loop with an empty reserved set: a
      character other than [%] is copied; [%XY] is one byte [B]; a byte
      with no leading one bit is a character, one with two to four leading
      one bits starts a UTF-8 sequence of that many bytes, each further
      byte written [%XY] with bit pattern [10xxxxxx]; the sequence must
      encode a code point (no overlong form, no surrogate, at most
      U+10FFFF); everything else throws [URIError: URI malformed].  The
      loop moves by one or by three characters per byte, so it is written
      with fuel; [decodeURIComponent] gives it the length of the input
      plus one, which [decode_loop_total] shows is always enough.
    - [encodeURIComponent] keeps the unreserved characters
      [A-Z a-z 0-9 - _ . ! ~ * ' ( )] and writes every other byte as [%XY]
      with upper-case hex digits; on the UTF-8 bytes of a JS string this
      is the octet-wise encoding of ECMAScript's [Encode].  (A JS string
      with a lone surrogate, on which [Encode] throws, has no UTF-8 form
      and so no counterpart here.) *)

From stdpp Require Import base strings list.
From Stdlib Require Import String Ascii ZArith Lia.
From S2P Require Import Prelude.

Local Open Scope api_scope.

(** V8's message of the [URIError]. *)
Definition uri_error_msg : string := "URI malformed".

(** The value of a hexadecimal digit, either case. *)
Definition hex_val (c : ascii) : option N :=
  let n := N_of_ascii c in
  if (48 <=? n)%N && (n <=? 57)%N then Some (n - 48)%N
  else if (65 <=? n)%N && (n <=? 70)%N then Some (n - 55)%N
  else if (97 <=? n)%N && (n <=? 102)%N then Some (n - 87)%N
  else None.

Definition hex_byte (h1 h2 : ascii) : option N :=
  match hex_val h1, hex_val h2 with
  | Some a, Some b => Some (16 * a + b)%N
  | _, _ => None
  end.

(** The number of leading one bits of the byte [b], from bit [i - 1] down. *)
Fixpoint leading_ones_from (i : nat) (b : N) : nat :=
  match i with
  | O => O
  | S i' => if N.testbit b (N.of_nat i') then S (leading_ones_from i' b) else O
  end.

Definition leading_ones (b : N) : nat := leading_ones_from 8 b.

(** The least code point a UTF-8 sequence of [n] bytes may encode. *)
Definition utf8_min_cp (n : nat) : N :=
  match n with 2 => 128%N | 3 => 2048%N | _ => 65536%N end.

(** The code point of the sequence [b0 :: conts]: the low [7 - n] bits of
    the first byte, then six bits of each continuation byte. *)
Definition utf8_code_point (b0 : N) (conts : list N) : N :=
  fold_left (fun acc b => N.lor (N.shiftl acc 6) (N.land b 63)) conts
            (N.land b0 (N.ones (N.of_nat (7 - S (List.length conts))))).

(** "Octets contains a valid UTF-8 encoding of a Unicode code point". *)
Definition utf8_octets_ok (b0 : N) (conts : list N) : bool :=
  let cp := utf8_code_point b0 conts in
  (utf8_min_cp (S (List.length conts)) <=? cp)%N && (cp <=? 1114111)%N &&
  negb ((55296 <=? cp)%N && (cp <=? 57343)%N).

(** The [j] continuation bytes [%XY] of a sequence, each [10xxxxxx]. *)
Fixpoint read_conts (j : nat) (s : string) : result (list N * string) string :=
  match j with
  | O => Ok ([], s)
  | S j' =>
      match s with
      | String p (String h1 (String h2 rest)) =>
          if Ascii.eqb p "%" then
            match hex_byte h1 h2 with
            | Some b =>
                if (N.land b 192 =? 128)%N then
                  bs_rest <-? read_conts j' rest ;;
                  Ok (b :: bs_rest.1, bs_rest.2)
                else Err uri_error_msg
            | None => Err uri_error_msg
            end
          else Err uri_error_msg
      | _ => Err uri_error_msg
      end
  end.

Definition bytes_to_string (bs : list N) : string :=
  string_of_list_ascii (map ascii_of_N bs).

(** [R] is [R + S]: put the decoded characters before the rest's result. *)
Definition cons_out (p : string) (r : option (result string string)) : option (result string string) :=
  match r with
  | Some (Ok out) => Some (Ok (p +:+ out))
  | r => r
  end.

(** One round of ECMAScript's [Decode] with an empty reserved set: the
    characters the round produces, put before what [rec] gives for the
    rest of the input. *)
Definition decode_step (rec : string -> option (result string string)) (s : string)
  : option (result string string) :=
  match s with
  | EmptyString => Some (Ok EmptyString)
  | String c rest =>
      if Ascii.eqb c "%" then
        match rest with
        | String h1 (String h2 rest1) =>
            match hex_byte h1 h2 with
            | None => Some (Err uri_error_msg)
            | Some b =>
                let n := leading_ones b in
                if Nat.eqb n 0 then cons_out (String (ascii_of_N b) EmptyString) (rec rest1)
                else if Nat.eqb n 1 || Nat.ltb 4 n then Some (Err uri_error_msg)
                else
                  match read_conts (n - 1) rest1 with
                  | Err e => Some (Err e)
                  | Ok (conts, rest2) =>
                      if utf8_octets_ok b conts
                      then cons_out (bytes_to_string (b :: conts)) (rec rest2)
                      else Some (Err uri_error_msg)
                  end
            end
        | _ => Some (Err uri_error_msg)
        end
      else cons_out (String c EmptyString) (rec rest)
  end.

(** The [Decode] loop, with fuel; [None] is out of fuel. *)
Fixpoint decode_loop (fuel : nat) (s : string) : option (result string string) :=
  match fuel with
  | O => None
  | S fuel' => decode_step (decode_loop fuel') s
  end.

Definition decodeURIComponent (s : string) : result string string :=
  match decode_loop (S (String.length s)) s with
  | Some r => r
  | None => Err uri_error_msg
  end.

(** [uriUnreserved]: letters, digits and [- _ . ! ~ * ' ( )]. *)
Definition uri_unreserved (c : ascii) : bool :=
  let n := N_of_ascii c in
  ((48 <=? n)%N && (n <=? 57)%N) || ((65 <=? n)%N && (n <=? 90)%N) ||
  ((97 <=? n)%N && (n <=? 122)%N) || has_char c "-_.!~*'()".

(** An upper-case hexadecimal digit. *)
Definition hex_digit (v : N) : ascii := ascii_of_N (if (v <? 10)%N then 48 + v else 55 + v)%N.

Definition percent_byte (b : N) : string :=
  String "%" (String (hex_digit (b / 16)) (String (hex_digit (b mod 16)) EmptyString)).

Fixpoint encodeURIComponent (s : string) : string :=
  match s with
  | EmptyString => EmptyString
  | String c s' =>
      if uri_unreserved c then String c (encodeURIComponent s')
      else percent_byte (N_of_ascii c) +:+ encodeURIComponent s'
  end.

(** The bytes of a string. *)
Definition string_bytes (s : string) : list N := map N_of_ascii (list_ascii_of_string s).

(** Well-formed UTF-8: a sequence of one-byte characters and of sequences
    the decoder accepts. *)
Inductive utf8_wf : list N -> Prop :=
| utf8_wf_nil : utf8_wf []
| utf8_wf_ascii b rest : (b < 128)%N -> utf8_wf rest -> utf8_wf (b :: rest)
| utf8_wf_multi b conts rest :
    leading_ones b = S (List.length conts) -> (1 <= List.length conts <= 3)%nat ->
    Forall (fun c => N.land c 192 = 128)%N conts -> utf8_octets_ok b conts = true ->
    utf8_wf rest -> utf8_wf (b :: conts ++ rest).

(** Proves [utf8_wf] of the bytes of a concrete ASCII string. *)
Ltac solve_utf8_ascii := vm_compute; repeat (apply utf8_wf_ascii; [reflexivity|]); apply utf8_wf_nil.

(** ** Lemmas: the loop always ends *)

Lemma read_conts_length j s conts rest :
  read_conts j s = Ok (conts, rest) -> (String.length rest + 3 * j = String.length s)%nat.
Proof.
  revert s conts. induction j as [|j IH]; intros s conts H; simpl in H.
  - injection H as _ ->. lia.
  - destruct s as [|p [|h1 [|h2 t]]]; try discriminate.
    destruct (Ascii.eqb p "%"), (hex_byte h1 h2) as [b|]; try discriminate.
    destruct (N.land b 192 =? 128)%N; [|discriminate].
    destruct (read_conts j t) as [[bs r]|] eqn:E; [|discriminate].
    simpl in H. injection H as _ ->. apply IH in E. simpl. lia.
Qed.

(** A round of [Decode] either ends the loop, whatever comes next, or
    continues on a strictly shorter suffix. *)
Lemma decode_step_shape (s : string) :
  (exists r, forall rec, decode_step rec s = Some r) \/
  (exists p t, (String.length t < String.length s)%nat /\ forall rec, decode_step rec s = cons_out p (rec t)).
Proof.
  destruct s as [|c rest]; [left; eexists; reflexivity|]. simpl.
  destruct (Ascii.eqb c "%"); [|right; do 2 eexists; split; [|reflexivity]; simpl; lia].
  destruct rest as [|h1 [|h2 rest1]]; [left; eexists; reflexivity..|].
  destruct (hex_byte h1 h2) as [b|]; [|left; eexists; reflexivity]. cbn zeta.
  destruct (Nat.eqb (leading_ones b) 0); [right; do 2 eexists; split; [|reflexivity]; simpl; lia|].
  destruct (Nat.eqb (leading_ones b) 1 || Nat.ltb 4 (leading_ones b)); [left; eexists; reflexivity|].
  destruct (read_conts _ rest1) as [[conts rest2]|e] eqn:E; [|left; eexists; reflexivity].
  destruct (utf8_octets_ok b conts); [|left; eexists; reflexivity].
  right. do 2 eexists. split; [|reflexivity]. apply read_conts_length in E. simpl. lia.
Qed.

Lemma decode_step_ext (rec1 rec2 : string -> option (result string string)) (s : string) :
  (forall t, (String.length t < String.length s)%nat -> rec1 t = rec2 t) ->
  decode_step rec1 s = decode_step rec2 s.
Proof.
  intros H. destruct (decode_step_shape s) as [(r & Hr) | (p & t & Hlt & Ht)].
  - now rewrite !Hr.
  - rewrite !Ht. now rewrite H.
Qed.

Lemma decode_loop_fuel_irrel (f1 f2 : nat) (s : string) :
  (String.length s < f1)%nat -> (String.length s < f2)%nat -> decode_loop f1 s = decode_loop f2 s.
Proof.
  revert f2 s. induction f1 as [|f1 IH]; intros [|f2] s H1 H2; try lia.
  simpl. apply decode_step_ext. intros t Ht. apply IH; lia.
Qed.

Lemma decode_loop_some (f : nat) (s : string) :
  (String.length s < f)%nat -> decode_loop f s <> None.
Proof.
  revert s. induction f as [|f IH]; intros s H; [lia|]. simpl.
  destruct (decode_step_shape s) as [(r & Hr) | (p & t & Hlt & Ht)].
  - now rewrite Hr.
  - rewrite Ht. specialize (IH t ltac:(lia)). destruct (decode_loop f t) as [[]|]; simpl; congruence.
Qed.

(** [decodeURIComponent] is [Decode] run with as much fuel as it needs. *)
Lemma decodeURIComponent_loop (s : string) :
  decode_loop (S (String.length s)) s = Some (decodeURIComponent s).
Proof.
  unfold decodeURIComponent. pose proof (decode_loop_some (S (String.length s)) s ltac:(lia)).
  destruct (decode_loop _ s); congruence.
Qed.

(** The equation of [decodeURIComponent]: one round, then the rest. *)
Lemma decodeURIComponent_unfold (s : string) :
  Some (decodeURIComponent s) = decode_step (fun t => Some (decodeURIComponent t)) s.
Proof.
  rewrite <- decodeURIComponent_loop. simpl. apply decode_step_ext.
  intros t Ht. rewrite <- decodeURIComponent_loop. apply decode_loop_fuel_irrel; lia.
Qed.

(** ** Lemmas: bytes and hexadecimal digits *)

Lemma hex_val_digit (v : N) : (v < 16)%N -> hex_val (hex_digit v) = Some v.
Proof.
  intros Hv. rewrite <- (N2Nat.id v). assert (Hk : (N.to_nat v < 16)%nat) by lia.
  generalize (N.to_nat v) Hk. intros k Hk'. do 16 (destruct k as [|k]; [reflexivity|]). lia.
Qed.

Lemma hex_byte_percent (b : N) :
  (b < 256)%N -> hex_byte (hex_digit (b / 16)) (hex_digit (b mod 16)) = Some b.
Proof.
  intros Hb. unfold hex_byte. rewrite !hex_val_digit.
  - f_equal. symmetry. apply N.div_mod. lia.
  - apply N.mod_lt. lia.
  - apply N.Div0.div_lt_upper_bound. lia.
Qed.

Lemma testbit7_small (b : N) : (b < 128)%N -> N.testbit b 7 = false.
Proof.
  intros Hb. destruct (N.eq_dec b 0) as [->|Hne]; [reflexivity|].
  apply N.bits_above_log2. apply N.log2_lt_pow2; [lia|]. exact Hb.
Qed.

Lemma leading_ones_small (b : N) : (b < 128)%N -> leading_ones b = 0%nat.
Proof. intros Hb. unfold leading_ones. simpl. now rewrite testbit7_small. Qed.

Lemma leading_ones_large (b : N) (n : nat) : leading_ones b = S n -> (128 <= b)%N.
Proof.
  intros H. destruct (N.lt_ge_cases b 128) as [Hl|Hge]; [|exact Hge].
  rewrite leading_ones_small in H by exact Hl. discriminate.
Qed.

Lemma cont_large (c : N) : N.land c 192 = 128%N -> (128 <= c)%N.
Proof.
  intros H. destruct (N.lt_ge_cases c 128) as [Hl|Hge]; [|exact Hge].
  assert (Ht : N.testbit (N.land c 192) 7 = N.testbit 128 7) by now rewrite H.
  rewrite N.land_spec, testbit7_small in Ht by exact Hl. discriminate.
Qed.

Lemma uri_unreserved_small (c : ascii) : uri_unreserved c = true -> (N_of_ascii c < 128)%N.
Proof. destruct c as [[] [] [] [] [] [] [] []]; vm_compute; congruence. Qed.

Lemma uri_unreserved_not_percent (c : ascii) : uri_unreserved c = true -> Ascii.eqb c "%" = false.
Proof. intros H. apply Ascii.eqb_neq. intros ->. discriminate H. Qed.

Lemma string_bytes_cons (c : ascii) (s : string) :
  string_bytes (String c s) = N_of_ascii c :: string_bytes s.
Proof. reflexivity. Qed.

Lemma string_bytes_app_inv (s : string) (l1 l2 : list N) :
  string_bytes s = l1 ++ l2 -> exists a b, s = a +:+ b /\ string_bytes a = l1 /\ string_bytes b = l2.
Proof.
  revert s. induction l1 as [|x l1 IH]; intros s H.
  - exists "", s. now rewrite str_app_nil_l.
  - destruct s as [|c s]; [discriminate|]. rewrite string_bytes_cons in H. injection H as Hx H.
    destruct (IH s H) as (a & b & -> & Ha & Hb). exists (String c a), b.
    rewrite str_app_cons, string_bytes_cons. split; [reflexivity|]. split; [congruence|exact Hb].
Qed.

Lemma bytes_to_string_bytes (a : string) : bytes_to_string (string_bytes a) = a.
Proof.
  induction a as [|c a IH]; [reflexivity|]. unfold bytes_to_string in *. rewrite string_bytes_cons.
  simpl. now rewrite ascii_N_embedding, IH.
Qed.

Lemma encode_large (c : ascii) (s : string) :
  (128 <= N_of_ascii c)%N -> encodeURIComponent (String c s) = percent_byte (N_of_ascii c) +:+ encodeURIComponent s.
Proof.
  intros H. simpl. destruct (uri_unreserved c) eqn:Hu; [|reflexivity].
  apply uri_unreserved_small in Hu. lia.
Qed.

Lemma read_conts_encode (a t : string) :
  Forall (fun c => N.land c 192 = 128)%N (string_bytes a) ->
  read_conts (String.length a) (encodeURIComponent a +:+ t) = Ok (string_bytes a, t).
Proof.
  induction a as [|c a IH]; intros H; [reflexivity|].
  rewrite string_bytes_cons in *. apply Forall_cons in H as [Hc Ha].
  rewrite encode_large by (now apply cont_large). unfold percent_byte. rewrite str_app_assoc, !str_app_cons.
  cbn [read_conts String.length Ascii.eqb Bool.eqb]. rewrite hex_byte_percent by apply N_ascii_bounded.
  rewrite Hc, str_app_nil_l, IH by exact Ha. reflexivity.
Qed.

(** One encoded one-byte character decodes to itself. *)
Lemma decode_step_percent_small rec (b : N) (t : string) :
  (b < 128)%N -> decode_step rec (percent_byte b +:+ t) = cons_out (String (ascii_of_N b) "") (rec t).
Proof.
  intros Hb. unfold percent_byte. rewrite !str_app_cons, str_app_nil_l.
  cbn [decode_step Ascii.eqb Bool.eqb]. rewrite hex_byte_percent by lia. cbn zeta.
  now rewrite leading_ones_small by exact Hb.
Qed.

Lemma string_bytes_length (a : string) : List.length (string_bytes a) = String.length a.
Proof. unfold string_bytes. now rewrite length_map, length_list_ascii_of_string. Qed.

Lemma encode_app (a b : string) :
  encodeURIComponent (a +:+ b) = encodeURIComponent a +:+ encodeURIComponent b.
Proof.
  induction a as [|c a IH]; [reflexivity|]. rewrite str_app_cons. cbn [encodeURIComponent].
  destruct (uri_unreserved c); rewrite IH; [now rewrite str_app_cons | now rewrite str_app_assoc].
Qed.

(** One encoded UTF-8 sequence of two to four bytes decodes to itself. *)
Lemma decode_step_percent_multi rec (c : ascii) (a t : string) :
  leading_ones (N_of_ascii c) = S (String.length a) -> (1 <= String.length a <= 3)%nat ->
  Forall (fun x => N.land x 192 = 128)%N (string_bytes a) ->
  utf8_octets_ok (N_of_ascii c) (string_bytes a) = true ->
  decode_step rec (encodeURIComponent (String c a) +:+ t) = cons_out (String c a) (rec t).
Proof.
  intros Hlo Hlen Ha Hok. rewrite encode_large by (eapply leading_ones_large; eauto).
  unfold percent_byte. rewrite str_app_assoc, !str_app_cons, str_app_nil_l.
  cbn [decode_step Ascii.eqb Bool.eqb]. rewrite hex_byte_percent by apply N_ascii_bounded. cbn zeta.
  rewrite Hlo. replace (Nat.eqb (S (String.length a)) 1 || Nat.ltb 4 (S (String.length a))) with false
    by (symmetry; apply orb_false_iff; split; [apply Nat.eqb_neq | apply Nat.ltb_ge]; lia).
  replace (S (String.length a) - 1)%nat with (String.length a) by lia.
  rewrite read_conts_encode by exact Ha. cbn [Nat.eqb]. rewrite Hok.
  now rewrite <- string_bytes_cons, bytes_to_string_bytes.
Qed.

(** ** Lemmas: the only error is [URI malformed] *)

Lemma read_conts_err j s e : read_conts j s = Err e -> e = uri_error_msg.
Proof.
  revert s. induction j as [|j IH]; intros s H; simpl in H; [discriminate|].
  destruct s as [|p [|h1 [|h2 t]]]; try (injection H as <-; reflexivity).
  destruct (Ascii.eqb p "%"); [|injection H as <-; reflexivity].
  destruct (hex_byte h1 h2) as [b|]; [|injection H as <-; reflexivity].
  destruct (N.land b 192 =? 128)%N; [|injection H as <-; reflexivity].
  destruct (read_conts j t) as [x|e'] eqn:E; [discriminate|]. injection H as <-. exact (IH t E).
Qed.

Lemma cons_out_Err p r e : cons_out p r = Some (Err e) -> r = Some (Err e).
Proof. destruct r as [[]|]; simpl; congruence. Qed.

Lemma decode_step_err rec s e :
  (forall t e', rec t = Some (Err e') -> e' = uri_error_msg) ->
  decode_step rec s = Some (Err e) -> e = uri_error_msg.
Proof.
  intros Hrec H. destruct s as [|c rest]; [discriminate|]. simpl in H.
  destruct (Ascii.eqb c "%"); [|exact (Hrec _ _ (cons_out_Err _ _ _ H))].
  destruct rest as [|h1 [|h2 rest1]]; try (injection H as <-; reflexivity).
  destruct (hex_byte h1 h2) as [b|]; [|injection H as <-; reflexivity]. cbn zeta in H.
  destruct (Nat.eqb (leading_ones b) 0); [exact (Hrec _ _ (cons_out_Err _ _ _ H))|].
  destruct (_ || _); [injection H as <-; reflexivity|].
  destruct (read_conts _ rest1) as [[conts rest2]|e'] eqn:E; [|injection H as <-; exact (read_conts_err _ _ _ E)].
  destruct (utf8_octets_ok b conts); [exact (Hrec _ _ (cons_out_Err _ _ _ H))|injection H as <-; reflexivity].
Qed.

Lemma decode_loop_err f s e : decode_loop f s = Some (Err e) -> e = uri_error_msg.
Proof.
  revert s e. induction f as [|f IH]; intros s e H; [discriminate|]. exact (decode_step_err _ _ _ IH H).
Qed.

Lemma decodeURIComponent_err s e : decodeURIComponent s = Err e -> e = uri_error_msg.
Proof. intros H. apply (decode_loop_err (S (String.length s)) s). rewrite decodeURIComponent_loop. congruence. Qed.

(** ** Termination, round trip, identity *)

(** The [Decode] loop terminates: given more fuel than the input has
    characters it always produces a result, the same for every such fuel,
    and that result is [decodeURIComponent]'s. *)
Lemma decode_loop_total (fuel : nat) (s : string) :
  (String.length s < fuel)%nat -> decode_loop fuel s = Some (decodeURIComponent s).
Proof.
  intros H. rewrite <- decodeURIComponent_loop. apply decode_loop_fuel_irrel; lia.
Qed.

(** Decoding undoes encoding: for the UTF-8 bytes of any JS string,
    [decodeURIComponent (encodeURIComponent s)] gives [s] back. *)
Lemma decode_encode_roundtrip (s : string) :
  utf8_wf (string_bytes s) -> decodeURIComponent (encodeURIComponent s) = Ok s.
Proof.
  remember (string_bytes s) as bs eqn:Hbs. intros Hwf. revert s Hbs.
  induction Hwf as [|b rest Hb Hwf IH|b conts rest Hlo Hlen Hconts Hok Hwf IH]; intros s Hbs.
  - destruct s as [|c s]; [reflexivity|discriminate].
  - destruct s as [|c s]; [discriminate|]. rewrite string_bytes_cons in Hbs. injection Hbs as -> Hbs.
    apply (inj Some). rewrite decodeURIComponent_unfold. cbn [encodeURIComponent].
    destruct (uri_unreserved c) eqn:Hu.
    + cbn [decode_step]. rewrite uri_unreserved_not_percent by exact Hu. now rewrite (IH s Hbs).
    + rewrite decode_step_percent_small by exact Hb. now rewrite (IH s Hbs), ascii_N_embedding.
  - destruct s as [|c s1]; [discriminate|]. rewrite string_bytes_cons in Hbs. injection Hbs as -> Hbs.
    destruct (string_bytes_app_inv _ _ _ (eq_sym Hbs)) as (a & t & -> & <- & Ht).
    apply (inj Some). rewrite decodeURIComponent_unfold, <- str_app_cons, encode_app.
    rewrite string_bytes_length in Hlo, Hlen.
    rewrite decode_step_percent_multi by assumption. now rewrite (IH t (eq_sym Ht)).
Qed.

(** A string without [%] decodes to itself. *)
Lemma decodeURIComponent_no_percent (s : string) :
  has_char "%" s = false -> decodeURIComponent s = Ok s.
Proof.
  induction s as [|c s IH]; intros H; [reflexivity|]. cbn [has_char] in H.
  destruct (Ascii.eqb c "%") eqn:Hc; [discriminate|].
  apply (inj Some). rewrite decodeURIComponent_unfold. cbn [decode_step]. rewrite Hc.
  now rewrite (IH H).
Qed.

(** ** Examples *)

Example decode_loop_total_example :
  decode_loop 40 "a%2Fb%C3%A9%F0%9F%98%80" = Some (decodeURIComponent "a%2Fb%C3%A9%F0%9F%98%80").
Proof. apply decode_loop_total. vm_compute. lia. Defined.

Example decode_encode_roundtrip_example :
  decodeURIComponent (encodeURIComponent "profile-pics/café 50%") = Ok "profile-pics/café 50%".
Proof.
  apply decode_encode_roundtrip. vm_compute.
  repeat (apply utf8_wf_ascii; [vm_compute; reflexivity|]).
  apply (utf8_wf_multi 195 [169%N]); [reflexivity | simpl; lia | repeat constructor | reflexivity |].
  repeat (apply utf8_wf_ascii; [vm_compute; reflexivity|]). constructor.
Defined.

Example decodeURIComponent_no_percent_example :
  decodeURIComponent "profile-pics/test-user-1.jpg" = Ok "profile-pics/test-user-1.jpg".
Proof. apply decodeURIComponent_no_percent. reflexivity. Defined.
