(* ===== verification/Lookup.v ===== *)
(** * The lookup handlers: [GET /api/profile-pics] and
      [GET /api/profile-pic/:key]

    The list handler:

    [src/server.js] lines 122-142 (and [src/README.md] lines 217-237, the
    same code): a [ListObjectsV2Command] with [Prefix: PROFILE_PREFIX + '/']
    and [MaxKeys: 100]; each entry becomes [{key, size, lastModified,
    url}], where [url] is [baseUrl/key] for the base URL without one
    trailing [/], or [null] when that is empty; the answer is
    [{prefix, count, items}] with status 200, and an error thrown by the
    call is answered [500 {error: err.message || 'Failed to list'}].
    [LastModified] is the store's logical time, a number here.

    The signed-URL handler (lines 146-159) is the second part of the
    file: [decodeURIComponent] of its parameter, then a URL presigned for
    one hour. *)

From stdpp Require Import base strings list gmap.
From Stdlib Require Import String Ascii ZArith Lia Sorted.
From S2P Require Import Prelude JsString JsValue Validator KeyDeriver Storage Upload Uri.

Local Open Scope api_scope.

(** [MaxKeys: 100] *)
Definition list_max_keys : nat := 100.

Section ListHandler.
Context {S : Type} `{ObjectStore S}.

(** [await s3Client.send(new ListObjectsV2Command({...}))] *)
Definition s3_list (prefix : string) (max_keys : nat) : stm S (list s3item) :=
  fun s => (os_list s prefix max_keys, s).

(** [const url = baseUrl ? `${baseUrl}/${key}` : null;] *)
Definition item_url (baseUrl key : string) : json :=
  if truthy (JStr baseUrl) then JsonStr (baseUrl +:+ "/" +:+ key) else JsonNull.

(** [({ key, size: o.Size, lastModified: o.LastModified, url })] *)
Definition item_json (baseUrl : string) (it : s3item) : json :=
  JsonObj [("key", JsonStr (item_key it)); ("size", JsonNum (item_size it));
           ("lastModified", JsonNum (item_last_modified it));
           ("url", item_url baseUrl (item_key it))].

Definition list_json (prefix baseUrl : string) (items : list s3item) : json :=
  JsonObj [("prefix", JsonStr prefix); ("count", JsonNum (N.of_nat (List.length items)));
           ("items", JsonArr (map (item_json baseUrl) items))].

(** The body of the [try], lines 123-137. *)
Definition list_try (cfg : config) : stm S response :=
  items <- s3_list (cfg_prefix cfg +:+ "/") list_max_keys ;;
  let baseUrl := strip_trailing_slash (str_or (cfg_public_base_url cfg) "") in
  stm_ret (mk_response 200 (list_json (cfg_prefix cfg) baseUrl items)).

(** [catch (err) { res.status(500).json({ error: err.message || 'Failed to list' }) }] *)
Definition list_catch (msg : string) : stm S response :=
  stm_ret (mk_response 500 (error_json (str_or msg "Failed to list"))).

Definition list_handler (cfg : config) : stm S response :=
  stm_catch (list_try cfg) list_catch.

End ListHandler.

(** ** The signed-URL handler, [GET /api/profile-pic/:key]

    [src/server.js] lines 146-159 (and [src/README.md] lines 241-254):
    the parameter, already decoded once by Express, is decoded again with
    [decodeURIComponent]; the key is presigned for one hour without any
    check that it exists; [res.json({ url })] answers 200; an error of
    either step is answered [500 {error: err.message || 'Failed to get URL'}]. *)

(** [{ expiresIn: 3600 }] *)
Definition get_url_expires_in : Z := 3600.

Definition url_json (url : string) : json := JsonObj [("url", JsonStr url)].

Section GetUrlHandler.
Context {S : Type} `{ObjectStore S}.

(** The body of the [try], lines 147-154. *)
Definition get_url_try (param : string) : stm S response :=
  key <- stm_lift (decodeURIComponent param) ;;
  url <- s3_presign key get_url_expires_in ;;
  stm_ret (mk_response 200 (url_json url)).

(** [catch (err) { res.status(500).json({ error: err.message || 'Failed to get URL' }) }] *)
Definition get_url_catch (msg : string) : stm S response :=
  stm_ret (mk_response 500 (error_json (str_or msg "Failed to get URL"))).

Definition get_url_handler (param : string) : stm S response :=
  stm_catch (get_url_try param) get_url_catch.

End GetUrlHandler.

(** ** Lemmas *)

Section ListLaws.
Context {S : Type} `{ObjectStoreLaws S}.

Lemma list_handler_eval (cfg : config) (s : S) :
  list_handler cfg s =
  match os_list s (cfg_prefix cfg +:+ "/") list_max_keys with
  | Ok items => (Ok (mk_response 200 (list_json (cfg_prefix cfg)
                       (strip_trailing_slash (str_or (cfg_public_base_url cfg) "")) items)), s)
  | Err e => (Ok (mk_response 500 (error_json (str_or e "Failed to list"))), s)
  end.
Proof. unfold list_handler, list_try, stm_catch, stm_bind, s3_list. now destruct (os_list _ _ _). Qed.

(** Every key of [server.js] starts with [PROFILE_PREFIX + '/']. *)
Lemma server_derive_key_prefix prefix r uuid name mimetype key mime :
  KeyDeriver.ServerJs.derive prefix r uuid name mimetype = Ok (key, mime) ->
  String.prefix (prefix +:+ "/") key = true.
Proof.
  intros Hd. apply server_derive_inv in Hd as (s & -> & _). unfold KeyDeriver.ServerJs.key_of.
  rewrite <- str_app_assoc. apply prefix_app.
Qed.

(** The keys present after two successful uploads into a bucket with no
    object are exactly the two keys. *)
Lemma two_uploads_present cfg uuid1 uuid2 req1 req2 (s0 s1 s2 : S) r1 r2 url1 url2 k1 k2 :
  (forall k, os_get s0 k = None) ->
  ServerJs.upload_handler cfg uuid1 req1 s0 = (Ok r1, s1) -> status r1 = 201%N -> body r1 = created_json url1 k1 ->
  ServerJs.upload_handler cfg uuid2 req2 s1 = (Ok r2, s2) -> status r2 = 201%N -> body r2 = created_json url2 k2 ->
  (forall k, is_Some (os_get s2 k) <-> k = k1 \/ k = k2) /\
  String.prefix (cfg_prefix cfg +:+ "/") k1 = true /\ String.prefix (cfg_prefix cfg +:+ "/") k2 = true.
Proof.
  intros Hempty H1 Hs1 Hb1 H2 Hs2 Hb2.
  destruct (server_upload_created _ _ _ _ _ _ H1 Hs1) as (f1 & k1' & m1 & u1 & t1 & _ & Hd1 & Hb1' & Hg1 & Ho1 & _).
  destruct (server_upload_created _ _ _ _ _ _ H2 Hs2) as (f2 & k2' & m2 & u2 & t2 & _ & Hd2 & Hb2' & Hg2 & Ho2 & _).
  rewrite Hb1 in Hb1'. injection Hb1' as _ <-. rewrite Hb2 in Hb2'. injection Hb2' as _ <-.
  split; [|split; eapply server_derive_key_prefix; eauto].
  intros k. split.
  - intros [o Ho]. destruct (decide (k = k2)) as [->|Hk2]; [auto|].
    rewrite Ho2 in Ho by exact Hk2. destruct (decide (k = k1)) as [->|Hk1]; [auto|].
    rewrite Ho1, Hempty in Ho by exact Hk1. discriminate.
  - intros [-> | ->]; [|rewrite Hg2; eauto].
    destruct (decide (k1 = k2)) as [->|Hne]; [rewrite Hg2; eauto|].
    rewrite Ho2 by exact Hne. rewrite Hg1. eauto.
Qed.

(** The signed-URL handler, step by step. *)
Lemma get_url_handler_eval (p : string) (s : S) :
  get_url_handler p s =
  match decodeURIComponent p with
  | Err e => (Ok (mk_response 500 (error_json (str_or e "Failed to get URL"))), s)
  | Ok key =>
      match os_presign s key get_url_expires_in with
      | Ok url => (Ok (mk_response 200 (url_json url)), s)
      | Err e => (Ok (mk_response 500 (error_json (str_or e "Failed to get URL"))), s)
      end
  end.
Proof.
  unfold get_url_handler, get_url_try, stm_catch, stm_bind, stm_lift, s3_presign.
  destruct (decodeURIComponent p); [destruct (os_presign _ _ _)|]; reflexivity.
Qed.

Lemma get_url_expires_in_valid : (get_url_expires_in <= max_presign_expiry)%Z.
Proof. unfold get_url_expires_in, max_presign_expiry. lia. Qed.

End ListLaws.

(** ** Properties *)

Section ListProperties.
Context {S : Type} `{ObjectStoreLaws S}.

(** C15: the list handler never changes the bucket; it answers 500 when
    the list call fails, and otherwise 200 with at most 100 entries,
    each under [PROFILE_PREFIX + '/'], distinct, in ascending key order,
    and each with the size and time of the stored object. *)
Theorem list_handler_sound (cfg : config) (s s' : S) resp :
  list_handler cfg s = (Ok resp, s') ->
  s' = s /\
  (status resp = 500%N \/
   (status resp = 200%N /\
    exists items, body resp = list_json (cfg_prefix cfg)
                    (strip_trailing_slash (str_or (cfg_public_base_url cfg) "")) items /\
      List.length items <= 100 /\ NoDup (map item_key items) /\ Sorted String.le (map item_key items) /\
      Forall (fun it => String.prefix (cfg_prefix cfg +:+ "/") (item_key it) = true /\ item_matches s it) items)).
Proof.
  rewrite list_handler_eval. destruct (os_list s _ _) as [items|e] eqn:El; intros Hr; injection Hr as <- <-.
  - split; [reflexivity|]. right. split; [reflexivity|]. exists items. split; [reflexivity|].
    exact (os_list_sound _ _ _ _ El).
  - split; [reflexivity|]. left. reflexivity.
Qed.

(** C29: the listing scenario of the specification: after two successful
    uploads with different keys into a bucket with no objects, a
    successful listing has [count] 2 and exactly the two keys. *)
Theorem list_after_two_uploads cfg uuid1 uuid2 req1 req2 (s0 s1 s2 : S) r1 r2 url1 url2 k1 k2 items :
  (forall k, os_get s0 k = None) ->
  ServerJs.upload_handler cfg uuid1 req1 s0 = (Ok r1, s1) -> status r1 = 201%N -> body r1 = created_json url1 k1 ->
  ServerJs.upload_handler cfg uuid2 req2 s1 = (Ok r2, s2) -> status r2 = 201%N -> body r2 = created_json url2 k2 ->
  k1 <> k2 -> os_list s2 (cfg_prefix cfg +:+ "/") list_max_keys = Ok items ->
  list_handler cfg s2 = (Ok (mk_response 200 (list_json (cfg_prefix cfg)
                            (strip_trailing_slash (str_or (cfg_public_base_url cfg) "")) items)), s2) /\
  List.length items = 2 /\ Permutation (map item_key items) [k1; k2].
Proof.
  intros Hempty H1 Hs1 Hb1 H2 Hs2 Hb2 Hne Hl.
  destruct (two_uploads_present cfg uuid1 uuid2 req1 req2 s0 s1 s2 r1 r2 url1 url2 k1 k2
              Hempty H1 Hs1 Hb1 H2 Hs2 Hb2) as (Hkeys & Hp1 & Hp2).
  destruct (os_list_sound _ _ _ _ Hl) as (Hlen & Hnd & _ & Hall).
  assert (Hsub : forall k, k ∈ map item_key items -> k = k1 \/ k = k2).
  { intros k Hk. apply list_elem_of_fmap in Hk as (it & -> & Hit).
    eapply Forall_forall in Hall as [_ (o & Ho & _)]; [|exact Hit].
    apply Hkeys. rewrite Ho. eauto. }
  assert (Hperm : Permutation (map item_key items) [k1; k2]).
  { apply NoDup_Permutation; [exact Hnd | constructor; [set_solver | constructor; [set_solver | constructor]] |].
    intros k. split; [intros Hk; destruct (Hsub k Hk) as [-> | ->]; set_solver|].
    assert (Hlt : List.length items < list_max_keys).
    { assert (Hsm : map item_key items ⊆+ [k1; k2]).
      { apply NoDup_submseteq; [exact Hnd|]. intros x Hx. destruct (Hsub x Hx) as [-> | ->]; set_solver. }
      apply submseteq_length in Hsm. rewrite length_map in Hsm. unfold list_max_keys. simpl in Hsm. lia. }
    intros Hk. apply list_elem_of_In.
    assert (Hin : k = k1 \/ k = k2) by set_solver.
    destruct (proj2 (Hkeys k) Hin) as [o Ho].
    eapply (os_list_complete _ _ _ _ Hl Hlt k o Ho). destruct Hin as [-> | ->]; assumption. }
  split; [rewrite list_handler_eval, Hl; reflexivity|].
  split; [|exact Hperm]. apply Permutation_length in Hperm. rewrite length_map in Hperm. exact Hperm.
Qed.

(** C30: when [S3_PUBLIC_BASE_URL] is set, the listing gives an object the
    URL the upload answered with, unless the base URL is a single [/]:
    then the upload answers [/key] and the listing [null]. *)
Theorem list_url_agrees_with_upload (base key : string) (s : S) :
  truthy (JStr base) = true ->
  exists u, resolve_url base key s = (Ok u, s) /\
    item_url (strip_trailing_slash (str_or base "")) key
      = if String.eqb (strip_trailing_slash base) "" then JsonNull else JsonStr u.
Proof.
  intros Ht. unfold resolve_url. rewrite Ht. eexists. split; [reflexivity|].
  rewrite str_or_empty_r. unfold item_url. simpl.
  destruct (String.eqb (strip_trailing_slash base) ""); reflexivity.
Qed.

(** C18: a parameter made by [encodeURIComponent k] is signed as [k]
    itself: the handler's [decodeURIComponent] undoes the encoding of
    every JS string, and the URL is valid one hour. *)
Theorem get_url_encoded_key (k : string) (s : S) :
  utf8_wf (string_bytes k) ->
  exists url, os_presign s k 3600 = Ok url /\
    get_url_handler (encodeURIComponent k) s = (Ok (mk_response 200 (url_json url)), s).
Proof.
  intros Hk. destruct (os_presign_valid s k get_url_expires_in get_url_expires_in_valid) as [url Hu].
  exists url. split; [exact Hu|]. rewrite get_url_handler_eval, decode_encode_roundtrip by exact Hk.
  now rewrite Hu.
Qed.

(** C16: the signed-URL handler signs whatever key the parameter decodes
    to, for one hour, whether or not the bucket holds an object under it;
    it answers 200 with that URL and leaves the bucket unchanged. *)
Theorem get_url_signs_any_key (param key : string) (s : S) :
  decodeURIComponent param = Ok key ->
  exists url, os_presign s key 3600 = Ok url /\
    get_url_handler param s = (Ok (mk_response 200 (url_json url)), s).
Proof.
  intros Hk. destruct (os_presign_valid s key get_url_expires_in get_url_expires_in_valid) as [url Hu].
  exists url. split; [exact Hu|]. rewrite get_url_handler_eval, Hk. now rewrite Hu.
Qed.

(** C34: a parameter [decodeURIComponent] refuses is answered 500 with
    [URI malformed], and the bucket is not touched. *)
Theorem get_url_malformed (param e : string) (s : S) :
  decodeURIComponent param = Err e ->
  get_url_handler param s = (Ok (mk_response 500 (error_json uri_error_msg)), s).
Proof.
  intros He. rewrite get_url_handler_eval, He. apply decodeURIComponent_err in He as ->. reflexivity.
Qed.

End ListProperties.

(** ** Witnesses *)

Lemma list_handler_sound_witness :
  (mk_mem_bucket (<["profile-pics/customer-456.png" := mk_s3object [Byte.x42] "image/png" "public, max-age=31536000" 1]> (<["profile-pics/customer-123.jpg" := mk_s3object [Byte.x41] "image/jpeg" "public, max-age=31536000" 0]> ∅)) 2 None "https://pics.s3.amazonaws.com" (fun _ _ => "sig")) = (mk_mem_bucket (<["profile-pics/customer-456.png" := mk_s3object [Byte.x42] "image/png" "public, max-age=31536000" 1]> (<["profile-pics/customer-123.jpg" := mk_s3object [Byte.x41] "image/jpeg" "public, max-age=31536000" 0]> ∅)) 2 None "https://pics.s3.amazonaws.com" (fun _ _ => "sig")) /\
  (status (mk_response 200 (list_json "profile-pics" (strip_trailing_slash (str_or "https://cdn.example.com/" "")) [mk_s3item "profile-pics/customer-123.jpg" 1 0; mk_s3item "profile-pics/customer-456.png" 1 1])) = 500%N \/
   (status (mk_response 200 (list_json "profile-pics" (strip_trailing_slash (str_or "https://cdn.example.com/" "")) [mk_s3item "profile-pics/customer-123.jpg" 1 0; mk_s3item "profile-pics/customer-456.png" 1 1])) = 200%N /\
    exists items, body (mk_response 200 (list_json "profile-pics" (strip_trailing_slash (str_or "https://cdn.example.com/" "")) [mk_s3item "profile-pics/customer-123.jpg" 1 0; mk_s3item "profile-pics/customer-456.png" 1 1])) = list_json (cfg_prefix (mk_config "profile-pics" "https://cdn.example.com/"))
                    (strip_trailing_slash (str_or (cfg_public_base_url (mk_config "profile-pics" "https://cdn.example.com/")) "")) items /\
      List.length items <= 100 /\ NoDup (map item_key items) /\ Sorted String.le (map item_key items) /\
      Forall (fun it => String.prefix (cfg_prefix (mk_config "profile-pics" "https://cdn.example.com/") +:+ "/") (item_key it) = true /\ item_matches (mk_mem_bucket (<["profile-pics/customer-456.png" := mk_s3object [Byte.x42] "image/png" "public, max-age=31536000" 1]> (<["profile-pics/customer-123.jpg" := mk_s3object [Byte.x41] "image/jpeg" "public, max-age=31536000" 0]> ∅)) 2 None "https://pics.s3.amazonaws.com" (fun _ _ => "sig")) it) items)).
Proof. apply (list_handler_sound (mk_config "profile-pics" "https://cdn.example.com/") (mk_mem_bucket (<["profile-pics/customer-456.png" := mk_s3object [Byte.x42] "image/png" "public, max-age=31536000" 1]> (<["profile-pics/customer-123.jpg" := mk_s3object [Byte.x41] "image/jpeg" "public, max-age=31536000" 0]> ∅)) 2 None "https://pics.s3.amazonaws.com" (fun _ _ => "sig")) (mk_mem_bucket (<["profile-pics/customer-456.png" := mk_s3object [Byte.x42] "image/png" "public, max-age=31536000" 1]> (<["profile-pics/customer-123.jpg" := mk_s3object [Byte.x41] "image/jpeg" "public, max-age=31536000" 0]> ∅)) 2 None "https://pics.s3.amazonaws.com" (fun _ _ => "sig")) (mk_response 200 (list_json "profile-pics" (strip_trailing_slash (str_or "https://cdn.example.com/" "")) [mk_s3item "profile-pics/customer-123.jpg" 1 0; mk_s3item "profile-pics/customer-456.png" 1 1]))). vm_compute. reflexivity. Defined.

Lemma list_after_two_uploads_witness :
  list_handler (mk_config "profile-pics" "https://cdn.example.com/") (mk_mem_bucket (<["profile-pics/customer-456.png" := mk_s3object [Byte.x42] "image/png" "public, max-age=31536000" 1]> (<["profile-pics/customer-123.jpg" := mk_s3object [Byte.x41] "image/jpeg" "public, max-age=31536000" 0]> ∅)) 2 None "https://pics.s3.amazonaws.com" (fun _ _ => "sig")) = (Ok (mk_response 200 (list_json "profile-pics" (strip_trailing_slash (str_or "https://cdn.example.com/" "")) [mk_s3item "profile-pics/customer-123.jpg" 1 0; mk_s3item "profile-pics/customer-456.png" 1 1])), (mk_mem_bucket (<["profile-pics/customer-456.png" := mk_s3object [Byte.x42] "image/png" "public, max-age=31536000" 1]> (<["profile-pics/customer-123.jpg" := mk_s3object [Byte.x41] "image/jpeg" "public, max-age=31536000" 0]> ∅)) 2 None "https://pics.s3.amazonaws.com" (fun _ _ => "sig"))) /\
  List.length ([mk_s3item "profile-pics/customer-123.jpg" 1 0; mk_s3item "profile-pics/customer-456.png" 1 1]) = 2 /\ Permutation (map item_key ([mk_s3item "profile-pics/customer-123.jpg" 1 0; mk_s3item "profile-pics/customer-456.png" 1 1])) ["profile-pics/customer-123.jpg"; "profile-pics/customer-456.png"].
Proof.
  apply (list_after_two_uploads (mk_config "profile-pics" "https://cdn.example.com/") "u1" "u2" (mk_upload_request (mk_id_fields (JStr "customer-123") JUndefined JUndefined JUndefined) (Some (mk_upfile "file" "a.jpg" "image/jpeg" [Byte.x41]))) (mk_upload_request (mk_id_fields (JStr "customer-456") JUndefined JUndefined JUndefined) (Some (mk_upfile "file" "b.png" "image/png" [Byte.x42])))
           (mk_mem_bucket ∅ 0 None "https://pics.s3.amazonaws.com" (fun _ _ => "sig")) (mk_mem_bucket (<["profile-pics/customer-123.jpg" := mk_s3object [Byte.x41] "image/jpeg" "public, max-age=31536000" 0]> ∅) 1 None "https://pics.s3.amazonaws.com" (fun _ _ => "sig")) (mk_mem_bucket (<["profile-pics/customer-456.png" := mk_s3object [Byte.x42] "image/png" "public, max-age=31536000" 1]> (<["profile-pics/customer-123.jpg" := mk_s3object [Byte.x41] "image/jpeg" "public, max-age=31536000" 0]> ∅)) 2 None "https://pics.s3.amazonaws.com" (fun _ _ => "sig")) (mk_response 201 (created_json "https://cdn.example.com/profile-pics/customer-123.jpg" "profile-pics/customer-123.jpg")) (mk_response 201 (created_json "https://cdn.example.com/profile-pics/customer-456.png" "profile-pics/customer-456.png")) "https://cdn.example.com/profile-pics/customer-123.jpg" "https://cdn.example.com/profile-pics/customer-456.png");
    [intros k; reflexivity | vm_compute; reflexivity | reflexivity | reflexivity
    | vm_compute; reflexivity | reflexivity | reflexivity | vm_compute; congruence | vm_compute; reflexivity].
Defined.

Lemma list_url_agrees_with_upload_witness :
  exists u, resolve_url "/" "profile-pics/customer-123.jpg" (mk_mem_bucket ∅ 0 None "https://pics.s3.amazonaws.com" (fun _ _ => "sig")) = (Ok u, (mk_mem_bucket ∅ 0 None "https://pics.s3.amazonaws.com" (fun _ _ => "sig"))) /\
    item_url (strip_trailing_slash (str_or "/" "")) "profile-pics/customer-123.jpg"
      = if String.eqb (strip_trailing_slash "/") "" then JsonNull else JsonStr u.
Proof. apply (list_url_agrees_with_upload "/" "profile-pics/customer-123.jpg" (mk_mem_bucket ∅ 0 None "https://pics.s3.amazonaws.com" (fun _ _ => "sig"))). reflexivity. Defined.


Lemma get_url_encoded_key_witness :
  exists url, os_presign (mk_mem_bucket ∅ 0 None "https://pics.s3.amazonaws.com" (fun _ _ => "sig")) "profile-pics/test-user-1.jpg" 3600 = Ok url /\
    get_url_handler (encodeURIComponent "profile-pics/test-user-1.jpg") (mk_mem_bucket ∅ 0 None "https://pics.s3.amazonaws.com" (fun _ _ => "sig"))
      = (Ok (mk_response 200 (url_json url)), mk_mem_bucket ∅ 0 None "https://pics.s3.amazonaws.com" (fun _ _ => "sig")).
Proof. apply get_url_encoded_key. solve_utf8_ascii. Defined.

Lemma get_url_signs_any_key_witness :
  exists url, os_presign (mk_mem_bucket ∅ 0 None "https://pics.s3.amazonaws.com" (fun _ _ => "sig")) "profile-pics/nobody.jpg" 3600 = Ok url /\
    get_url_handler "profile-pics%2Fnobody.jpg" (mk_mem_bucket ∅ 0 None "https://pics.s3.amazonaws.com" (fun _ _ => "sig"))
      = (Ok (mk_response 200 (url_json url)), mk_mem_bucket ∅ 0 None "https://pics.s3.amazonaws.com" (fun _ _ => "sig")).
Proof. apply get_url_signs_any_key. vm_compute. reflexivity. Defined.

Lemma get_url_malformed_witness :
  get_url_handler "profile-pics/50%off.jpg" (mk_mem_bucket ∅ 0 None "https://pics.s3.amazonaws.com" (fun _ _ => "sig"))
    = (Ok (mk_response 500 (error_json uri_error_msg)), mk_mem_bucket ∅ 0 None "https://pics.s3.amazonaws.com" (fun _ _ => "sig")).
Proof. apply (get_url_malformed _ uri_error_msg). vm_compute. reflexivity. Defined.
