(* ===== verification/Server.v ===== *)
(** * The application: routes, parameter decoding, the error
      middleware, and the bucket over a sequence of requests

    [src/server.js] (and [src/README.md], its other revision) registers,
    in this order: [cors], [express.json()], [GET /health] (lines 57-59),
    [POST /api/upload/profile-pic] behind [upload.single('file')] (line
    64), [GET /api/profile-pics] (line 122), [GET /api/profile-pic/:key]
    (line 146) and the error middleware (lines 161-171).

    - [multer_single] ([Multipart.v]) parses the upload's body; its
      errors go to the error middleware.
    - [express_decode_param] is Express 4's [decode_param]: a non-empty
      route parameter goes through [decodeURIComponent], and a failure
      becomes an error [Failed to decode param '...'] passed to the error
      middleware.
    - [error_middleware] is lines 161-171.
    - [app] dispatches a [request] to its route; [server_app] and
      [readme_app] are the two revisions.
    - [server_step] and [readme_step] relate the bucket before and after
      one request (any request, any UUID), and [reachable] is their
      reflexive-transitive closure: the bucket under any interleaving of
      requests, each handled as the code handles it. *)

From stdpp Require Import base strings list gmap.
From Stdlib Require Import String Ascii ZArith Lia.
From S2P Require Import Prelude JsString JsValue Validator Multipart KeyDeriver Storage Upload Uri Lookup.

Local Open Scope api_scope.

(** ** The health route *)

(** [res.json({ ok: true, service: 'profile-pic-api' })] *)
Definition health_json : json := JsonObj [("ok", JsonBool true); ("service", JsonStr "profile-pic-api")].

Definition health_response : response := mk_response 200 health_json.

(** ** The error middleware, lines 161-171 *)

Definition file_too_large_msg : string := "File too large. Max 5 MB.".

Definition app_error_message (e : app_error) : string :=
  match e with MulterError _ m => m | PlainError m => m end.

(** [err instanceof multer.MulterError && err.code === 'LIMIT_FILE_SIZE'] *)
Definition is_limit_file_size (e : app_error) : bool :=
  match e with MulterError code _ => String.eqb code "LIMIT_FILE_SIZE" | PlainError _ => false end.

Definition error_middleware (e : app_error) : response :=
  let msg := app_error_message e in
  if is_limit_file_size e then mk_response 400 (error_json file_too_large_msg)
  else if truthy (JStr msg) && includes msg "Only images" then mk_response 400 (error_json msg)
  else mk_response 500 (error_json (str_or msg "Server error")).

(** ** Express's parameter decoding *)

Definition decode_param_error (v : string) : app_error :=
  PlainError ("Failed to decode param '" +:+ v +:+ "'").

Definition express_decode_param (v : string) : result string app_error :=
  if String.eqb v "" then Ok v
  else match decodeURIComponent v with
       | Ok d => Ok d
       | Err _ => Err (decode_param_error v)
       end.

(** ** Routing *)

(** A request, as the routes see it: the upload's query parameters
    [userId] and [user_id] and its multipart body; the lookup's path after
    [/api/profile-pic/], as sent (percent-encoded). *)
Inductive request : Type :=
| GetHealth
| PostUpload (query_userId query_user_id : jsval) (parts : list part)
| GetProfilePics
| GetProfilePic (raw_key : string).

#[export] Instance request_eq_dec : EqDecision request.
Proof. solve_decision. Defined.

Definition upload_request_of (q1 q2 : jsval) (st : multer_state) : upload_request :=
  mk_upload_request (mk_id_fields q1 q2 (body_field st "userId") (body_field st "user_id")) (ms_file st).

Section App.
Context {S : Type} `{ObjectStore S}.

(** The routes in order, with the upload handler of the revision. *)
Definition app (upload : upload_request -> stm S response) (cfg : config) (req : request) : stm S response :=
  match req with
  | GetHealth => stm_ret health_response
  | PostUpload q1 q2 parts =>
      match multer_single parts with
      | Err e => stm_ret (error_middleware e)
      | Ok st => upload (upload_request_of q1 q2 st)
      end
  | GetProfilePics => list_handler cfg
  | GetProfilePic raw =>
      match express_decode_param raw with
      | Err e => stm_ret (error_middleware e)
      | Ok p => get_url_handler p
      end
  end.

Definition server_app (cfg : config) (uuid : string) (req : request) : stm S response :=
  app (ServerJs.upload_handler cfg uuid) cfg req.

Definition readme_app (cfg : config) (req : request) : stm S response :=
  app (ReadmeJs.upload_handler cfg) cfg req.

(** One request of [src/server.js]; [uuid] is what [randomUUID()] gives. *)
Inductive server_step (cfg : config) : S -> S -> Prop :=
| server_step_req uuid req s resp s' :
    server_app cfg uuid req s = (Ok resp, s') -> server_step cfg s s'.

Inductive readme_step (cfg : config) : S -> S -> Prop :=
| readme_step_req req s resp s' :
    readme_app cfg req s = (Ok resp, s') -> readme_step cfg s s'.

Inductive reachable (step : S -> S -> Prop) (s0 : S) : S -> Prop :=
| reachable_refl : reachable step s0 s0
| reachable_step s s' : reachable step s0 s -> step s s' -> reachable step s0 s'.

End App.

(** A key directly under [prefix/]: no [/] after the prefix's. *)
Definition flat_key (prefix k : string) : Prop :=
  exists rest, k = prefix +:+ "/" +:+ rest /\ has_char "/" rest = false.

(** Every object of the bucket is under a flat key. *)
Definition bucket_flat {S} `{ObjectStore S} (prefix : string) (s : S) : Prop :=
  forall k o, os_get s k = Some o -> flat_key prefix k.

(** ** Lemmas *)

Lemma server_derive_flat prefix r uuid name mimetype key mime :
  has_char "/" name = false ->
  KeyDeriver.ServerJs.derive prefix r uuid name mimetype = Ok (key, mime) -> flat_key prefix key.
Proof.
  intros Hn Hd. apply server_derive_inv in Hd as (s & -> & _). unfold KeyDeriver.ServerJs.key_of.
  eexists. split; [reflexivity|]. rewrite has_char_app, replace_slashes_no_slash. simpl.
  unfold KeyDeriver.ServerJs.ext_of. destruct (str_or_cases (extname name) ".jpg") as [[_ ->]|[_ ->]];
    [reflexivity | now apply extname_no_slash].
Qed.

Lemma readme_derive_flat prefix r name mimetype key mime :
  KeyDeriver.ReadmeJs.derive prefix r name mimetype = Ok (key, mime) -> flat_key prefix key.
Proof.
  intros Hd. apply readme_derive_inv in Hd as (s & _ & -> & _).
  eexists. split; [reflexivity|]. apply replace_slashes_no_slash.
Qed.

Section FlatLaws.
Context {S : Type} `{ObjectStoreLaws S}.

Lemma put_keeps_flat prefix (s s' : S) k b ct cc :
  os_put s k b ct cc = Ok s' -> flat_key prefix k -> bucket_flat prefix s -> bucket_flat prefix s'.
Proof.
  intros Hp Hk Hs k' o Ho. destruct (decide (k' = k)) as [->|Hne]; [exact Hk|].
  rewrite (os_put_other _ _ _ _ _ _ _ Hp Hne) in Ho. exact (Hs k' o Ho).
Qed.

(** What a server.js upload does to the bucket: nothing, or one put at
    the key derived from the request. *)
Lemma server_upload_effect cfg uuid req (s s' : S) r :
  ServerJs.upload_handler cfg uuid req s = (r, s') ->
  s' = s \/ exists f key mime, req_file req = Some f /\
    KeyDeriver.ServerJs.derive (cfg_prefix cfg) (req_ids req) uuid (originalname f) (mimetype f) = Ok (key, mime) /\
    os_put s key (buffer f) mime ServerJs.cache_control = Ok s'.
Proof.
  rewrite server_upload_eval. intros Hh.
  destruct (req_file req) as [f|]; [|injection Hh as _ <-; auto].
  destruct (KeyDeriver.ServerJs.derive _ _ _ _ _) as [[key mime]|e] eqn:Ed; [|injection Hh as _ <-; auto].
  destruct (os_put s key (buffer f) mime ServerJs.cache_control) as [s1|e] eqn:Ep; [|injection Hh as _ <-; auto].
  destruct (resolve_url_ok (cfg_public_base_url cfg) key s1) as (url & Hu & _).
  rewrite Hu in Hh. injection Hh as _ <-. right. eauto 6.
Qed.

Lemma readme_upload_effect cfg req (s s' : S) r :
  ReadmeJs.upload_handler cfg req s = (r, s') ->
  s' = s \/ exists f key mime, req_file req = Some f /\
    KeyDeriver.ReadmeJs.derive (cfg_prefix cfg) (req_ids req) (originalname f) (mimetype f) = Ok (key, mime) /\
    os_put s key (buffer f) mime ReadmeJs.cache_control = Ok s'.
Proof.
  rewrite readme_upload_eval. intros Hh.
  destruct (req_file req) as [f|]; [|injection Hh as _ <-; auto].
  destruct (negb _); [injection Hh as _ <-; auto|].
  destruct (KeyDeriver.ReadmeJs.derive _ _ _ _) as [[key mime]|e] eqn:Ed; [|injection Hh as _ <-; auto].
  destruct (os_put s key (buffer f) mime ReadmeJs.cache_control) as [s1|e] eqn:Ep; [|injection Hh as _ <-; auto].
  destruct (resolve_url_ok (cfg_public_base_url cfg) key s1) as (url & Hu & _).
  rewrite Hu in Hh. injection Hh as _ <-. right. eauto 6.
Qed.

End FlatLaws.

Section AppLaws.
Context {S : Type} `{ObjectStoreLaws S}.

Lemma server_upload_answers cfg uuid req (s : S) :
  exists r s', ServerJs.upload_handler cfg uuid req s = (Ok r, s').
Proof. apply stm_catch_answers. Qed.

Lemma readme_upload_answers cfg req (s : S) :
  exists r s', ReadmeJs.upload_handler cfg req s = (Ok r, s').
Proof. apply stm_catch_answers. Qed.

(** Every route answers, whatever the request, when the upload does. *)
Lemma app_answers (upload : upload_request -> stm S response) cfg req (s : S) :
  (forall ur, exists r s', upload ur s = (Ok r, s')) ->
  exists r s', app upload cfg req s = (Ok r, s').
Proof.
  intros Hu. destruct req as [|q1 q2 parts| |raw]; simpl; [eauto| |apply stm_catch_answers|].
  - destruct (multer_single parts); [apply Hu|eauto].
  - destruct (express_decode_param raw); [apply stm_catch_answers|eauto].
Qed.

(** The routes other than the upload do not write. *)
Lemma app_read_routes (upload : upload_request -> stm S response) cfg req (s s' : S) r :
  (forall q1 q2 parts, req <> PostUpload q1 q2 parts) ->
  app upload cfg req s = (r, s') -> s' = s.
Proof.
  intros Hn. destruct req as [|q1 q2 parts| |raw]; simpl.
  - now injection 1 as _ <-.
  - now destruct (Hn q1 q2 parts).
  - rewrite list_handler_eval. destruct (os_list _ _ _); now injection 1 as _ <-.
  - destruct (express_decode_param raw); [|now injection 1 as _ <-].
    rewrite get_url_handler_eval. destruct (decodeURIComponent _); [destruct (os_presign _ _ _)|];
      now injection 1 as _ <-.
Qed.

(** One request of either revision keeps the bucket's keys flat. *)
Lemma app_keeps_flat (upload : upload_request -> stm S response) cfg req (s s' : S) r
  (Hup : forall ur s s' r, upload ur s = (r, s') -> s' = s \/
           exists f key mime cc, req_file ur = Some f /\
             (has_char "/" (originalname f) = false -> flat_key (cfg_prefix cfg) key) /\
             os_put s key (buffer f) mime cc = Ok s') :
  app upload cfg req s = (r, s') -> bucket_flat (cfg_prefix cfg) s -> bucket_flat (cfg_prefix cfg) s'.
Proof.
  intros Hh Hs. destruct req as [|q1 q2 parts| |raw];
    try (assert (s' = s) as -> by (eapply app_read_routes; [|exact Hh]; intros ? ? ? ?; discriminate); exact Hs).
  simpl in Hh. destruct (multer_single parts) as [st|e] eqn:Hm; [|now injection Hh as _ <-].
  apply Hup in Hh as [->|(f & key & mime & cc & Hf & Hk & Hp)]; [exact Hs|].
  eapply put_keeps_flat; [exact Hp| |exact Hs]. apply Hk. exact (proj1 (multer_single_accepted _ _ Hm f Hf)).
Qed.

End AppLaws.

(** ** Properties *)

Section Properties.
Context {S : Type} `{ObjectStoreLaws S}.

(** C3: every request gets an answer from either revision (no handler
    lets an error escape), and only the upload route changes the
    bucket. *)
Theorem every_request_answered (cfg : config) (uuid : string) (req : request) (s : S) :
  (exists resp s', server_app cfg uuid req s = (Ok resp, s') /\
     ((forall q1 q2 parts, req <> PostUpload q1 q2 parts) -> s' = s)) /\
  (exists resp s', readme_app cfg req s = (Ok resp, s') /\
     ((forall q1 q2 parts, req <> PostUpload q1 q2 parts) -> s' = s)).
Proof.
  split.
  - destruct (app_answers (ServerJs.upload_handler cfg uuid) cfg req s
                (fun ur => server_upload_answers cfg uuid ur s)) as (resp & s' & Hh).
    exists resp, s'. split; [exact Hh|]. intros Hn. exact (app_read_routes _ _ _ _ _ _ Hn Hh).
  - destruct (app_answers (ReadmeJs.upload_handler cfg) cfg req s
                (fun ur => readme_upload_answers cfg ur s)) as (resp & s' & Hh).
    exists resp, s'. split; [exact Hh|]. intros Hn. exact (app_read_routes _ _ _ _ _ _ Hn Hh).
Qed.

(** C13: in both revisions, whatever requests arrive and in whatever
    order, every object of the bucket stays directly under
    [PROFILE_PREFIX/]: no key the handlers write has a [/] after the
    prefix, so the ids cannot address other folders of the bucket. *)
Theorem keys_stay_flat (cfg : config) (s0 s : S) :
  bucket_flat (cfg_prefix cfg) s0 ->
  (reachable (server_step cfg) s0 s -> bucket_flat (cfg_prefix cfg) s) /\
  (reachable (readme_step cfg) s0 s -> bucket_flat (cfg_prefix cfg) s).
Proof.
  intros Hinit. split; intros Hr; induction Hr as [|s1 s2 Hr IH Hstep]; try exact Hinit.
  - destruct Hstep as [uuid req ? resp ? Hh]. refine (app_keeps_flat _ _ _ _ _ _ _ Hh IH).
    intros ur s3 s4 r Hu. apply server_upload_effect in Hu as [->|(f & key & mime & Hf & Hd & Hp)]; [now left|].
    right. exists f, key, mime, ServerJs.cache_control. split; [exact Hf|]. split; [|exact Hp].
    intros Hn. exact (server_derive_flat _ _ _ _ _ _ _ Hn Hd).
  - destruct Hstep as [req ? resp ? Hh]. refine (app_keeps_flat _ _ _ _ _ _ _ Hh IH).
    intros ur s3 s4 r Hu. apply readme_upload_effect in Hu as [->|(f & key & mime & Hf & Hd & Hp)]; [now left|].
    right. exists f, key, mime, ReadmeJs.cache_control. split; [exact Hf|]. split; [|exact Hp].
    intros _. exact (readme_derive_flat _ _ _ _ _ _ Hd).
Qed.

(** C17: the lookup route decodes the key twice: a client that sends
    [encodeURIComponent k] as the path reaches the handler with [k]
    (Express has decoded it), and the handler decodes [k] again, so it
    signs [decodeURIComponent k], not [k]. *)
Theorem get_route_decodes_twice (upload : upload_request -> stm S response) (cfg : config) (k : string) :
  utf8_wf (string_bytes k) ->
  app upload cfg (GetProfilePic (encodeURIComponent k)) = get_url_handler k.
Proof.
  intros Hk. pose proof (decode_encode_roundtrip k Hk) as Hd. simpl. unfold express_decode_param.
  destruct (String.eqb_spec (encodeURIComponent k) "") as [E|_]; [|now rewrite Hd].
  rewrite E in Hd. vm_compute in Hd. injection Hd as <-. now rewrite E.
Qed.

(** C22: an upload whose one file part has a non-empty base name and is
    refused by [fileFilter] (which sees busboy's base name and parsed
    [mimeType]) is answered 400 with the "Only images" message; one the
    filter accepts but of more than 5 MiB is answered 400 [File too
    large. Max 5 MB.]; neither reaches the handler nor the bucket, in
    either revision. *)
Theorem upload_route_rejections (upload : upload_request -> stm S response) (cfg : config)
    (q1 q2 : jsval) (name ct : string) (data : list Byte.byte) (s : S) :
  busboy_basename name <> "" ->
  (fileFilter (mk_upfile "file" (busboy_basename name) (busboy_mime ct) data) = Err only_images_msg ->
   app upload cfg (PostUpload q1 q2 [FilePart "file" name ct data]) s
     = (Ok (mk_response 400 (error_json only_images_msg)), s)) /\
  (fileFilter (mk_upfile "file" (busboy_basename name) (busboy_mime ct) data) = Ok true ->
   (fileSize_limit < N.of_nat (List.length data))%N ->
   app upload cfg (PostUpload q1 q2 [FilePart "file" name ct data]) s
     = (Ok (mk_response 400 (error_json file_too_large_msg)), s)).
Proof.
  intros Hn. apply String.eqb_neq in Hn.
  unfold app, multer_single, multer_parts, multer_part. rewrite Hn. split.
  - intros Hf. unfold multer_accept_file. now rewrite Hf.
  - intros Hf Hs. rewrite multer_accept_file_accepted by exact Hf. unfold file_size. simpl.
    now rewrite (proj2 (N.leb_gt _ _) Hs).
Qed.



End Properties.

(** C40: a [userId] sent twice in the form reaches the handler as an
    array, whose [toString()] joins the values with a comma: server.js
    derives the key [prefix/a,b + ext] (after replacing slashes) instead
    of refusing the request or using one of the values. *)
Theorem repeated_userId_joined (a b filename ct : string) (data : list Byte.byte) (st : multer_state) :
  multer_single [TextField "userId" a; TextField "userId" b; FilePart "file" filename ct data] = Ok st ->
  forall prefix uuid name mimetype,
    KeyDeriver.ServerJs.derive prefix (req_ids (upload_request_of JUndefined JUndefined st)) uuid name mimetype
    = Ok (prefix +:+ "/" +:+ replace_slashes (a +:+ "," +:+ b) +:+ KeyDeriver.ServerJs.ext_of name,
          resolve_mime mimetype (KeyDeriver.ServerJs.ext_of name)).
Proof.
  intros Hm prefix uuid name mimetype. apply multer_parts_body in Hm.
  unfold KeyDeriver.ServerJs.derive, upload_request_of, body_field. simpl req_ids. rewrite Hm. reflexivity.
Qed.

(** ** Witnesses *)

Lemma repeated_userId_joined_witness :
  KeyDeriver.ServerJs.derive "profile-pics"
    (req_ids (upload_request_of JUndefined JUndefined
       (mk_multer_state (<["userId" := JArr ["customer"; "123"]]> (<["userId" := JStr "customer"]> ∅))
          (Some (mk_upfile "file" "a.jpg" "image/jpeg" [Byte.x41])) 0))) "u" "a.jpg" "image/jpeg"
  = Ok ("profile-pics" +:+ "/" +:+ replace_slashes ("customer" +:+ "," +:+ "123") +:+ KeyDeriver.ServerJs.ext_of "a.jpg",
        resolve_mime "image/jpeg" (KeyDeriver.ServerJs.ext_of "a.jpg")).
Proof.
  apply (repeated_userId_joined "customer" "123" "a.jpg" "image/jpeg" [Byte.x41]). reflexivity.
Defined.

Lemma every_request_answered_witness :
  (exists resp s', server_app (mk_config "profile-pics" "") "u" GetProfilePics
                     (mk_mem_bucket ∅ 0 None "https://pics.s3.amazonaws.com" (fun _ _ => "sig")) = (Ok resp, s') /\
     ((forall q1 q2 parts, GetProfilePics <> PostUpload q1 q2 parts) ->
      s' = mk_mem_bucket ∅ 0 None "https://pics.s3.amazonaws.com" (fun _ _ => "sig"))) /\
  (exists resp s', readme_app (mk_config "profile-pics" "") GetProfilePics
                     (mk_mem_bucket ∅ 0 None "https://pics.s3.amazonaws.com" (fun _ _ => "sig")) = (Ok resp, s') /\
     ((forall q1 q2 parts, GetProfilePics <> PostUpload q1 q2 parts) ->
      s' = mk_mem_bucket ∅ 0 None "https://pics.s3.amazonaws.com" (fun _ _ => "sig"))).
Proof. exact (every_request_answered (mk_config "profile-pics" "") "u" GetProfilePics _). Defined.

Lemma keys_stay_flat_witness :
  bucket_flat "profile-pics"
    (mk_mem_bucket (<["profile-pics/customer-123.jpg" := mk_s3object [Byte.x41] "image/jpeg" "public, max-age=31536000" 0]> ∅)
                   1 None "https://pics.s3.amazonaws.com" (fun _ _ => "sig")).
Proof.
  refine (proj1 (keys_stay_flat (mk_config "profile-pics" "https://cdn.example.com/")
                   (mk_mem_bucket ∅ 0 None "https://pics.s3.amazonaws.com" (fun _ _ => "sig")) _ _) _).
  { intros k o Ho. cbn in Ho. rewrite lookup_empty in Ho. discriminate. }
  eapply reachable_step; [apply reachable_refl|].
  apply (server_step_req _ "u"
           (PostUpload (JStr "customer-123") JUndefined [FilePart "file" "a.jpg" "image/jpeg" [Byte.x41]]) _
           (mk_response 201 (created_json "https://cdn.example.com/profile-pics/customer-123.jpg" "profile-pics/customer-123.jpg"))).
  vm_compute. reflexivity.
Defined.

Lemma get_route_decodes_twice_witness :
  app (ServerJs.upload_handler (S := mem_bucket) (mk_config "profile-pics" "") "u") (mk_config "profile-pics" "")
      (GetProfilePic (encodeURIComponent "profile-pics/50%off.jpg"))
  = get_url_handler "profile-pics/50%off.jpg".
Proof. apply get_route_decodes_twice. solve_utf8_ascii. Defined.

Lemma upload_route_rejections_witness :
  app (ServerJs.upload_handler (mk_config "profile-pics" "") "u") (mk_config "profile-pics" "")
      (PostUpload (JStr "test-user-1") JUndefined [FilePart "file" "notes.txt" "text/plain" [Byte.x41]])
      (mk_mem_bucket ∅ 0 None "https://pics.s3.amazonaws.com" (fun _ _ => "sig"))
  = (Ok (mk_response 400 (error_json only_images_msg)), mk_mem_bucket ∅ 0 None "https://pics.s3.amazonaws.com" (fun _ _ => "sig")) /\
  app (ServerJs.upload_handler (mk_config "profile-pics" "") "u") (mk_config "profile-pics" "")
      (PostUpload (JStr "test-user-1") JUndefined [FilePart "file" "big.jpg" "image/jpeg" (repeat Byte.x00 (N.to_nat 5242881))])
      (mk_mem_bucket ∅ 0 None "https://pics.s3.amazonaws.com" (fun _ _ => "sig"))
  = (Ok (mk_response 400 (error_json file_too_large_msg)), mk_mem_bucket ∅ 0 None "https://pics.s3.amazonaws.com" (fun _ _ => "sig")).
Proof.
  split.
  - apply (proj1 (upload_route_rejections _ _ _ _ "notes.txt" _ _ _ ltac:(vm_compute; discriminate))).
    reflexivity.
  - apply (proj2 (upload_route_rejections _ _ _ _ "big.jpg" _ _ _ ltac:(vm_compute; discriminate)));
      [reflexivity|].
    rewrite repeat_length, N2Nat.id. vm_compute. reflexivity.
Defined.


