(* ===== verification/Refinement.v ===== *)
(** * Refinement: the application against the specification's bucket

    The specification (sections 4.4, 5 and 7) describes the bucket as a
    map from keys to objects that a request either leaves alone or, for a
    successful upload, changes at exactly one key, where it stores the
    validated image bytes.  [spec_step] is that contract on the view
    [view s] (the object under each key) of a store, with the details the
    code fixes: the key is directly under [PROFILE_PREFIX/], the content
    type is an [image/] type, the bytes are at most 5 MiB, and the cache
    policy is the revision's.  [spec_reachable] is its closure.

    [server_step_refines] and [readme_step_refines] show that one request
    of either revision is a [spec_step] of its view; the claim
    [app_refines_spec] lifts this to any sequence of requests, and
    [outside_prefix_untouched] draws the frame property from it.  Views
    are compared with [view_equiv] (the same object under every key), a
    setoid for which [spec_step] and [spec_reachable] are [Proper].
    [distinct_uploads_commute] is the specification's independence of
    requests: two uploads at different keys commute up to
    [LastModified]. *)

From stdpp Require Import base strings list gmap.
From Stdlib Require Import String Ascii ZArith Lia.
From S2P Require Import Prelude JsString JsValue Validator Multipart KeyDeriver Storage Upload Uri Lookup Server.

Local Open Scope api_scope.

(** The specification's bucket: the object under each key. *)
Definition bucket_view : Type := string -> option s3object.

Definition view {S} `{ObjectStore S} (s : S) : bucket_view := os_get s.

(** Two views are equivalent when they give every key the same object. *)
Definition view_equiv (v v' : bucket_view) : Prop := forall k, v k = v' k.

(** What one request may do to the bucket. *)
Inductive spec_step (prefix cc : string) (v v' : bucket_view) : Prop :=
| spec_keep : view_equiv v' v -> spec_step prefix cc v v'
| spec_put k b mime t :
    flat_key prefix k -> String.prefix "image/" mime = true ->
    (N.of_nat (List.length b) <= fileSize_limit)%N ->
    v' k = Some (mk_s3object b mime cc t) -> (forall k', k' <> k -> v' k' = v k') ->
    spec_step prefix cc v v'.

Inductive spec_reachable (prefix cc : string) (v0 : bucket_view) : bucket_view -> Prop :=
| spec_reachable_refl v : view_equiv v v0 -> spec_reachable prefix cc v0 v
| spec_reachable_step v v' : spec_reachable prefix cc v0 v -> spec_step prefix cc v v' ->
    spec_reachable prefix cc v0 v'.

(** An object without its [LastModified]: what a client can observe of
    the bytes and headers. *)
Definition obj_content (o : option s3object) : option (list Byte.byte * string * string) :=
  option_map (fun o => (obj_body o, obj_content_type o, obj_cache_control o)) o.

(** ** Lemmas *)

#[export] Instance view_equiv_equivalence : Equivalence view_equiv.
Proof.
  split.
  - intros v k. reflexivity.
  - intros v v' H k. now rewrite H.
  - intros v1 v2 v3 H12 H23 k. now rewrite H12, H23.
Qed.

#[export] Instance spec_step_proper prefix cc : Proper (view_equiv ==> view_equiv ==> iff) (spec_step prefix cc).
Proof.
  intros v1 v2 H12 w1 w2 Hw. split; intros [Hk | k b mime t Hf Hi Hs Hget Hoth].
  - apply spec_keep. now rewrite <- Hw, Hk.
  - apply (spec_put _ _ _ _ k b mime t); auto; [now rewrite <- Hw|].
    intros k' Hk'. now rewrite <- (Hw k'), <- (H12 k'), Hoth.
  - apply spec_keep. now rewrite Hw, Hk.
  - apply (spec_put _ _ _ _ k b mime t); auto; [now rewrite Hw|].
    intros k' Hk'. now rewrite (Hw k'), (H12 k'), Hoth.
Qed.

#[export] Instance spec_reachable_proper prefix cc :
  Proper (view_equiv ==> view_equiv ==> iff) (spec_reachable prefix cc).
Proof.
  assert (Himp : forall v1 v2 w1 w2, view_equiv v1 v2 -> view_equiv w1 w2 ->
            spec_reachable prefix cc v1 w1 -> spec_reachable prefix cc v2 w2).
  { intros v1 v2 w1 w2 Hv Hw Hr. revert w2 Hw. induction Hr as [w Hw0|w w' Hr IH Hs]; intros w2 Hw.
    - apply spec_reachable_refl. now rewrite <- Hw, Hw0.
    - apply (spec_reachable_step _ _ _ w); [apply IH; reflexivity|]. now rewrite <- Hw. }
  intros v1 v2 Hv w1 w2 Hw. split; apply Himp; auto; now symmetry.
Qed.

(** Keys that are not directly under the prefix keep their object. *)
Lemma spec_reachable_frame prefix cc v0 v :
  spec_reachable prefix cc v0 v -> forall k, ~ flat_key prefix k -> v k = v0 k.
Proof.
  induction 1 as [v Hv|v v' Hr IH [Hk | k' b mime t Hf _ _ _ Hoth]]; intros k Hnk.
  - apply Hv.
  - rewrite Hk. now apply IH.
  - rewrite Hoth by (intros ->; contradiction). now apply IH.
Qed.

Section RefinementLaws.
Context {S : Type} `{ObjectStoreLaws S}.

(** A request either leaves the bucket alone or is an upload whose body
    multer accepted, handled by the revision's upload handler. *)
Lemma app_step_cases (upload : upload_request -> stm S response) cfg req (s s' : S) r :
  app upload cfg req s = (r, s') ->
  s' = s \/ exists q1 q2 parts st, req = PostUpload q1 q2 parts /\ multer_single parts = Ok st /\
                                  upload (upload_request_of q1 q2 st) s = (r, s').
Proof.
  intros Hh. destruct req as [|q1 q2 parts| |raw];
    try (left; eapply app_read_routes; [|exact Hh]; intros ? ? ? ?; discriminate).
  simpl in Hh. destruct (multer_single parts) as [st|e] eqn:Hm; [|left; now injection Hh as _ <-].
  right. eauto 7.
Qed.

(** A put of an accepted file at a flat key with an image type is a
    [spec_put]. *)
Lemma put_is_spec_step prefix cc (s s' : S) st f key mime :
  file_accepted st -> ms_file st = Some f ->
  (has_char "/" (originalname f) = false -> flat_key prefix key) ->
  String.prefix "image/" mime = true ->
  os_put s key (buffer f) mime cc = Ok s' ->
  spec_step prefix cc (view s) (view s').
Proof.
  intros Hacc Hf Hflat Himg Hp. destruct (Hacc f Hf) as (Hn & _ & Hsize).
  destruct (os_put_get _ _ _ _ _ _ Hp) as [t Ht].
  apply (spec_put _ _ _ _ key (buffer f) mime t); auto.
  intros k' Hk'. exact (os_put_other _ _ _ _ _ _ _ Hp Hk').
Qed.

Lemma server_step_refines cfg (s s' : S) :
  server_step cfg s s' -> spec_step (cfg_prefix cfg) ServerJs.cache_control (view s) (view s').
Proof.
  intros [uuid req ? resp ? Hh]. apply app_step_cases in Hh as [->|(q1 & q2 & parts & st & -> & Hm & Hu)].
  { now apply spec_keep. }
  apply server_upload_effect in Hu as [->|(f & key & mime & Hf & Hd & Hp)]; [now apply spec_keep|].
  apply (put_is_spec_step _ _ _ _ st f key mime (multer_single_accepted _ _ Hm) Hf); [| |exact Hp].
  - intros Hn. exact (server_derive_flat _ _ _ _ _ _ _ Hn Hd).
  - exact (server_derive_image _ _ _ _ _ _ _ Hd).
Qed.

Lemma readme_step_refines cfg (s s' : S) :
  readme_step cfg s s' -> spec_step (cfg_prefix cfg) ReadmeJs.cache_control (view s) (view s').
Proof.
  intros [req ? resp ? Hh]. apply app_step_cases in Hh as [->|(q1 & q2 & parts & st & -> & Hm & Hu)].
  { now apply spec_keep. }
  apply readme_upload_effect in Hu as [->|(f & key & mime & Hf & Hd & Hp)]; [now apply spec_keep|].
  apply (put_is_spec_step _ _ _ _ st f key mime (multer_single_accepted _ _ Hm) Hf); [| |exact Hp].
  - intros _. exact (readme_derive_flat _ _ _ _ _ _ Hd).
  - exact (readme_derive_image _ _ _ _ _ _ Hd).
Qed.

(** A run of the implementation is a run of the specification when each
    step is one. *)
Lemma reachable_refines (step : S -> S -> Prop) prefix cc (s0 s : S) :
  (forall s1 s2, step s1 s2 -> spec_step prefix cc (view s1) (view s2)) ->
  reachable step s0 s -> spec_reachable prefix cc (view s0) (view s).
Proof.
  intros Hstep Hr. induction Hr as [|s1 s2 Hr IH Hs].
  - now apply spec_reachable_refl.
  - eapply spec_reachable_step; [exact IH|]. exact (Hstep _ _ Hs).
Qed.

(** A 201 of server.js is one put at the key its body names. *)
Lemma server_upload_201 cfg uuid req (s s' : S) resp url key :
  ServerJs.upload_handler cfg uuid req s = (Ok resp, s') -> body resp = created_json url key ->
  exists f mime, req_file req = Some f /\
    KeyDeriver.ServerJs.derive (cfg_prefix cfg) (req_ids req) uuid (originalname f) (mimetype f) = Ok (key, mime) /\
    os_put s key (buffer f) mime ServerJs.cache_control = Ok s'.
Proof.
  rewrite server_upload_eval. intros Hh Hb.
  destruct (req_file req) as [f|]; [|injection Hh as <- _; discriminate].
  destruct (KeyDeriver.ServerJs.derive _ _ _ _ _) as [[key' mime]|e] eqn:Ed;
    [|injection Hh as <- _; discriminate].
  destruct (os_put s key' (buffer f) mime ServerJs.cache_control) as [s1|e] eqn:Ep;
    [|injection Hh as <- _; discriminate].
  destruct (resolve_url_ok (cfg_public_base_url cfg) key' s1) as (url' & Hu & _).
  rewrite Hu in Hh. injection Hh as <- <-. simpl in Hb. injection Hb as _ ->. eauto.
Qed.

(** After two puts at different keys, each key holds what was put there. *)
Lemma two_puts_content (s s1 s2 : S) k1 b1 m1 c1 k2 b2 m2 c2 k :
  os_put s k1 b1 m1 c1 = Ok s1 -> os_put s1 k2 b2 m2 c2 = Ok s2 -> k1 <> k2 ->
  obj_content (os_get s2 k) =
  if String.eqb k k2 then Some (b2, m2, c2) else if String.eqb k k1 then Some (b1, m1, c1)
  else obj_content (os_get s k).
Proof.
  intros Hp1 Hp2 Hne. destruct (String.eqb_spec k k2) as [->|Hk2].
  - destruct (os_put_get _ _ _ _ _ _ Hp2) as [t ->]. reflexivity.
  - rewrite (os_put_other _ _ _ _ _ _ _ Hp2 Hk2). destruct (String.eqb_spec k k1) as [->|Hk1].
    + destruct (os_put_get _ _ _ _ _ _ Hp1) as [t ->]. reflexivity.
    + now rewrite (os_put_other _ _ _ _ _ _ _ Hp1 Hk1).
Qed.

End RefinementLaws.

(** ** Properties *)

Section RefinementProperties.
Context {S : Type} `{ObjectStoreLaws S}.

(** C11: both revisions refine the specification's bucket: after any
    sequence of requests, the bucket is reached from the initial one by
    steps that each leave it alone or store, at one key directly under
    [PROFILE_PREFIX/], at most 5 MiB of bytes with an [image/] content
    type and the revision's cache policy, leaving every other key as it
    was. *)
Theorem app_refines_spec (cfg : config) (s0 s : S) :
  (reachable (server_step cfg) s0 s ->
   spec_reachable (cfg_prefix cfg) ServerJs.cache_control (view s0) (view s)) /\
  (reachable (readme_step cfg) s0 s ->
   spec_reachable (cfg_prefix cfg) ReadmeJs.cache_control (view s0) (view s)).
Proof.
  split; apply reachable_refines; intros s1 s2.
  - apply server_step_refines.
  - apply readme_step_refines.
Qed.

(** C12: neither revision ever changes an object that is not directly
    under [PROFILE_PREFIX/]: whatever the requests, the rest of the
    bucket keeps its objects. *)
Theorem outside_prefix_untouched (cfg : config) (s0 s : S) (k : string) :
  ~ flat_key (cfg_prefix cfg) k ->
  (reachable (server_step cfg) s0 s -> os_get s k = os_get s0 k) /\
  (reachable (readme_step cfg) s0 s -> os_get s k = os_get s0 k).
Proof.
  intros Hk. split; intros Hr.
  - exact (spec_reachable_frame _ _ _ _ (reachable_refines _ _ _ _ _ (server_step_refines cfg) Hr) k Hk).
  - exact (spec_reachable_frame _ _ _ _ (reachable_refines _ _ _ _ _ (readme_step_refines cfg) Hr) k Hk).
Qed.

(** C14: two successful server.js uploads at different keys commute:
    run in either order from the same bucket, they leave every key with
    the same bytes, content type and cache policy (only [LastModified]
    tells the orders apart), as the specification's independence of
    requests says. *)
Theorem distinct_uploads_commute (cfg : config) (u1 u2 : string) (req1 req2 : upload_request)
    (s s1 s12 s2 s21 : S) (r1 r12 r2 r21 : response) (url1 url12 url2 url21 k1 k2 : string) :
  ServerJs.upload_handler cfg u1 req1 s = (Ok r1, s1) -> body r1 = created_json url1 k1 ->
  ServerJs.upload_handler cfg u2 req2 s1 = (Ok r12, s12) -> body r12 = created_json url12 k2 ->
  ServerJs.upload_handler cfg u2 req2 s = (Ok r2, s2) -> body r2 = created_json url2 k2 ->
  ServerJs.upload_handler cfg u1 req1 s2 = (Ok r21, s21) -> body r21 = created_json url21 k1 ->
  k1 <> k2 ->
  forall k, obj_content (os_get s12 k) = obj_content (os_get s21 k).
Proof.
  intros H1 B1 H12 B12 H2 B2 H21 B21 Hne k.
  destruct (server_upload_201 _ _ _ _ _ _ _ _ H1 B1) as (f1 & m1 & Hf1 & Hd1 & Hp1).
  destruct (server_upload_201 _ _ _ _ _ _ _ _ H12 B12) as (f2 & m2 & Hf2 & Hd2 & Hp12).
  destruct (server_upload_201 _ _ _ _ _ _ _ _ H2 B2) as (f2' & m2' & Hf2' & Hd2' & Hp2).
  destruct (server_upload_201 _ _ _ _ _ _ _ _ H21 B21) as (f1' & m1' & Hf1' & Hd1' & Hp21).
  rewrite Hf2 in Hf2'. injection Hf2' as <-. rewrite Hf1 in Hf1'. injection Hf1' as <-.
  rewrite Hd2 in Hd2'. injection Hd2' as <-. rewrite Hd1 in Hd1'. injection Hd1' as <-.
  rewrite (two_puts_content _ _ _ _ _ _ _ _ _ _ _ _ Hp1 Hp12 Hne).
  rewrite (two_puts_content _ _ _ _ _ _ _ _ _ _ _ _ Hp2 Hp21 (not_eq_sym Hne)).
  destruct (String.eqb_spec k k2) as [E2|E2], (String.eqb_spec k k1) as [E1|E1]; congruence.
Qed.

End RefinementProperties.

(** ** Witnesses *)

Lemma app_refines_spec_witness :
  spec_reachable "profile-pics" ServerJs.cache_control
    (view (mk_mem_bucket ∅ 0 None "https://pics.s3.amazonaws.com" (fun _ _ => "sig")))
    (view (mk_mem_bucket (<["profile-pics/customer-123.jpg" := mk_s3object [Byte.x41] "image/jpeg" "public, max-age=31536000" 0]> ∅)
                         1 None "https://pics.s3.amazonaws.com" (fun _ _ => "sig"))).
Proof.
  refine (proj1 (app_refines_spec (mk_config "profile-pics" "https://cdn.example.com/") _ _) _).
  eapply reachable_step; [apply reachable_refl|].
  apply (server_step_req _ "u"
           (PostUpload (JStr "customer-123") JUndefined [FilePart "file" "a.jpg" "image/jpeg" [Byte.x41]]) _
           (mk_response 201 (created_json "https://cdn.example.com/profile-pics/customer-123.jpg" "profile-pics/customer-123.jpg"))).
  vm_compute. reflexivity.
Defined.

Lemma outside_prefix_untouched_witness :
  os_get (mk_mem_bucket (<["profile-pics/customer-123.jpg" := mk_s3object [Byte.x41] "image/jpeg" "public, max-age=31536000" 1]>
                           (<["other-app/data.json" := mk_s3object [Byte.x7b; Byte.x7d] "application/json" "" 0]> ∅))
                        2 None "https://pics.s3.amazonaws.com" (fun _ _ => "sig")) "other-app/data.json"
  = os_get (mk_mem_bucket (<["other-app/data.json" := mk_s3object [Byte.x7b; Byte.x7d] "application/json" "" 0]> ∅)
                          1 None "https://pics.s3.amazonaws.com" (fun _ _ => "sig")) "other-app/data.json".
Proof.
  refine (proj1 (outside_prefix_untouched (mk_config "profile-pics" "https://cdn.example.com/") _ _ _ _) _).
  - intros (rest & E & _). vm_compute in E. discriminate.
  - eapply reachable_step; [apply reachable_refl|].
    apply (server_step_req _ "u"
             (PostUpload (JStr "customer-123") JUndefined [FilePart "file" "a.jpg" "image/jpeg" [Byte.x41]]) _
             (mk_response 201 (created_json "https://cdn.example.com/profile-pics/customer-123.jpg" "profile-pics/customer-123.jpg"))).
    vm_compute. reflexivity.
Defined.

Lemma distinct_uploads_commute_witness :
  obj_content (os_get (mk_mem_bucket (<["profile-pics/customer-2.png" := mk_s3object [Byte.x42] "image/png" "public, max-age=31536000" 1]> (<["profile-pics/customer-1.jpg" := mk_s3object [Byte.x41] "image/jpeg" "public, max-age=31536000" 0]> ∅)) 2 None "https://pics.s3.amazonaws.com" (fun _ _ => "sig")) "profile-pics/customer-1.jpg") = obj_content (os_get (mk_mem_bucket (<["profile-pics/customer-1.jpg" := mk_s3object [Byte.x41] "image/jpeg" "public, max-age=31536000" 1]> (<["profile-pics/customer-2.png" := mk_s3object [Byte.x42] "image/png" "public, max-age=31536000" 0]> ∅)) 2 None "https://pics.s3.amazonaws.com" (fun _ _ => "sig")) "profile-pics/customer-1.jpg").
Proof.
  apply (distinct_uploads_commute (mk_config "profile-pics" "https://cdn.example.com/") "u1" "u2" (mk_upload_request (mk_id_fields (JStr "customer-1") JUndefined JUndefined JUndefined) (Some (mk_upfile "file" "a.jpg" "image/jpeg" [Byte.x41]))) (mk_upload_request (mk_id_fields (JStr "customer-2") JUndefined JUndefined JUndefined) (Some (mk_upfile "file" "b.png" "image/png" [Byte.x42])))
           (mk_mem_bucket ∅ 0 None "https://pics.s3.amazonaws.com" (fun _ _ => "sig")) (mk_mem_bucket (<["profile-pics/customer-1.jpg" := mk_s3object [Byte.x41] "image/jpeg" "public, max-age=31536000" 0]> ∅) 1 None "https://pics.s3.amazonaws.com" (fun _ _ => "sig")) (mk_mem_bucket (<["profile-pics/customer-2.png" := mk_s3object [Byte.x42] "image/png" "public, max-age=31536000" 1]> (<["profile-pics/customer-1.jpg" := mk_s3object [Byte.x41] "image/jpeg" "public, max-age=31536000" 0]> ∅)) 2 None "https://pics.s3.amazonaws.com" (fun _ _ => "sig")) (mk_mem_bucket (<["profile-pics/customer-2.png" := mk_s3object [Byte.x42] "image/png" "public, max-age=31536000" 0]> ∅) 1 None "https://pics.s3.amazonaws.com" (fun _ _ => "sig")) (mk_mem_bucket (<["profile-pics/customer-1.jpg" := mk_s3object [Byte.x41] "image/jpeg" "public, max-age=31536000" 1]> (<["profile-pics/customer-2.png" := mk_s3object [Byte.x42] "image/png" "public, max-age=31536000" 0]> ∅)) 2 None "https://pics.s3.amazonaws.com" (fun _ _ => "sig")) (mk_response 201 (created_json "https://cdn.example.com/profile-pics/customer-1.jpg" "profile-pics/customer-1.jpg")) (mk_response 201 (created_json "https://cdn.example.com/profile-pics/customer-2.png" "profile-pics/customer-2.png")) (mk_response 201 (created_json "https://cdn.example.com/profile-pics/customer-2.png" "profile-pics/customer-2.png")) (mk_response 201 (created_json "https://cdn.example.com/profile-pics/customer-1.jpg" "profile-pics/customer-1.jpg"))
           "https://cdn.example.com/profile-pics/customer-1.jpg" "https://cdn.example.com/profile-pics/customer-2.png" "https://cdn.example.com/profile-pics/customer-2.png" "https://cdn.example.com/profile-pics/customer-1.jpg" "profile-pics/customer-1.jpg" "profile-pics/customer-2.png");
    [vm_compute; reflexivity | reflexivity | vm_compute; reflexivity | reflexivity
    | vm_compute; reflexivity | reflexivity | vm_compute; reflexivity | reflexivity | discriminate].
Defined.
