(* ===== verification/Config.v ===== *)
(** * Start-up: the required environment and the defaults

    [src/server.js] lines 11-31 (and [src/README.md] lines 101-121):
    [PORT] is [process.env.PORT || 4000]; the loop over [requiredEnv]
    exits the process with [Missing required env: KEY] at the first of
    the four variables that is unset or empty; [PROFILE_PREFIX] is
    [process.env.S3_PROFILE_PREFIX || 'profile-pics'].  The handlers read
    [process.env.S3_PUBLIC_BASE_URL] when they run; an unset variable
    reads as [undefined], which every use treats as the empty string
    (both are falsy, and line 131 writes [|| '']). *)

From stdpp Require Import base strings list gmap.
From Stdlib Require Import String Ascii ZArith Lia.
From S2P Require Import Prelude JsString JsValue Upload.

Local Open Scope api_scope.

(** [process.env]: the variables that are set, with their values. *)
Definition env : Type := gmap string string.

(** [process.env[key]] *)
Definition env_get (e : env) (k : string) : jsval :=
  match e !! k with Some v => JStr v | None => JUndefined end.

(** [process.env[key]] where the source only uses it as a string
    ([undefined] and [''] behave alike there). *)
Definition env_str (e : env) (k : string) : string :=
  match e !! k with Some v => v | None => "" end.

(** [const requiredEnv = ['AWS_ACCESS_KEY_ID', 'AWS_SECRET_ACCESS_KEY', 'AWS_REGION', 'S3_BUCKET'];] *)
Definition requiredEnv : list string :=
  ["AWS_ACCESS_KEY_ID"; "AWS_SECRET_ACCESS_KEY"; "AWS_REGION"; "S3_BUCKET"].

Definition missing_env_msg (k : string) : string := "Missing required env: " +:+ k.

(** [for (const key of requiredEnv) { if (!process.env[key]) { console.error(...); process.exit(1); } }] *)
Fixpoint check_required (e : env) (keys : list string) : result unit string :=
  match keys with
  | [] => Ok tt
  | k :: ks => if truthy (env_get e k) then check_required e ks else Err (missing_env_msg k)
  end.

(** [process.env.PORT || 4000], as the text [app.listen] is given. *)
Definition port_of (e : env) : string := str_or (env_str e "PORT") "4000".

(** What starting the process does: exit with status 1 after logging
    the message, or listen on a port with the configuration the handlers
    use and the bucket the S3 client is set up for. *)
Inductive startup : Type :=
| Exit1 (msg : string)
| Listening (port : string) (bucket : string) (cfg : config).

Definition startup_of (e : env) : startup :=
  match check_required e requiredEnv with
  | Err msg => Exit1 msg
  | Ok _ =>
      Listening (port_of e) (env_str e "S3_BUCKET")
                (mk_config (str_or (env_str e "S3_PROFILE_PREFIX") "profile-pics")
                           (env_str e "S3_PUBLIC_BASE_URL"))
  end.

(** A variable set to a non-empty value. *)
Definition env_set (e : env) (k : string) : Prop := exists v, e !! k = Some v /\ v <> "".

(** ** Lemmas *)

Lemma truthy_env_get (e : env) (k : string) : truthy (env_get e k) = true <-> env_set e k.
Proof.
  unfold env_get, env_set. destruct (e !! k) as [v|]; simpl.
  - split.
    + intros Hv. exists v. split; [reflexivity|]. intros ->. discriminate.
    + intros (v' & Hv' & Hne). injection Hv' as <-. destruct v; [contradiction|reflexivity].
  - split; [discriminate|]. intros (v & Hv & _). discriminate.
Qed.

Lemma check_required_spec (e : env) (keys : list string) :
  (check_required e keys = Ok tt <-> Forall (env_set e) keys) /\
  (forall msg, check_required e keys = Err msg ->
     exists pre k post, keys = pre ++ k :: post /\
       Forall (env_set e) pre /\ ~ env_set e k /\ msg = missing_env_msg k).
Proof.
  induction keys as [|k ks IH]; simpl.
  - split; [split; constructor|discriminate].
  - destruct IH as [IHok IHerr]. destruct (truthy (env_get e k)) eqn:Hk.
    + apply truthy_env_get in Hk. split.
      * rewrite IHok, Forall_cons. tauto.
      * intros msg Hm. destruct (IHerr msg Hm) as (pre & k' & post & Hks & Hpre & Hk' & ->).
        exists (k :: pre), k', post. simpl. split; [now f_equal|]. split; [now constructor|]. auto.
    + assert (Hn : ~ env_set e k) by (rewrite <- truthy_env_get; congruence). split.
      * split; [discriminate|]. intros Hf. apply Forall_cons in Hf as [Hf _]. contradiction.
      * intros msg Hm. injection Hm as <-. exists [], k, ks. auto.
Qed.

(** ** Properties *)

(** C21: the process starts only when the four required variables are
    all set and non-empty; it then listens on [PORT] (default 4000) with
    [S3_PROFILE_PREFIX] (default [profile-pics]) and [S3_PUBLIC_BASE_URL];
    otherwise it exits naming the first missing variable of the list. *)
Theorem startup_requires_env (e : env) :
  (Forall (env_set e) requiredEnv ->
   startup_of e = Listening (str_or (env_str e "PORT") "4000") (env_str e "S3_BUCKET")
                    (mk_config (str_or (env_str e "S3_PROFILE_PREFIX") "profile-pics")
                               (env_str e "S3_PUBLIC_BASE_URL"))) /\
  (~ Forall (env_set e) requiredEnv ->
   exists pre k post, requiredEnv = pre ++ k :: post /\ Forall (env_set e) pre /\ ~ env_set e k /\
     startup_of e = Exit1 (missing_env_msg k)).
Proof.
  destruct (check_required_spec e requiredEnv) as [Hok Herr]. unfold startup_of. split.
  - intros Hall. apply Hok in Hall as ->. reflexivity.
  - intros Hn. destruct (check_required e requiredEnv) as [[]|msg] eqn:Hc; [exfalso; apply Hn, Hok; reflexivity|].
    destruct (Herr msg eq_refl) as (pre & k & post & Hks & Hpre & Hk & ->). eauto 8.
Qed.

Lemma startup_requires_env_witness :
  startup_of (<["AWS_ACCESS_KEY_ID" := "AKIA"]> (<["AWS_SECRET_ACCESS_KEY" := "secret"]>
               (<["AWS_REGION" := "ap-south-1"]> (<["S3_BUCKET" := "pics"]> ∅))))
  = Listening (str_or "" "4000") "pics" (mk_config (str_or "" "profile-pics") "") /\
  (exists pre k post, requiredEnv = pre ++ k :: post /\ Forall (env_set (<["AWS_ACCESS_KEY_ID" := "AKIA"]> ∅)) pre /\
     ~ env_set (<["AWS_ACCESS_KEY_ID" := "AKIA"]> ∅) k /\
     startup_of (<["AWS_ACCESS_KEY_ID" := "AKIA"]> ∅) = Exit1 (missing_env_msg k)).
Proof.
  split.
  - refine (proj1 (startup_requires_env (<["AWS_ACCESS_KEY_ID" := "AKIA"]> (<["AWS_SECRET_ACCESS_KEY" := "secret"]>
               (<["AWS_REGION" := "ap-south-1"]> (<["S3_BUCKET" := "pics"]> ∅))))) _).
    repeat constructor; eexists; (split; [reflexivity|discriminate]).
  - apply (proj2 (startup_requires_env _)). intros Hf.
    apply Forall_cons in Hf as [_ Hf]. apply Forall_cons in Hf as [(v & Hv & _) _]. discriminate.
Defined.
