(* ===== verification/Client.v ===== *)
(** * The client check [src/test-api.js] and the specification's scenarios

    [src/test-api.js] checks a running server in two steps: [GET /health]
    must answer a body whose [ok] is truthy, else it throws [Health check
    failed: JSON.stringify(data)]; then a [POST /api/upload/profile-pic]
    of the form [file] = the 18 bytes [fake image content] as [test.jpg]
    of type [image/jpeg], [userId] = ['test-user-' + Date.now()] must
    answer an [ok] status (200-299) and a truthy [url], else it throws
    [Upload test failed].  The first error ends the script: it prints the
    message, a hint to start the server when the message contains
    [fetch], and exits with status 1; otherwise it prints [All checks
    passed.].

    The client is run against the modelled application: [fetch] hands
    the request to [server_app], or throws [TypeError: fetch failed] (the
    message Node's [fetch] gives) when no server listens.  The response
    body is the [json] value the handler gave [res.json]: the JSON text
    [res.json()] parses on the client stands for the same value. *)

From stdpp Require Import base strings list gmap.
From Stdlib Require Import String Ascii ZArith Lia DecimalString.
From S2P Require Import Prelude JsString JsValue Validator Multipart KeyDeriver Storage Upload Uri Lookup Server.

Local Open Scope api_scope.

(** ** JSON on the client *)

(** [data?.k]: the value of a field of an object. *)
Definition json_get (j : json) (k : string) : option json :=
  match j with
  | JsonObj fields => match List.find (fun kv => String.eqb kv.1 k) fields with
                      | Some kv => Some kv.2
                      | None => None
                      end
  | _ => None
  end.

(** Truthiness of a parsed JSON value ([undefined] for a missing field). *)
Definition json_truthy (v : option json) : bool :=
  match v with
  | None | Some JsonNull => false
  | Some (JsonBool b) => b
  | Some (JsonNum n) => negb (N.eqb n 0)
  | Some (JsonStr s) => negb (String.eqb s "")
  | Some (JsonArr _) | Some (JsonObj _) => true
  end.

Definition double_quote : ascii := Ascii.ascii_of_nat 34.

Definition hex_lower (v : N) : ascii := Ascii.ascii_of_N (if (v <? 10)%N then 48 + v else 87 + v)%N.

(** [QuoteJSONString] on one byte: the two-character escapes, a [u00xx]
    escape for the other control characters, the byte itself otherwise. *)
Definition json_escape (c : ascii) : string :=
  let n := N_of_ascii c in
  if (n =? 34)%N then String backslash (String double_quote EmptyString)
  else if (n =? 92)%N then String backslash (String backslash EmptyString)
  else if (n =? 8)%N then String backslash "b"
  else if (n =? 9)%N then String backslash "t"
  else if (n =? 10)%N then String backslash "n"
  else if (n =? 12)%N then String backslash "f"
  else if (n =? 13)%N then String backslash "r"
  else if (n <? 32)%N then String backslash ("u00" +:+ String (hex_lower (n / 16)) (String (hex_lower (n mod 16)) EmptyString))
  else String c EmptyString.

Fixpoint json_quote_body (s : string) : string :=
  match s with
  | EmptyString => EmptyString
  | String c s' => json_escape c +:+ json_quote_body s'
  end.

Definition json_quote (s : string) : string :=
  String double_quote (json_quote_body s +:+ String double_quote EmptyString).

Definition decimal (n : N) : string := NilEmpty.string_of_uint (N.to_uint n).

(** [JSON.stringify], without spaces. *)
Fixpoint json_stringify (j : json) : string :=
  match j with
  | JsonNull => "null"
  | JsonBool true => "true"
  | JsonBool false => "false"
  | JsonNum n => decimal n
  | JsonStr s => json_quote s
  | JsonArr l => "[" +:+ String.concat "," (map json_stringify l) +:+ "]"
  | JsonObj fields =>
      "{" +:+ String.concat "," (map (fun kv => json_quote kv.1 +:+ ":" +:+ json_stringify kv.2) fields) +:+ "}"
  end.

(** ** The script *)

(** [res.ok] *)
Definition res_ok (r : response) : bool := (200 <=? status r)%N && (status r <=? 299)%N.

(** [testHealth] after the fetch. *)
Definition test_health (r : response) : result unit string :=
  if json_truthy (json_get (body r) "ok") then Ok tt
  else Err ("Health check failed: " +:+ json_stringify (body r)).

(** [new Blob(['fake image content'], { type: 'image/jpeg' })] *)
Definition fake_image : list Byte.byte := map Ascii.byte_of_ascii (list_ascii_of_string "fake image content").

(** ['test-user-' + Date.now()] *)
Definition test_user_id (now : N) : string := "test-user-" +:+ decimal now.

(** The form: [file] first, then [userId]. *)
Definition upload_form (now : N) : list part :=
  [FilePart "file" "test.jpg" "image/jpeg" fake_image; TextField "userId" (test_user_id now)].

(** [testUpload] after the fetch. *)
Definition test_upload (r : response) : result unit string :=
  if res_ok r && json_truthy (json_get (body r) "url") then Ok tt else Err "Upload test failed".

Definition fetch_failed_msg : string := "fetch failed".

(** What the script prints last, and its exit status. *)
Inductive client_outcome : Type :=
| AllPassed
| Failed (msg : string) (hint : bool).

Definition exit_code (o : client_outcome) : N :=
  match o with AllPassed => 0 | Failed _ _ => 1 end.

Section Script.
Context {S : Type} `{ObjectStore S}.

Definition fetch (server : option (request -> stm S response)) (req : request) : stm S response :=
  match server with
  | Some handle => handle req
  | None => stm_throw fetch_failed_msg
  end.

(** The async main function of lines 44-56. *)
Definition client_main (server : option (request -> stm S response)) (now : N) : stm S client_outcome :=
  stm_catch
    (r1 <- fetch server GetHealth ;;
     _ <- stm_lift (test_health r1) ;;
     r2 <- fetch server (PostUpload JUndefined JUndefined (upload_form now)) ;;
     _ <- stm_lift (test_upload r2) ;;
     stm_ret AllPassed)
    (fun msg => stm_ret (Failed msg (includes msg "fetch"))).

End Script.

(** The configuration with the optional variables unset. *)
Definition default_cfg : config := mk_config "profile-pics" "".

(** The key server.js derives for the script's upload. *)
Definition test_key (cfg : config) (now : N) : string :=
  cfg_prefix cfg +:+ "/" +:+ replace_slashes (test_user_id now) +:+ ".jpg".

(** ** Lemmas *)

Lemma str_app_String_nonempty (a b : string) (c : ascii) : a +:+ String c b <> "".
Proof. destruct a; [rewrite str_app_nil_l | rewrite str_app_cons]; discriminate. Qed.

Section ScriptLaws.
Context {S : Type} `{ObjectStoreLaws S}.

(** The URL of an upload is never empty. *)
Lemma resolve_url_nonempty (base key : string) (s : S) :
  exists url, resolve_url base key s = (Ok url, s) /\ url <> "".
Proof.
  destruct (resolve_url_ok base key s) as (url & Hu & Hb & Hp). exists url. split; [exact Hu|].
  destruct (truthy (JStr base)) eqn:Ht.
  - rewrite (Hb eq_refl). exact (str_app_String_nonempty _ ("" +:+ key) "/").
  - exact (os_presign_nonempty _ _ _ _ (Hp eq_refl)).
Qed.

(** The script's upload, through multer and the server.js handler. *)
Lemma server_app_test_form cfg uuid now (s : S) :
  server_app cfg uuid (PostUpload JUndefined JUndefined (upload_form now)) s =
  match os_put s (test_key cfg now) fake_image "image/jpeg" ServerJs.cache_control with
  | Ok s' => match resolve_url (cfg_public_base_url cfg) (test_key cfg now) s' with
             | (Ok url, s'') => (Ok (mk_response 201 (created_json url (test_key cfg now))), s'')
             | (Err e, s'') => upload_catch e s''
             end
  | Err e => upload_catch e s
  end.
Proof.
  unfold server_app, app.
  replace (multer_single (upload_form now)) with
    (Ok (mk_multer_state (<["userId" := JStr (test_user_id now)]> ∅)
           (Some (mk_upfile "file" "test.jpg" "image/jpeg" fake_image)) 0) : result multer_state app_error)
    by reflexivity.
  rewrite server_upload_eval. reflexivity.
Qed.

(** [GET /health] answers [{ok: true, ...}], which the script accepts. *)
Lemma server_app_health cfg uuid (s : S) :
  server_app cfg uuid GetHealth s = (Ok health_response, s) /\ test_health health_response = Ok tt.
Proof. split; reflexivity. Qed.

(** The script with a server, step by step. *)
Lemma client_main_eval (handle : request -> stm S response) now (s : S) :
  client_main (Some handle) now s =
  let fail m s' := (Ok (Failed m (includes m "fetch")), s') in
  match handle GetHealth s with
  | (Err m, s1) => fail m s1
  | (Ok r1, s1) =>
      match test_health r1 with
      | Err m => fail m s1
      | Ok _ =>
          match handle (PostUpload JUndefined JUndefined (upload_form now)) s1 with
          | (Err m, s2) => fail m s2
          | (Ok r2, s2) => match test_upload r2 with Err m => fail m s2 | Ok _ => (Ok AllPassed, s2) end
          end
      end
  end.
Proof.
  unfold client_main, stm_catch, stm_bind, stm_lift, fetch.
  destruct (handle GetHealth s) as [[r1|m] s1]; [|reflexivity].
  destruct (test_health r1); [|reflexivity].
  destruct (handle _ s1) as [[r2|m] s2]; [|reflexivity].
  destruct (test_upload r2); reflexivity.
Qed.

End ScriptLaws.

(** ** Properties *)

Section ScriptProperties.
Context {S : Type} `{ObjectStoreLaws S}.

(** C20: against server.js, [src/test-api.js] reports [All checks
    passed] exactly when the bucket accepts the put of its 18 bytes under
    [PROFILE_PREFIX/test-user-<now>.jpg], and the bucket then holds them
    there; when the put fails it reports [Upload test failed] (exit 1,
    no hint); with no server it reports [fetch failed] with the hint to
    start the server. *)
Theorem test_script_outcomes (cfg : config) (uuid : string) (now : N) (s : S) :
  (forall s', os_put s (test_key cfg now) fake_image "image/jpeg" ServerJs.cache_control = Ok s' ->
     client_main (Some (server_app cfg uuid)) now s = (Ok AllPassed, s') /\
     exists t, os_get s' (test_key cfg now) = Some (mk_s3object fake_image "image/jpeg" ServerJs.cache_control t)) /\
  (forall e, os_put s (test_key cfg now) fake_image "image/jpeg" ServerJs.cache_control = Err e ->
     client_main (Some (server_app cfg uuid)) now s = (Ok (Failed "Upload test failed" false), s)) /\
  client_main None now s = (Ok (Failed fetch_failed_msg true), s).
Proof.
  split; [|split; [|reflexivity]].
  - intros s' Hp. split; [|exact (os_put_get _ _ _ _ _ _ Hp)].
    rewrite client_main_eval. cbn zeta. rewrite (proj1 (server_app_health cfg uuid s)), (proj2 (server_app_health cfg uuid s)). cbn iota. rewrite server_app_test_form, Hp.
    destruct (resolve_url_nonempty (cfg_public_base_url cfg) (test_key cfg now) s') as (url & -> & Hu).
    unfold test_upload. simpl. apply String.eqb_neq in Hu. now rewrite Hu.
  - intros e Hp. rewrite client_main_eval. cbn zeta. rewrite (proj1 (server_app_health cfg uuid s)), (proj2 (server_app_health cfg uuid s)). cbn iota.
    rewrite server_app_test_form, Hp. reflexivity.
Qed.

(** C19: the specification's end-to-end scenarios against server.js with
    the default configuration: (1) an image of at most 5 MiB sent with
    [userId=test-user-1] is answered 201 with key
    [profile-pics/test-user-1.jpg] and a non-empty URL when the put
    succeeds; (2) a form without [file] is answered 400 [No file
    uploaded...]; (3) [notes.txt] of type [text/plain] is answered 400
    [Only images...]; (4) [GET /api/profile-pic/profile-pics%2Ftest-user-1.jpg]
    is answered 200 with the URL presigned for that key. *)
Theorem spec_scenarios (uuid : string) (data : list Byte.byte) (s : S) :
  (N.of_nat (List.length data) <= fileSize_limit)%N ->
  (forall s', os_put s "profile-pics/test-user-1.jpg" data "image/jpeg" ServerJs.cache_control = Ok s' ->
     exists url, url <> "" /\
       server_app default_cfg uuid
         (PostUpload (JStr "test-user-1") JUndefined [FilePart "file" "photo.jpg" "image/jpeg" data]) s
       = (Ok (mk_response 201 (created_json url "profile-pics/test-user-1.jpg")), s')) /\
  server_app default_cfg uuid (PostUpload JUndefined JUndefined [TextField "userId" "test-user-1"]) s
    = (Ok (mk_response 400 (error_json no_file_msg)), s) /\
  server_app default_cfg uuid (PostUpload JUndefined JUndefined [FilePart "file" "notes.txt" "text/plain" data]) s
    = (Ok (mk_response 400 (error_json only_images_msg)), s) /\
  exists url, os_presign s "profile-pics/test-user-1.jpg" 3600 = Ok url /\
    server_app default_cfg uuid (GetProfilePic "profile-pics%2Ftest-user-1.jpg") s
    = (Ok (mk_response 200 (url_json url)), s).
Proof.
  intros Hsize. split; [|split; [reflexivity|split; [reflexivity|]]].
  - intros s' Hp.
    assert (Hm : multer_single [FilePart "file" "photo.jpg" "image/jpeg" data]
                 = Ok (mk_multer_state ∅ (Some (mk_upfile "file" "photo.jpg" "image/jpeg" data)) 0)).
    { unfold multer_single. cbn [multer_parts multer_part]. rewrite multer_accept_file_accepted by reflexivity.
      unfold file_size. cbn [buffer]. now rewrite (proj2 (N.leb_le _ _) Hsize). }
    unfold server_app, app. rewrite Hm, server_upload_eval. cbn [req_file upload_request_of ms_file].
    replace (KeyDeriver.ServerJs.derive _ _ _ _ _) with
      (Ok ("profile-pics/test-user-1.jpg", "image/jpeg") : result (string * string) string) by reflexivity.
    cbn [buffer]. rewrite Hp.
    destruct (resolve_url_nonempty (cfg_public_base_url default_cfg) "profile-pics/test-user-1.jpg" s')
      as (url & -> & Hu).
    eauto.
  - destruct (os_presign_valid s "profile-pics/test-user-1.jpg" get_url_expires_in get_url_expires_in_valid)
      as [url Hu].
    exists url. split; [exact Hu|].
    change (server_app default_cfg uuid (GetProfilePic "profile-pics%2Ftest-user-1.jpg") s)
      with (get_url_handler "profile-pics/test-user-1.jpg" s).
    rewrite get_url_handler_eval.
    change (decodeURIComponent "profile-pics/test-user-1.jpg")
      with (@Ok string string "profile-pics/test-user-1.jpg").
    cbn iota. now rewrite Hu.
Qed.

End ScriptProperties.

(** ** Witnesses *)

Lemma test_script_outcomes_witness :
  (forall s', os_put (mk_mem_bucket ∅ 0 None "https://pics.s3.amazonaws.com" (fun _ _ => "sig"))
                (test_key default_cfg 1700000000000) fake_image "image/jpeg" ServerJs.cache_control = Ok s' ->
     client_main (Some (server_app default_cfg "u")) 1700000000000
       (mk_mem_bucket ∅ 0 None "https://pics.s3.amazonaws.com" (fun _ _ => "sig")) = (Ok AllPassed, s') /\
     exists t, os_get s' (test_key default_cfg 1700000000000)
               = Some (mk_s3object fake_image "image/jpeg" ServerJs.cache_control t)) /\
  (forall e, os_put (mk_mem_bucket ∅ 0 None "https://pics.s3.amazonaws.com" (fun _ _ => "sig"))
               (test_key default_cfg 1700000000000) fake_image "image/jpeg" ServerJs.cache_control = Err e ->
     client_main (Some (server_app default_cfg "u")) 1700000000000
       (mk_mem_bucket ∅ 0 None "https://pics.s3.amazonaws.com" (fun _ _ => "sig"))
     = (Ok (Failed "Upload test failed" false), mk_mem_bucket ∅ 0 None "https://pics.s3.amazonaws.com" (fun _ _ => "sig"))) /\
  client_main (S := mem_bucket) None 1700000000000 (mk_mem_bucket ∅ 0 None "https://pics.s3.amazonaws.com" (fun _ _ => "sig"))
  = (Ok (Failed fetch_failed_msg true), mk_mem_bucket ∅ 0 None "https://pics.s3.amazonaws.com" (fun _ _ => "sig")).
Proof. exact (test_script_outcomes default_cfg "u" 1700000000000 _). Defined.

Lemma spec_scenarios_witness :
  (forall s', os_put (mk_mem_bucket ∅ 0 None "https://pics.s3.amazonaws.com" (fun _ _ => "sig"))
                "profile-pics/test-user-1.jpg" (repeat Byte.xff 10) "image/jpeg" ServerJs.cache_control = Ok s' ->
     exists url, url <> "" /\
       server_app default_cfg "u"
         (PostUpload (JStr "test-user-1") JUndefined [FilePart "file" "photo.jpg" "image/jpeg" (repeat Byte.xff 10)])
         (mk_mem_bucket ∅ 0 None "https://pics.s3.amazonaws.com" (fun _ _ => "sig"))
       = (Ok (mk_response 201 (created_json url "profile-pics/test-user-1.jpg")), s')) /\
  server_app default_cfg "u" (PostUpload JUndefined JUndefined [TextField "userId" "test-user-1"])
    (mk_mem_bucket ∅ 0 None "https://pics.s3.amazonaws.com" (fun _ _ => "sig"))
    = (Ok (mk_response 400 (error_json no_file_msg)), mk_mem_bucket ∅ 0 None "https://pics.s3.amazonaws.com" (fun _ _ => "sig")) /\
  server_app default_cfg "u" (PostUpload JUndefined JUndefined [FilePart "file" "notes.txt" "text/plain" (repeat Byte.xff 10)])
    (mk_mem_bucket ∅ 0 None "https://pics.s3.amazonaws.com" (fun _ _ => "sig"))
    = (Ok (mk_response 400 (error_json only_images_msg)), mk_mem_bucket ∅ 0 None "https://pics.s3.amazonaws.com" (fun _ _ => "sig")) /\
  exists url, os_presign (mk_mem_bucket ∅ 0 None "https://pics.s3.amazonaws.com" (fun _ _ => "sig")) "profile-pics/test-user-1.jpg" 3600 = Ok url /\
    server_app default_cfg "u" (GetProfilePic "profile-pics%2Ftest-user-1.jpg")
      (mk_mem_bucket ∅ 0 None "https://pics.s3.amazonaws.com" (fun _ _ => "sig"))
    = (Ok (mk_response 200 (url_json url)), mk_mem_bucket ∅ 0 None "https://pics.s3.amazonaws.com" (fun _ _ => "sig")).
Proof. apply spec_scenarios. vm_compute. discriminate. Defined.
